(** * FileShare: a shallow embedding of the fetch / detect / build / install
      pipeline and of its removal contract.

    The repository ships two variants of the same program:
      - [src/fileshare.py]            ("FileShare v2"), embedded in [Module V2];
      - [src/FileShare/fileshare.py]  (the earlier variant), embedded in [Module V1].
    The helpers [run], [extract_zip], [clean_tempfolder] and [remove_repo] are
    textually identical in both files and are embedded once.

    Python code is embedded as functions in a small monad [Py] that threads
    the file system and the working directory, collects the observable
    events in order, and ends in a normal return, a [sys.exit] or an
    uncaught exception.  Everything outside the process (HTTP server, shell,
    child processes, zip decoding, the import machinery) is an oracle of
    the environment record [Env]. *)

From Stdlib Require Import ZArith Ascii String.
From stdpp Require Import base decidable option list gmap strings fin_maps.

Local Open Scope Z_scope.

(* ===================================================================== *)
(** ** Python string primitives used by the program *)
(* ===================================================================== *)

(** [c in s] for a one-character needle. *)
Fixpoint str_in (c : ascii) (s : string) : bool :=
  match s with
  | EmptyString => false
  | String a s' => if Ascii.eqb a c then true else str_in c s'
  end.

(** [s.split(sep)] for a one-character separator: never returns the empty
    list, and adjacent separators delimit empty fields. *)
Fixpoint py_split (sep : ascii) (s : string) : list string :=
  match s with
  | EmptyString => [EmptyString]
  | String a s' =>
      if Ascii.eqb a sep then EmptyString :: py_split sep s'
      else match py_split sep s' with
           | [] => [String a EmptyString]
           | h :: t => String a h :: t
           end
  end.

Fixpoint py_lstrip (c : ascii) (s : string) : string :=
  match s with
  | EmptyString => EmptyString
  | String a s' => if Ascii.eqb a c then py_lstrip c s' else s
  end.

Fixpoint py_rstrip (c : ascii) (s : string) : string :=
  match s with
  | EmptyString => EmptyString
  | String a s' =>
      match py_rstrip c s' with
      | EmptyString => if Ascii.eqb a c then EmptyString else String a EmptyString
      | r => String a r
      end
  end.

(** [s.strip(c)] *)
Definition py_strip (c : ascii) (s : string) : string :=
  py_rstrip c (py_lstrip c s).

(** [sep.join(l)] *)
Fixpoint py_join (sep : string) (l : list string) : string :=
  match l with
  | [] => ""
  | [x] => x
  | x :: l' => x +:+ sep +:+ py_join sep l'
  end.

(** [x in l] for a list of strings. *)
Definition list_in (x : string) (l : list string) : bool :=
  bool_decide (x ∈ l).

(** Number of occurrences of a character; the number of separators of a
    repository identifier is [count_char "/" s]. *)
Fixpoint count_char (c : ascii) (s : string) : nat :=
  match s with
  | EmptyString => O
  | String a s' => (if Ascii.eqb a c then 1 else 0)%nat + count_char c s'
  end.

Definition starts_with_slash (s : string) : bool :=
  match s with
  | String a _ => Ascii.eqb a "/"
  | EmptyString => false
  end.

(** [os.path.basename]: what follows the last slash. *)
Definition os_path_basename (p : string) : string :=
  List.last (py_split "/" p) "".

(** [os.path.join(a, b)] for a relative, non-empty [b] and [a] without a
    trailing slash (the only use in the program). *)
Definition os_path_join (a b : string) : string := a +:+ "/" +:+ b.

(** *** [pathlib.PurePosixPath]
    A path is an anchor and its components; empty and single-dot components
    are dropped when a path is parsed. (A root of exactly two slashes, which
    POSIX keeps apart, does not arise from the program's inputs.) *)
Record PurePath := mkPath { absolute : bool; parts : list string }.

Definition keep_part (c : string) : bool :=
  negb (String.eqb c "") && negb (String.eqb c ".").

Definition Path (s : string) : PurePath :=
  mkPath (starts_with_slash s) (List.filter keep_part (py_split "/" s)).

(** [p / s] *)
Definition truediv (p : PurePath) (s : string) : PurePath :=
  let q := Path s in
  if absolute q then q else mkPath (absolute p) (parts p ++ parts q).

(** [str(p)] *)
Definition Path_str (p : PurePath) : string :=
  match absolute p, parts p with
  | true, ps => "/" +:+ py_join "/" ps
  | false, [] => "."
  | false, ps => py_join "/" ps
  end.

(** [p.name] *)
Definition Path_name (p : PurePath) : string := List.last (parts p) "".

(* ===================================================================== *)
(** ** The world: file system, working directory, events *)
(* ===================================================================== *)

Inductive Node :=
| File (content : string)
| Dir.

#[global] Instance Node_eq_dec : EqDecision Node.
Proof. solve_decision. Defined.

(** The file system is a finite map from path strings to nodes; presence of
    a key is what [os.path.exists] observes. *)
Abbreviation FS := (gmap string Node).

Record World := mkWorld { fs : FS; cwd : string }.

Definition fs_has (m : FS) (p : string) : bool :=
  match m !! p with Some _ => true | None => false end.

(** A relative path is resolved against the working directory. *)
Definition resolve (w : World) (p : string) : string :=
  if starts_with_slash p then p else cwd w +:+ "/" +:+ p.

Inductive ExnClass :=
| ValueError | FileExistsError | FileNotFoundError | NotADirectoryError
| IsADirectoryError | BadZipFile | ModuleNotFoundError | OSError
| RequestException | RuntimeError | NotImplementedError.

#[global] Instance ExnClass_eq_dec : EqDecision ExnClass.
Proof. solve_decision. Defined.

Inductive PyExn := Exn (cls : ExnClass) (msg : string).

Definition exn_class (e : PyExn) : ExnClass := let 'Exn c _ := e in c.
Definition exn_msg (e : PyExn) : string := let 'Exn _ m := e in m.

Inductive Event :=
| EvPrint (msg : string)
| EvHttpGet (url : string)
| EvWrite (path : string)
| EvExtract (archive : string)
| EvExtractAborted (archive : string)
| EvMakedirs (path : string)
| EvChdir (path : string)
| EvChmod (path : string)
| EvProbe (path : string) (found : bool)
| EvShell (cmd : string) (rc : Z)
| EvExec (argv : list string) (rc : option Z).

#[global] Instance Event_eq_dec : EqDecision Event.
Proof. solve_decision. Defined.

Inductive HttpResult :=
| HttpResponse (status_code : Z) (content : string)
| HttpError (msg : string).

(** Everything outside the process. *)
Record Env := mkEnv {
  (** [os.geteuid()] *)
  geteuid : Z;
  (** [requests.get(url)] *)
  http_get : string -> HttpResult;
  (** [subprocess.run(cmd, shell=True)] in a working directory: the exit
      status and the file system the command leaves behind *)
  shell : string -> string -> FS -> Z * FS;
  (** [subprocess.run(argv, cwd=...)]: [None] when the program cannot be
      executed at all ([OSError]) *)
  exec : list string -> string -> FS -> option Z * FS;
  (** what [extractall] makes of a zip payload: the members it writes
      (paths relative to the extraction directory) and the exception it
      then raises when it does not get through the archive (an encrypted
      member, an unsupported compression method, a bad checksum); [None]
      for a payload that is not a zip archive *)
  unzip : string -> option (list (string * Node) * option PyExn);
  (** [importlib.util.find_spec(mod)] seen as a truth value; [None] when
      the call raises (the parent package of a dotted name is missing) *)
  find_spec : string -> option bool
}.

(* ===================================================================== *)
(** ** The monad of Python computations *)
(* ===================================================================== *)

Inductive Outcome (A : Type) :=
| Normal (a : A)
| SysExit (code : Z)
| Raised (e : PyExn).
Arguments Normal {A} a.
Arguments SysExit {A} code.
Arguments Raised {A} e.

Record Run (A : Type) := mkRun {
  outcome : Outcome A;
  world : World;
  events : list Event
}.
Arguments mkRun {A} _ _ _.
Arguments outcome {A} _.
Arguments world {A} _.
Arguments events {A} _.

Definition Py (A : Type) : Type := World -> Run A.

Definition ret {A} (a : A) : Py A := fun w => mkRun (Normal a) w [].

(** The run [r] seen after the events [evs] have already happened. *)
Definition prepend {A} (evs : list Event) (r : Run A) : Run A :=
  mkRun (outcome r) (world r) (evs ++ events r).

Definition bind {A B} (m : Py A) (k : A -> Py B) : Py B := fun w =>
  let r := m w in
  match outcome r with
  | Normal a => prepend (events r) (k a (world r))
  | SysExit c => mkRun (SysExit c) (world r) (events r)
  | Raised e => mkRun (Raised e) (world r) (events r)
  end.

Declare Scope py_scope.
Delimit Scope py_scope with py.
Notation "x <- m ;; k" := (bind m (fun x => k))
  (at level 100, m at next level, right associativity) : py_scope.
Notation "m ;; k" := (bind m (fun _ => k))
  (at level 100, right associativity) : py_scope.
Local Open Scope py_scope.

(** [sys.exit(code)] *)
Definition sys_exit {A} (code : Z) : Py A := fun w => mkRun (SysExit code) w [].

(** [raise] *)
Definition raise {A} (c : ExnClass) (msg : string) : Py A :=
  fun w => mkRun (Raised (Exn c msg)) w [].

(** [try: m  except <handles>: h e]; a [sys.exit] passes through, as
    [SystemExit] is not an [Exception]. *)
Definition try_except {A} (m : Py A) (handles : ExnClass -> bool)
    (h : PyExn -> Py A) : Py A := fun w =>
  let r := m w in
  match outcome r with
  | Raised e =>
      if handles (exn_class e) then prepend (events r) (h e (world r))
      else r
  | _ => r
  end.

Definition emit (e : Event) : Py unit := fun w => mkRun (Normal tt) w [e].

Definition print (msg : string) : Py unit := emit (EvPrint msg).

(** The process exit status of a run of [main]: an uncaught exception
    prints a traceback and exits with status 1. *)
Definition exit_code {A} (o : Outcome A) : Z :=
  match o with
  | Normal _ => 0
  | SysExit c => c
  | Raised _ => 1
  end.

(* ===================================================================== *)
(** ** Primitive operations of the Python runtime *)
(* ===================================================================== *)

Definition BASE_URL : string := "https://quanthai.net/repos".
Definition TMP_DIR : string := "/tmp/fsdl".

Section Program.

Variable E : Env.

(** [os.path.exists(p)] and [Path(p).exists()]; the empty path never
    exists. *)
Definition path_exists (p : string) : Py bool := fun w =>
  let b := if String.eqb p "" then false else fs_has (fs w) (resolve w p) in
  mkRun (Normal b) w [EvProbe p b].

(** [os.makedirs(p, exist_ok=True)] *)
Definition os_makedirs (p : string) : Py unit := fun w =>
  match fs w !! p with
  | Some (File _) => mkRun (Raised (Exn FileExistsError p)) w []
  | Some Dir => mkRun (Normal tt) w [EvMakedirs p]
  | None => mkRun (Normal tt) (mkWorld (<[p := Dir]> (fs w)) (cwd w)) [EvMakedirs p]
  end.

(** [os.chdir(p)] *)
Definition os_chdir (p : string) : Py unit := fun w =>
  match fs w !! resolve w p with
  | Some Dir => mkRun (Normal tt) (mkWorld (fs w) (resolve w p)) [EvChdir p]
  | Some (File _) => mkRun (Raised (Exn NotADirectoryError p)) w []
  | None => mkRun (Raised (Exn FileNotFoundError p)) w []
  end.

(** [os.chmod(p, 0o755)] *)
Definition os_chmod (p : string) : Py unit := fun w =>
  match fs w !! resolve w p with
  | Some _ => mkRun (Normal tt) w [EvChmod p]
  | None => mkRun (Raised (Exn FileNotFoundError p)) w []
  end.

(** [with open(p, "wb") as f: f.write(content)] *)
Definition write_file (p content : string) : Py unit := fun w =>
  match fs w !! resolve w p with
  | Some Dir => mkRun (Raised (Exn IsADirectoryError p)) w []
  | _ => mkRun (Normal tt)
           (mkWorld (<[resolve w p := File content]> (fs w)) (cwd w)) [EvWrite p]
  end.

(** [requests.get(url)] *)
Definition requests_get (url : string) : Py (Z * string) := fun w =>
  match http_get E url with
  | HttpResponse st body => mkRun (Normal (st, body)) w [EvHttpGet url]
  | HttpError msg => mkRun (Raised (Exn RequestException msg)) w [EvHttpGet url]
  end.

(** [subprocess.run(cmd, shell=True).returncode] *)
Definition subprocess_shell (cmd : string) : Py Z := fun w =>
  let '(rc, fs') := shell E cmd (cwd w) (fs w) in
  mkRun (Normal rc) (mkWorld fs' (cwd w)) [EvShell cmd rc].

(** [subprocess.run(argv, cwd=dir).returncode] *)
Definition subprocess_exec (argv : list string) (dir : string) : Py Z := fun w =>
  let '(r, fs') := exec E argv dir (fs w) in
  match r with
  | Some rc => mkRun (Normal rc) (mkWorld fs' (cwd w)) [EvExec argv (Some rc)]
  | None => mkRun (Raised (Exn OSError (List.hd "" argv))) (mkWorld fs' (cwd w))
              [EvExec argv None]
  end.

(** [zipfile.ZipFile(path).extractall(dest)]: a missing path and a
    directory raise when the file is opened, and so does a file that is
    not a zip archive ([BadZipFile]), nothing being written; otherwise the
    members are written one after the other until the archive is through
    or a member raises (an encrypted member [RuntimeError], an unsupported
    compression method [NotImplementedError], a bad checksum
    [BadZipFile]), the members before it staying in place. *)
Definition zip_extractall (path dest : string) : Py unit := fun w =>
  match fs w !! resolve w path with
  | None => mkRun (Raised (Exn FileNotFoundError path)) w []
  | Some Dir => mkRun (Raised (Exn IsADirectoryError path)) w []
  | Some (File payload) =>
      match unzip E payload with
      | None => mkRun (Raised (Exn BadZipFile "File is not a zip file")) w []
      | Some (members, err) =>
          let fs' := List.fold_left
                       (fun m kv => <[os_path_join dest (fst kv) := snd kv]> m)
                       members (fs w) in
          match err with
          | None => mkRun (Normal tt) (mkWorld fs' (cwd w)) [EvExtract path]
          | Some e => mkRun (Raised e) (mkWorld fs' (cwd w)) [EvExtractAborted path]
          end
      end
  end.

(** [importlib.util.find_spec(mod)] used as a condition *)
Definition importlib_find_spec (mod_ : string) : Py bool := fun w =>
  match find_spec E mod_ with
  | Some b => mkRun (Normal b) w []
  | None => mkRun (Raised (Exn ModuleNotFoundError mod_)) w []
  end.

(* ===================================================================== *)
(** ** Functions shared verbatim by both variants *)
(* ===================================================================== *)

(** [run(cmd)] *)
Definition run (cmd : string) : Py unit :=
  rc <- subprocess_shell cmd ;;
  if negb (rc =? 0) then
    (print ("Command failed: " +:+ cmd) ;; sys_exit 1)
  else ret tt.

(** [extract_zip(path)] *)
Definition extract_zip (path : string) : Py unit :=
  try_except
    (zip_extractall path TMP_DIR ;;
     print ("Extracted " +:+ os_path_basename path))
    (fun c => match c with BadZipFile => true | _ => false end)
    (fun _ => print ("Bad ZIP file: " +:+ os_path_basename path)).

(** [clean_tempfolder()] *)
Definition clean_tempfolder : Py unit :=
  run "sudo rm -rf /tmp/fsdl" ;;
  print "Cleaning complete".

(** Tuple unpacking [a, b = l]. *)
Definition unpack2 (l : list string) : Py (string * string) :=
  match l with
  | [a; b] => ret (a, b)
  | [] => raise ValueError "not enough values to unpack (expected 2, got 0)"
  | [_] => raise ValueError "not enough values to unpack (expected 2, got 1)"
  | _ => raise ValueError "too many values to unpack (expected 2)"
  end.

(** [remove_repo(repo_path)] *)
Definition remove_repo (repo_path : string) : Py unit :=
  reponame <- (if str_in "/" repo_path then
                 p <- unpack2 (py_split "/" repo_path) ;; ret (snd p)
               else ret repo_path) ;;
  let bin_path := "/usr/local/bin/" +:+ reponame in
  let share_path := "/usr/share/" +:+ reponame in
  b <- path_exists bin_path ;;
  (if b : bool then
     run ("sudo rm -rf " +:+ bin_path) ;;
     print ("Removed binary from " +:+ bin_path)
   else print "Binary not found in /usr/local/bin") ;;
  s <- path_exists share_path ;;
  (if s : bool then
     run ("sudo rm -rf " +:+ share_path) ;;
     print ("Removed directory " +:+ share_path)
   else print "Share directory not found").

(** The candidate files of a fetch, in probing order. *)
Definition files_to_try : list string :=
  ["main.zip"; "app.zip"; "root.zip"; "install.sh"].

(** One iteration of the download loop of [get_repo]; [downloaded] is the
    list the loop appends to. *)
Definition fetch_one (full_url fname : string) (downloaded : list string)
    : Py (list string) :=
  let file_url := full_url +:+ "/" +:+ fname in
  print ("Trying " +:+ file_url +:+ " ...") ;;
  try_except
    (res <- requests_get file_url ;;
     if fst res =? 200 then
       let local_path := os_path_join TMP_DIR fname in
       write_file local_path (snd res) ;;
       print ("Downloaded " +:+ fname) ;;
       ret (downloaded ++ [fname])
     else
       (print ("Not found: " +:+ fname) ;; ret downloaded))
    (fun _ => true)
    (fun e => print ("Error fetching " +:+ fname +:+ ": " +:+ exn_msg e) ;;
              ret downloaded).

(** [for fname in files_to_try: ...] *)
Fixpoint fetch_loop (full_url : string) (fnames : list string)
    (downloaded : list string) : Py (list string) :=
  match fnames with
  | [] => ret downloaded
  | fname :: rest =>
      d <- fetch_one full_url fname downloaded ;;
      fetch_loop full_url rest d
  end.

(** [for fname in ["main.zip", "app.zip", "root.zip"]: ...] *)
Fixpoint extract_loop (fnames : list string) : Py unit :=
  match fnames with
  | [] => ret tt
  | fname :: rest =>
      let path := os_path_join TMP_DIR fname in
      b <- path_exists path ;;
      (if b : bool then extract_zip path else ret tt) ;;
      extract_loop rest
  end.

End Program.

(* ===================================================================== *)
(** ** [src/fileshare.py] *)
(* ===================================================================== *)

Module V2.

Definition help_text : string := "
FileShare v2, Universal Software Deployer, Written by Quan Thai

Usage:
  fileshare get <user/repo> [--no-unzip]
      Downloads and installs a repo from quanthai.net.
      --no-unzip: Skips extracting and installing — just fetches files into /tmp/fsdl.

  fileshare remove <repo>
      Removes installed binary and associated share directory.

  fileshare clean
      Removes the temporary build directory at /tmp/fsdl.

  fileshare --help
      Shows this help message.
".

Definition known_hidden_imports : list string :=
  ["pyttsx3"; "pkg_resources.py2_warn"; "engine"; "comtypes"; "dnspython";
   "sympy"; "numpy"].

Section Program.

Variable E : Env.

(** [[f"--hidden-import={mod}" for mod in mods if importlib.util.find_spec(mod)]] *)
Fixpoint hidden_imports (mods : list string) : Py (list string) :=
  match mods with
  | [] => ret []
  | mod_ :: rest =>
      b <- importlib_find_spec E mod_ ;;
      l <- hidden_imports rest ;;
      ret (if b : bool then ("--hidden-import=" +:+ mod_) :: l else l)
  end.

(** [detect_and_build(reponame)]; the result is [None] also when control
    falls off the end of the Python branch. *)
Definition detect_and_build (reponame : string) : Py (option string) :=
  os_chdir TMP_DIR ;;
  let py_flags := "" in
  imports <- hidden_imports known_hidden_imports ;;
  let py_flags := py_flags +:+ " " +:+ py_join " " imports in
  is_py <- path_exists "main.py" ;;
  if is_py : bool then
    print "Detected Python app. Building with PyInstaller..." ;;
    run E "pip install pyinstaller" ;;
    let build_cmd := "sudo pyinstaller --onefile main.py --name " +:+ reponame
                       +:+ " " +:+ py_flags in
    run E build_cmd ;;
    let binary_path := Path_str (truediv (truediv (Path TMP_DIR) "dist") reponame) in
    built <- path_exists binary_path ;;
    if built : bool then ret (Some binary_path) else ret None
  else
    is_go <- path_exists "main.go" ;;
    if is_go : bool then
      print "Detected Go app. Building with go build..." ;;
      run E ("go build -o " +:+ reponame +:+ " main.go") ;;
      ret (Some reponame)
    else
      is_cpp <- path_exists "main.cpp" ;;
      if is_cpp : bool then
        print "Detected C++ app. Building with g++..." ;;
        run E ("g++ main.cpp -o " +:+ reponame) ;;
        ret (Some reponame)
      else
        is_make <- path_exists "Makefile" ;;
        if is_make : bool then
          print "Makefile found. Running make..." ;;
          run E "make" ;;
          ret None
        else
          print "No known entry point found. Please consider checking the repository's source.'" ;;
          ret None.

(** [install_binary(binary_path, reponame)] *)
Definition install_binary (binary_path reponame : string) : Py unit :=
  let bin_name := Path_name (Path binary_path) in
  let dest_bin := "/usr/local/bin/" +:+ bin_name in
  let share_dir := "/usr/share/" +:+ reponame in
  run E ("chmod +x " +:+ binary_path) ;;
  run E ("sudo cp " +:+ binary_path +:+ " " +:+ dest_bin) ;;
  run E ("sudo mkdir -p " +:+ share_dir) ;;
  run E ("sudo cp " +:+ binary_path +:+ " " +:+ share_dir) ;;
  print ("Installed as '" +:+ bin_name +:+ "'").

(** [binary_path and os.path.exists(binary_path)]: [None] and the empty
    string are falsy and are not probed. *)
Definition usable_binary (binary_path : option string) : Py (option string) :=
  match binary_path with
  | None => ret None
  | Some p =>
      if String.eqb p "" then ret None
      else b <- path_exists p ;; ret (if b : bool then Some p else None)
  end.

(** [get_repo(repo_path, flags)] *)
Definition get_repo (repo_path : string) (flags : list string) : Py unit :=
  let no_unzip := list_in "--no-unzip" flags in
  print ("Fetching repo: " +:+ repo_path) ;;
  let full_url := BASE_URL +:+ "/" +:+ repo_path in
  os_makedirs TMP_DIR ;;
  downloaded <- fetch_loop E full_url files_to_try [] ;;
  match downloaded with
  | [] => print "No files found in repo." ;; sys_exit 1
  | _ :: _ =>
    if no_unzip then
      print "--no-unzip used. Skipping extraction and install."
    else
      extract_loop E ["main.zip"; "app.zip"; "root.zip"] ;;
      os_chdir TMP_DIR ;;
      p <- unpack2 (py_split "/" repo_path) ;;
      let reponame := snd p in
      if list_in "install.sh" downloaded then
        print "install.sh found. Running and skipping default installer protocol..." ;;
        os_chmod "install.sh" ;;
        rc <- (fun w => subprocess_exec E ["./install.sh"] (cwd w) w) ;;
        if negb (rc =? 0) then print "install.sh failed. Aborting."
        else ret tt
      else
        print "No install.sh found. Using automatic installer protocol..." ;;
        binary_path <- detect_and_build reponame ;;
        usable <- usable_binary binary_path ;;
        match usable with
        | Some bp => install_binary bp reponame
        | None => print "Build failed or binary not found."
        end ;;
        print "Done."
  end.

(** [print_help()] *)
Definition print_help : Py unit := print help_text.

(** [main()] with [sys.argv = argv] *)
Definition main (argv : list string) : Py unit :=
  (if negb (geteuid E =? 0) then
     print "Please run with sudo." ;; sys_exit 1
   else ret tt) ;;
  (if (length argv <? 2)%nat || list_in "--help" argv then
     print_help ;; sys_exit 0
   else ret tt) ;;
  let command := List.nth 1 argv "" in
  (if negb (list_in command ["get"; "remove"; "clean"]) then
     print ("Unknown command: " +:+ command) ;; print_help ;; sys_exit 1
   else ret tt) ;;
  if String.eqb command "clean" then clean_tempfolder E
  else
    (if (length argv <? 3)%nat then
       print "Error: Missing repo path." ;; print_help ;; sys_exit 1
     else ret tt) ;;
    let repo_path := py_strip "/" (List.nth 2 argv "") in
    let flags := List.skipn 3 argv in
    if String.eqb command "get" then get_repo repo_path flags
    else if String.eqb command "remove" then remove_repo E repo_path
    else ret tt.

End Program.

End V2.

(* ===================================================================== *)
(** ** [src/FileShare/fileshare.py] *)
(* ===================================================================== *)

Module V1.

Definition help_text : string := "
fileshare - lightweight universal repo fetcher & builder

Usage:
  fileshare get <user/repo> [--no-unzip] [--ignore-default]
      Downloads and installs a repo from quanthai.net.
      --no-unzip: Skips extracting downloaded zip files.
      --ignore-default: Runs install.sh if available instead of auto-detect.

  fileshare remove <user/repo>
      Removes installed binary and associated share directory.

  fileshare clean
      Wipes the temporary build directory at /tmp/fsdl.

  fileshare --help
      Shows this help message.
".

Section Program.

Variable E : Env.

(** [detect_and_build()] *)
Definition detect_and_build : Py (option string) :=
  os_chdir TMP_DIR ;;
  is_py <- path_exists "main.py" ;;
  if is_py : bool then
    print "Detected Python app. Building with PyInstaller..." ;;
    run E "pip install pyinstaller" ;;
    run E "pyinstaller --onefile main.py" ;;
    ret (Some "dist/main")
  else
    is_go <- path_exists "main.go" ;;
    if is_go : bool then
      print "Detected Go app. Building with go build..." ;;
      run E "go build -o app_bin main.go" ;;
      ret (Some "app_bin")
    else
      is_cpp <- path_exists "main.cpp" ;;
      if is_cpp : bool then
        print "Detected C++ app. Building with g++..." ;;
        run E "g++ main.cpp -o app_bin" ;;
        ret (Some "app_bin")
      else
        is_make <- path_exists "Makefile" ;;
        if is_make : bool then
          print "Makefile found. Running make..." ;;
          run E "make" ;;
          ret None
        else
          print "No known entry point found. Please consider using --no-unzip or --ignore-default." ;;
          ret None.

(** [install_binary(binary_path, reponame)] *)
Definition install_binary (binary_path reponame : string) : Py unit :=
  let bin_name := Path_name (Path binary_path) in
  run E ("chmod +x " +:+ binary_path) ;;
  run E ("sudo cp " +:+ binary_path +:+ " /usr/local/bin/" +:+ bin_name) ;;
  run E ("sudo mkdir -p /usr/share/" +:+ reponame +:+ "/") ;;
  run E ("sudo cp " +:+ binary_path +:+ " /usr/share/" +:+ reponame +:+ "/") ;;
  print ("Installed as '" +:+ bin_name +:+ "'") ;;
  run E "sudo rm -rf /tmp/fsdl".

(** [binary_path and os.path.exists(binary_path)] *)
Definition usable_binary (binary_path : option string) : Py (option string) :=
  match binary_path with
  | None => ret None
  | Some p =>
      if String.eqb p "" then ret None
      else b <- path_exists p ;; ret (if b : bool then Some p else None)
  end.

(** [get_repo(repo_path, flags)] *)
Definition get_repo (repo_path : string) (flags : list string) : Py unit :=
  let no_unzip := list_in "--no-unzip" flags in
  let ignore_default := list_in "--ignore-default" flags in
  print ("Fetching repo: " +:+ repo_path) ;;
  let full_url := BASE_URL +:+ "/" +:+ repo_path in
  os_makedirs TMP_DIR ;;
  downloaded <- fetch_loop E full_url files_to_try [] ;;
  match downloaded with
  | [] => print "No files found in repo." ;; sys_exit 1
  | _ :: _ =>
    (if negb no_unzip then extract_loop E ["main.zip"; "app.zip"; "root.zip"]
     else ret tt) ;;
    let install_script := os_path_join TMP_DIR "install.sh" in
    p <- unpack2 (py_split "/" repo_path) ;;
    let reponame := snd p in
    (if ignore_default && list_in "install.sh" downloaded then
       print "Running install.sh ..." ;;
       os_chmod install_script ;;
       _ <- subprocess_exec E [install_script] TMP_DIR ;;
       ret tt
     else
       print "Using automatic language detection..." ;;
       binary_path <- detect_and_build ;;
       usable <- usable_binary binary_path ;;
       match usable with
       | Some bp => install_binary bp reponame
       | None => print "Build failed or output binary not found."
       end) ;;
    print "Done."
  end.

(** [print_help()] *)
Definition print_help : Py unit := print help_text.

(** [main()] with [sys.argv = argv] *)
Definition main (argv : list string) : Py unit :=
  (if negb (geteuid E =? 0) then
     print "Please run with sudo." ;; sys_exit 1
   else ret tt) ;;
  (if (length argv <? 2)%nat || list_in "--help" argv then
     print_help ;; sys_exit 0
   else ret tt) ;;
  let command := List.nth 1 argv "" in
  (if negb (list_in command ["get"; "remove"; "clean"]) then
     print ("Unknown command: " +:+ command) ;; print_help ;; sys_exit 1
   else ret tt) ;;
  if String.eqb command "clean" then clean_tempfolder E
  else
    (if (length argv <? 3)%nat then
       print "Error: Missing repo path." ;; print_help ;; sys_exit 1
     else ret tt) ;;
    let repo_path := py_strip "/" (List.nth 2 argv "") in
    let flags := List.skipn 3 argv in
    if String.eqb command "get" then get_repo repo_path flags
    else if String.eqb command "remove" then remove_repo E repo_path
    else ret tt.

End Program.

End V1.

(* ===================================================================== *)
(** ** A reference environment
    A small simulated machine on which the program can be run: a shell
    that understands the command shapes the program issues, a server
    given by the list of files it holds, and archives encoded as text. *)
(* ===================================================================== *)

Module RefEnv.

Definition is_under (p q : string) : bool :=
  String.eqb p q || String.prefix (p +:+ "/") q.

(** [rm -rf p]: the node and everything below it disappear. *)
Definition rm_rf (p : string) (m : FS) : FS :=
  filter (fun kv => is_under p (fst kv) = false) m.

Definition words (cmd : string) : list string :=
  List.filter (fun s => negb (String.eqb s "")) (py_split " " cmd).

Definition abs_path (dir p : string) : string :=
  if starts_with_slash p then p else dir +:+ "/" +:+ p.

(** [cp src dst]: into [dst] when it is a directory, onto it otherwise. *)
Definition cp (dir src dst : string) (m : FS) : Z * FS :=
  match m !! abs_path dir src with
  | Some n =>
      let d := py_rstrip "/" (abs_path dir dst) in
      match m !! d with
      | Some Dir => (0, <[d +:+ "/" +:+ os_path_basename src := n]> m)
      | _ => (0, <[d := n]> m)
      end
  | None => (1, m)
  end.

(** A compiler: needs its source file, leaves the output file. *)
Definition compile (dir src out : string) (m : FS) : Z * FS :=
  match m !! abs_path dir src with
  | Some _ => (0, <[abs_path dir out := File "ELF"]> m)
  | None => (1, m)
  end.

Definition sh_words (ws : list string) (dir : string) (m : FS) : Z * FS :=
  match ws with
  | "rm" :: "-rf" :: ps =>
      (0, List.fold_right (fun p m' => rm_rf (abs_path dir p) m') m ps)
  | ["mkdir"; "-p"; p] =>
      let d := py_rstrip "/" (abs_path dir p) in
      (0, match m !! d with Some _ => m | None => <[d := Dir]> m end)
  | ["cp"; src; dst] => cp dir src dst m
  | ["chmod"; "+x"; p] =>
      (match m !! abs_path dir p with Some _ => 0 | None => 1 end, m)
  | ["go"; "build"; "-o"; out; src] => compile dir src out m
  | ["g++"; src; "-o"; out] => compile dir src out m
  | ["pip"; "install"; _] => (0, m)
  | "pyinstaller" :: "--onefile" :: src :: "--name" :: out :: _ =>
      compile dir src ("dist/" +:+ out) m
  | ["pyinstaller"; "--onefile"; src] => compile dir src "dist/main" m
  | ["make"] => (0, m)
  | _ => (127, m)
  end.

Definition sh (cmd dir : string) (m : FS) : Z * FS :=
  match words cmd with
  | "sudo" :: ws => sh_words ws dir m
  | ws => sh_words ws dir m
  end.

(** A program named relative to the current directory. *)
Definition script_name (p : string) : string :=
  match p with
  | String "." (String "/" q) => q
  | _ => p
  end.

(** A shell script: an interpreter line followed by [body]. *)
Definition script (body : string) : string :=
  "#!/bin/sh" +:+ String "010" body.

(** The status of a file executed as a program: a file without
    interpreter line cannot be executed; a script whose second line is
    [exit d] ends with status [d], any other script with status 0. *)
Definition script_status (content : string) : option Z :=
  match content with
  | String "#" (String "!" rest) =>
      match py_split "010" rest with
      | [_; String "e" (String "x" (String "i" (String "t"
              (String " " (String d EmptyString)))))] =>
          Some (Z.of_nat (nat_of_ascii d) - 48)
      | _ => Some 0
      end
  | _ => None
  end.

Definition run_script (argv : list string) (dir : string) (m : FS)
    : option Z * FS :=
  match m !! abs_path dir (script_name (List.hd "" argv)) with
  | Some (File content) => (script_status content, m)
  | _ => (None, m)
  end.

(** Archives: the payload ["zip:" ++ name] holds the single member [name];
    the payload ["enc:" ++ name] holds the single member [name],
    encrypted, which [extractall] refuses. *)
Definition decode_zip (payload : string)
    : option (list (string * Node) * option PyExn) :=
  match payload with
  | String "z" (String "i" (String "p" (String ":" name))) =>
      Some ([(name, File "src")], None)
  | String "e" (String "n" (String "c" (String ":" name))) =>
      Some ([], Some (Exn RuntimeError
                        ("File '" +:+ name +:+
                         "' is encrypted, password required for extraction")))
  | _ => None
  end.

(** A server holding the given files (URL, body); every other URL is 404. *)
Fixpoint serve (files : list (string * string)) (url : string) : HttpResult :=
  match files with
  | [] => HttpResponse 404 ""
  | (u, body) :: rest =>
      if String.eqb u url then HttpResponse 200 body else serve rest url
  end.

Definition env (uid : Z) (files : list (string * string)) : Env :=
  mkEnv uid (serve files) sh run_script decode_zip (fun _ => Some false).

Definition empty_world : World := mkWorld ∅ "/".

End RefEnv.

(* ===================================================================== *)
(** ** Vocabulary of the properties *)
(* ===================================================================== *)

Definition is_shell (e : Event) : bool :=
  match e with EvShell _ _ => true | _ => false end.

Definition is_exec (e : Event) : bool :=
  match e with EvExec _ _ => true | _ => false end.

Definition is_http (e : Event) : bool :=
  match e with EvHttpGet _ => true | _ => false end.

Definition is_write (e : Event) : bool :=
  match e with EvWrite _ => true | _ => false end.

Definition is_extract (e : Event) : bool :=
  match e with EvExtract _ | EvExtractAborted _ => true | _ => false end.

(** The marker files the Detector probes, in priority order. *)
Definition markers : list string := ["main.py"; "main.go"; "main.cpp"; "Makefile"].

Definition is_marker_probe (e : Event) : bool :=
  match e with EvProbe p _ => list_in p markers | _ => false end.

(** Events that change the file system or reach the network. *)
Definition is_effect (e : Event) : bool :=
  match e with
  | EvPrint _ | EvProbe _ _ => false
  | _ => true
  end.

(** The shell commands of a trace, in order. *)
Fixpoint shell_cmds (evs : list Event) : list string :=
  match evs with
  | [] => []
  | EvShell cmd _ :: rest => cmd :: shell_cmds rest
  | _ :: rest => shell_cmds rest
  end.

(** The URLs requested by a trace, in order. *)
Fixpoint http_urls (evs : list Event) : list string :=
  match evs with
  | [] => []
  | EvHttpGet u :: rest => u :: http_urls rest
  | _ :: rest => http_urls rest
  end.


(** Neither the Detector (marker probes) nor the Builder or Installer
    (shell commands) left a trace. *)
Definition no_detect_no_build (e : Event) : bool :=
  negb (is_shell e) && negb (is_marker_probe e).

(** The candidate was persisted into the Workspace by the fetch. *)
Definition retrieved (fname : string) (evs : list Event) : Prop :=
  EvWrite (os_path_join TMP_DIR fname) ∈ evs.

(** Every event of every run of [m] satisfies [P]. *)
Definition emits {A} (P : Event -> bool) (m : Py A) : Prop :=
  forall w, forallb P (events (m w)) = true.

(** A run of [m] ends in [sys.exit(1)] as soon as one of its shell
    commands has a non-zero status. *)
Definition strict {A} (m : Py A) : Prop :=
  forall w cmd rc, EvShell cmd rc ∈ events (m w) -> rc <> 0 ->
    outcome (m w) = SysExit 1.

(** [rm -rf p], when it reports success, leaves [p] absent and creates
    nothing. *)
Definition rm_rf_sound (E : Env) (p : string) : Prop :=
  forall dir (m : FS),
    fst (shell E ("sudo rm -rf " +:+ p) dir m) = 0 ->
    snd (shell E ("sudo rm -rf " +:+ p) dir m) !! p = None /\
    forall q, m !! q = None -> snd (shell E ("sudo rm -rf " +:+ p) dir m) !! q = None.

(** The package name [remove_repo] derives from its argument. *)
Definition package_name (x : string) : string :=
  if str_in "/" x then List.last (py_split "/" x) "" else x.

(** The part of [remove_repo] that follows the choice of the package name. *)
Definition remove_paths (E : Env) (reponame : string) : Py unit :=
  (let bin_path := "/usr/local/bin/" +:+ reponame in
   let share_path := "/usr/share/" +:+ reponame in
   b <- path_exists bin_path ;;
   (if b : bool then
      run E ("sudo rm -rf " +:+ bin_path) ;;
      print ("Removed binary from " +:+ bin_path)
    else print "Binary not found in /usr/local/bin") ;;
   s <- path_exists share_path ;;
   (if s : bool then
      run E ("sudo rm -rf " +:+ share_path) ;;
      print ("Removed directory " +:+ share_path)
    else print "Share directory not found"))%py.

(** *** Detection, in the words of the specification *)

Inductive BuildStrategy :=
| PythonEntry | GoEntry | NativeEntry | GenericMakefile | Unknown.

(** The strategies with their marker files, in priority order. *)
Definition priority : list (BuildStrategy * string) :=
  [(PythonEntry, "main.py"); (GoEntry, "main.go"); (NativeEntry, "main.cpp");
   (GenericMakefile, "Makefile")].

(** "Returns the first match; returns Unknown if none match." *)
Fixpoint first_match (present : string -> bool)
    (l : list (BuildStrategy * string)) : BuildStrategy :=
  match l with
  | [] => Unknown
  | (s, m) :: rest => if present m then s else first_match present rest
  end.

(** The probes of a detector that stops at the first match. *)
Fixpoint probes_until (present : string -> bool)
    (l : list (BuildStrategy * string)) : list (string * bool) :=
  match l with
  | [] => []
  | (_, m) :: rest =>
      if present m then [(m, true)] else (m, false) :: probes_until present rest
  end.

Definition in_workspace (w : World) (name : string) : bool :=
  fs_has (fs w) (os_path_join TMP_DIR name).

Definition Detector (w : World) : BuildStrategy :=
  first_match (in_workspace w) priority.



(** A Workspace holding a Go entry point next to a C++ one and a Makefile. *)
Definition mixed_workspace : World :=
  mkWorld (list_to_map [("/tmp/fsdl", Dir);
                        ("/tmp/fsdl/main.go", File "package main");
                        ("/tmp/fsdl/main.cpp", File "int main() {}");
                        ("/tmp/fsdl/Makefile", File "all:")]) "/".

(** A machine on which the package is installed. *)
Definition installed_world : World :=
  mkWorld (list_to_map [("/usr/local/bin/tool", File "ELF");
                        ("/usr/share/tool", Dir);
                        ("/usr/share/tool/tool", File "ELF");
                        ("/home/alice/notes", File "keep")]) "/".


(** *** The download loop
    What a run [r] of the download loop over [fnames], started in world
    [w] with [d0] already recorded, looks like: it returns the extended
    list; it requests every candidate URL in order; a name is recorded
    exactly when it was recorded before or its file was written by this
    run; every file written is a candidate of the Workspace and is a
    regular file afterwards; every other path is untouched; and a
    candidate is retrieved exactly when the server answers 200 for it and
    its path in the Workspace is not a directory. *)
(** The server answers 200 for the candidate. *)
Definition served (E : Env) (url f : string) : Prop :=
  exists body, http_get E (url +:+ "/" +:+ f) = HttpResponse 200 body.

Definition fetch_post (E : Env) (url : string) (fnames d0 : list string)
    (w : World) (r : Run (list string)) : Prop :=
  exists d,
    outcome r = Normal d /\ cwd (world r) = cwd w /\
    http_urls (events r) = List.map (fun f => url +:+ "/" +:+ f) fnames /\
    (forall f, f ∈ d <-> f ∈ d0 \/ (f ∈ fnames /\ retrieved f (events r))) /\
    (forall p, EvWrite p ∈ events r ->
       (exists f, f ∈ fnames /\ p = os_path_join TMP_DIR f) /\
       exists c, fs (world r) !! p = Some (File c)) /\
    (forall p, EvWrite p ∉ events r -> fs (world r) !! p = fs w !! p) /\
    (forall f, f ∈ fnames ->
       retrieved f (events r) <->
       served E url f /\ fs w !! os_path_join TMP_DIR f <> Some Dir).

(** *** Extraction *)

(** What extraction may do to the world: nothing disappears, the Workspace
    directory itself stays as it is, the working directory is kept. *)
Definition grows (w w' : World) : Prop :=
  cwd w' = cwd w /\ fs w' !! TMP_DIR = fs w !! TMP_DIR /\
  forall p, is_Some (fs w !! p) -> is_Some (fs w' !! p).

(** An exception [e] that ends a run with events [evs] was raised by the
    extraction: it is not the [BadZipFile] that [extract_zip] catches, and
    it is the [IsADirectoryError] of an archive path that is a directory
    or follows an extraction that broke off. *)
Definition extraction_error (e : PyExn) (evs : list Event) : Prop :=
  exn_class e <> BadZipFile /\
  (exn_class e = IsADirectoryError \/ exists p, EvExtractAborted p ∈ evs).

Definition extract_post (w : World) (r : Run unit) : Prop :=
  grows w (world r) /\
  (outcome r = Normal tt \/
   exists e, outcome r = Raised e /\ extraction_error e (events r)).

(** The archive [f] of the Workspace is unpacked, or reported as bad. *)
Definition unpacked (f : string) (evs : list Event) : Prop :=
  EvExtract (os_path_join TMP_DIR f) ∈ evs \/
  EvPrint ("Bad ZIP file: " +:+ os_path_basename (os_path_join TMP_DIR f)) ∈ evs.


(** *** Classes of events, by the stage of the pipeline that emits them *)

Definition fetch_event (e : Event) : bool :=
  match e with EvPrint _ | EvHttpGet _ | EvWrite _ => true | _ => false end.

Definition unpack_event (e : Event) : bool :=
  match e with
  | EvPrint _ | EvProbe _ _ | EvExtract _ | EvExtractAborted _ => true
  | _ => false
  end.

Definition build_event (e : Event) : bool :=
  match e with
  | EvPrint _ | EvChdir _ | EvProbe _ _ | EvShell _ _ => true
  | _ => false
  end.

Definition script_event (e : Event) : bool :=
  match e with EvPrint _ | EvChmod _ | EvExec _ _ => true | _ => false end.

(** What a fetch without installation may emit. *)
Definition fetch_only (e : Event) : bool :=
  match e with
  | EvPrint _ | EvMakedirs _ | EvHttpGet _ | EvWrite _ => true
  | _ => false
  end.

(** *** The stages of [get_repo]
    [get_repo] is one function in the source; its stages are named here
    so that each can be specified on its own. [v2_get_repo_stages] and
    [v1_get_repo_stages] show that the stages compose to the function. *)

Definition fetch_stage {A} (E : Env) (repo_path : string)
    (k : list string -> Py A) : Py A :=
  (print ("Fetching repo: " +:+ repo_path) ;;
   os_makedirs TMP_DIR ;;
   downloaded <- fetch_loop E (BASE_URL +:+ "/" +:+ repo_path) files_to_try [] ;;
   k downloaded)%py.

Definition v2_script (E : Env) : Py unit :=
  (print "install.sh found. Running and skipping default installer protocol..." ;;
   os_chmod "install.sh" ;;
   rc <- (fun w => subprocess_exec E ["./install.sh"] (cwd w) w) ;;
   if negb (rc =? 0) then print "install.sh failed. Aborting."
   else ret tt)%py.

Definition v2_auto (E : Env) (reponame : string) : Py unit :=
  (print "No install.sh found. Using automatic installer protocol..." ;;
   binary_path <- V2.detect_and_build E reponame ;;
   usable <- V2.usable_binary binary_path ;;
   match usable with
   | Some bp => V2.install_binary E bp reponame
   | None => print "Build failed or binary not found."
   end ;;
   print "Done.")%py.

Definition v2_install_phase (E : Env) (repo_path : string)
    (downloaded : list string) : Py unit :=
  (extract_loop E ["main.zip"; "app.zip"; "root.zip"] ;;
   os_chdir TMP_DIR ;;
   p <- unpack2 (py_split "/" repo_path) ;;
   if list_in "install.sh" downloaded then v2_script E
   else v2_auto E (snd p))%py.

Definition v2_after_fetch (E : Env) (repo_path : string) (flags : list string)
    (downloaded : list string) : Py unit :=
  match downloaded with
  | [] => (print "No files found in repo." ;; sys_exit 1)%py
  | _ :: _ =>
      if list_in "--no-unzip" flags then
        print "--no-unzip used. Skipping extraction and install."
      else v2_install_phase E repo_path downloaded
  end.

Definition v1_script (E : Env) : Py unit :=
  (print "Running install.sh ..." ;;
   os_chmod (os_path_join TMP_DIR "install.sh") ;;
   _ <- subprocess_exec E [os_path_join TMP_DIR "install.sh"] TMP_DIR ;;
   ret tt)%py.

Definition v1_auto (E : Env) (reponame : string) : Py unit :=
  (print "Using automatic language detection..." ;;
   binary_path <- V1.detect_and_build E ;;
   usable <- V1.usable_binary binary_path ;;
   match usable with
   | Some bp => V1.install_binary E bp reponame
   | None => print "Build failed or output binary not found."
   end)%py.

Definition v1_install_phase (E : Env) (repo_path : string) (flags : list string)
    (downloaded : list string) : Py unit :=
  ((if negb (list_in "--no-unzip" flags)
    then extract_loop E ["main.zip"; "app.zip"; "root.zip"]
    else ret tt) ;;
   p <- unpack2 (py_split "/" repo_path) ;;
   (if list_in "--ignore-default" flags && list_in "install.sh" downloaded
    then v1_script E else v1_auto E (snd p)) ;;
   print "Done.")%py.

Definition v1_after_fetch (E : Env) (repo_path : string) (flags : list string)
    (downloaded : list string) : Py unit :=
  match downloaded with
  | [] => (print "No files found in repo." ;; sys_exit 1)%py
  | _ :: _ => v1_install_phase E repo_path flags downloaded
  end.

(** After the download loop nothing is requested or written by the
    program itself any more. *)
Definition install_event (e : Event) : bool :=
  unpack_event e || build_event e || script_event e.

(** The download stage of [get_repo] on [repo_path], started in [w], left
    the list [d], the world [w1] and the events [evs]. *)
Definition fetched (E : Env) (repo_path : string) (w : World) (d : list string)
    (w1 : World) (evs : list Event) : Prop :=
  (forall c, fs w !! TMP_DIR <> Some (File c)) /\
  cwd w1 = cwd w /\ fs w1 !! TMP_DIR = Some Dir /\
  forallb fetch_event evs = true /\
  http_urls evs =
    List.map (fun f => (BASE_URL +:+ "/" +:+ repo_path) +:+ "/" +:+ f) files_to_try /\
  (forall f, f ∈ d <-> f ∈ files_to_try /\ retrieved f evs) /\
  (forall p, EvWrite p ∈ evs ->
     (exists f, f ∈ files_to_try /\ p = os_path_join TMP_DIR f) /\
     exists c, fs w1 !! p = Some (File c)) /\
  (forall p, EvWrite p ∉ evs -> p <> TMP_DIR -> fs w1 !! p = fs w !! p) /\
  (forall f, f ∈ files_to_try ->
     retrieved f evs <->
     served E (BASE_URL +:+ "/" +:+ repo_path) f /\
     fs w !! os_path_join TMP_DIR f <> Some Dir).

(** *** Test data: the repository alice/tool on the reference server *)

Definition alice_url (f : string) : string :=
  "https://quanthai.net/repos/alice/tool/" +:+ f.

(** Only app.zip is there; it unpacks to a Go entry point. *)
Definition server_app_go : list (string * string) :=
  [(alice_url "app.zip", "zip:main.go")].

(** Only root.zip and install.sh are there. *)
Definition server_root_script : list (string * string) :=
  [(alice_url "root.zip", "zip:main.go"); (alice_url "install.sh", RefEnv.script "exit 0")].

(** Only root.zip, encrypted, and install.sh are there. *)
Definition server_encrypted_root : list (string * string) :=
  [(alice_url "root.zip", "enc:main.go");
   (alice_url "install.sh", RefEnv.script "exit 0")].

(** Only an install script that exits with status 3. *)
Definition server_failing_script : list (string * string) :=
  [(alice_url "install.sh", RefEnv.script "exit 3")].

(** The command that deletes the Workspace. *)
Definition is_rm_workspace (e : Event) : bool :=
  match e with
  | EvShell cmd _ => String.eqb cmd "sudo rm -rf /tmp/fsdl"
  | _ => false
  end.

(** The archives [get_repo] unpacks, in order. *)
Definition zips : list string := ["main.zip"; "app.zip"; "root.zip"].

(** *** The scenario of a repository holding only root.zip and install.sh *)

Definition root_and_script_only (E : Env) (repo_path : string) : Prop :=
  let url := BASE_URL +:+ "/" +:+ repo_path in
  ~ served E url "main.zip" /\ ~ served E url "app.zip" /\
  served E url "root.zip" /\ served E url "install.sh".

(** The Workspace is absent or a directory, and holds no candidate file
    from an earlier fetch. *)
Definition fresh_workspace (w : World) : Prop :=
  (forall c, fs w !! TMP_DIR <> Some (File c)) /\
  forall f, f ∈ files_to_try -> fs w !! os_path_join TMP_DIR f = None.

(** A server that has main.zip under the one-segment path tool. *)
Definition server_bare : list (string * string) :=
  [("https://quanthai.net/repos/tool/main.zip", "zip:main.go")].

(** Nothing is executed and nothing is detected. *)
Definition nothing_run (e : Event) : bool :=
  negb (is_shell e) && negb (is_exec e) && negb (is_marker_probe e).

(** The ways a fetch with a malformed identifier ends once something was
    retrieved: the unpacking of the identifier raises [ValueError], unless
    the extraction before it already raised, on an archive path that is a
    directory or on an archive [extractall] did not get through. *)
Definition parse_failure (r : Run unit) : Prop :=
  exists e, outcome r = Raised e /\
            (exn_class e = ValueError \/ extraction_error e (events r)).

(** A repository whose name holds a space; its app.zip unpacks to a Go
    entry point. *)
Definition server_spaced : list (string * string) :=
  [("https://quanthai.net/repos/alice/my tool/app.zip", "zip:main.go")].

(** *** Vocabulary of the further properties *)

(** The commands of [install_binary], in the order they are run. *)
Definition v2_install_cmds (binary_path reponame : string) : list string :=
  ["chmod +x " +:+ binary_path;
   "sudo cp " +:+ binary_path +:+ " " +:+ "/usr/local/bin/"
     +:+ Path_name (Path binary_path);
   "sudo mkdir -p " +:+ "/usr/share/" +:+ reponame;
   "sudo cp " +:+ binary_path +:+ " " +:+ "/usr/share/" +:+ reponame].

Definition v1_install_cmds (binary_path reponame : string) : list string :=
  ["chmod +x " +:+ binary_path;
   "sudo cp " +:+ binary_path +:+ " /usr/local/bin/" +:+ Path_name (Path binary_path);
   "sudo mkdir -p /usr/share/" +:+ reponame +:+ "/";
   "sudo cp " +:+ binary_path +:+ " /usr/share/" +:+ reponame +:+ "/";
   "sudo rm -rf /tmp/fsdl"].

(** A run [r] that goes through the commands [cmds] with [run]: either all
    of them ran, each with status 0, and the run returned; or the run
    stopped with exit status 1 at the first command that failed, the
    commands after it were never started, and the failing command is the
    last thing reported. *)
Definition stops_at_first_failure (cmds : list string) (r : Run unit) : Prop :=
  (outcome r = Normal tt /\ shell_cmds (events r) = cmds /\
   forall cmd rc, EvShell cmd rc ∈ events r -> rc = 0) \/
  (outcome r = SysExit 1 /\
   exists ran cmd rc later,
     cmds = ran ++ cmd :: later /\ rc <> 0 /\
     shell_cmds (events r) = ran ++ [cmd] /\
     EvShell cmd rc ∈ events r /\
     List.last (events r) (EvPrint "") = EvPrint ("Command failed: " +:+ cmd)).

(** Every shell command of the trace is [sudo rm -rf] followed by the path
    whose existence was probed, and found, immediately before. *)
Fixpoint probed_before (prev : option Event) (evs : list Event) : bool :=
  match evs with
  | [] => true
  | e :: rest =>
      match e with
      | EvShell cmd _ =>
          match prev with
          | Some (EvProbe p true) => String.eqb cmd ("sudo rm -rf " +:+ p)
          | _ => false
          end
      | _ => true
      end && probed_before (Some e) rest
  end.

(** [n] slashes in a row. *)
Fixpoint slashes (n : nat) : string :=
  match n with
  | O => ""
  | S n' => String "/" (slashes n')
  end.

(** The URL [get_repo] requests for the candidate [f] of [repo_path]. *)
Definition file_url (repo_path f : string) : string :=
  (BASE_URL +:+ "/" +:+ repo_path) +:+ "/" +:+ f.

(** A machine on which /tmp/fsdl is a regular file. *)
Definition blocked_world : World :=
  mkWorld (list_to_map [("/tmp/fsdl", File "not a directory")]) "/".

(** An earlier fetch left an app.zip and an install.sh in the Workspace. *)
Definition stale_world : World :=
  mkWorld (list_to_map [("/tmp/fsdl", Dir);
                        ("/tmp/fsdl/app.zip", File "old archive");
                        ("/tmp/fsdl/install.sh", File "old script")]) "/".

(** *** What [detect_and_build] builds and returns *)

(** The module can be imported on this machine. *)
Definition importable (E : Env) (m : string) : bool :=
  match find_spec E m with Some true => true | _ => false end.

(** The build commands of each strategy, in order. *)
Definition v2_build_cmds (E : Env) (reponame : string) (s : BuildStrategy)
    : list string :=
  match s with
  | PythonEntry =>
      ["pip install pyinstaller";
       "sudo pyinstaller --onefile main.py --name " +:+ reponame +:+ " " +:+
         ("" +:+ " " +:+
          py_join " " (List.map (String.append "--hidden-import=")
                         (List.filter (importable E) V2.known_hidden_imports)))]
  | GoEntry => ["go build -o " +:+ reponame +:+ " main.go"]
  | NativeEntry => ["g++ main.cpp -o " +:+ reponame]
  | GenericMakefile => ["make"]
  | Unknown => []
  end.

Definition v1_build_cmds (s : BuildStrategy) : list string :=
  match s with
  | PythonEntry => ["pip install pyinstaller"; "pyinstaller --onefile main.py"]
  | GoEntry => ["go build -o app_bin main.go"]
  | NativeEntry => ["g++ main.cpp -o app_bin"]
  | GenericMakefile => ["make"]
  | Unknown => []
  end.

(** The artifact each strategy reports to the installer; [w'] is the
    world the build left. *)
Definition v2_artifact (reponame : string) (s : BuildStrategy) (w' : World)
    : option string :=
  match s with
  | PythonEntry =>
      let bp := Path_str (truediv (truediv (Path TMP_DIR) "dist") reponame) in
      if fs_has (fs w') bp then Some bp else None
  | GoEntry | NativeEntry => Some reponame
  | GenericMakefile | Unknown => None
  end.

Definition v1_artifact (s : BuildStrategy) : option string :=
  match s with
  | PythonEntry => Some "dist/main"
  | GoEntry | NativeEntry => Some "app_bin"
  | GenericMakefile | Unknown => None
  end.

(** A run [r] of [detect_and_build] with build commands [cmds]: it either
    returns [artifact], having run exactly [cmds], each with status 0, and
    standing in the Workspace; or it exits with status 1 right after
    reporting the failure of one of [cmds]. *)
Definition build_result (cmds : list string) (artifact : World -> option string)
    (r : Run (option string)) : Prop :=
  (outcome r = Normal (artifact (world r)) /\
   shell_cmds (events r) = cmds /\
   (forall cmd rc, EvShell cmd rc ∈ events r -> rc = 0) /\
   cwd (world r) = TMP_DIR) \/
  (outcome r = SysExit 1 /\
   exists cmd, cmd ∈ cmds /\
     List.last (events r) (EvPrint "") = EvPrint ("Command failed: " +:+ cmd)).

(** A machine with a Makefile project in the Workspace. *)
Definition makefile_workspace : World :=
  mkWorld (list_to_map [("/tmp/fsdl", Dir);
                        ("/tmp/fsdl/Makefile", File "all:")]) "/".

(** The archive [f] of the Workspace was handed to the extraction: it
    was unpacked, or reported as a bad ZIP file, or its extraction broke
    off. *)
Definition handed_to_extraction (f : string) (evs : list Event) : Prop :=
  unpacked f evs \/ EvExtractAborted (os_path_join TMP_DIR f) ∈ evs.

(** A machine without the package pkg_resources: probing the module
    pkg_resources.py2_warn raises. *)
Definition env_without_pkg_resources : Env :=
  mkEnv 0 (RefEnv.serve []) RefEnv.sh RefEnv.run_script RefEnv.decode_zip
    (fun m => if String.eqb m "pkg_resources.py2_warn" then None else Some false).

(** The archive [f] is not in the Workspace, or is a regular file there
    whose content is not a zip archive. *)
Definition corrupt_or_absent (E : Env) (w : World) (f : string) : Prop :=
  fs w !! os_path_join TMP_DIR f = None \/
  exists c, fs w !! os_path_join TMP_DIR f = Some (File c) /\ unzip E c = None.

(** A machine on which /tmp/fsdl/main.zip is a directory. *)
Definition dir_archive_world : World :=
  mkWorld (list_to_map [("/tmp/fsdl", Dir); ("/tmp/fsdl/main.zip", Dir);
                        ("/tmp/fsdl/app.zip", File "zip:main.go")]) "/".

(** *** Where an exit status comes from *)

(** [m] never calls [sys.exit]. *)
Definition no_exit {A} (m : Py A) : Prop :=
  forall w c, outcome (m w) <> SysExit c.

(** Whenever [m] exits, it exits with status 1, and a command it ran
    through [run] had returned a non-zero status. *)
Definition exits_on_failure {A} (m : Py A) : Prop :=
  forall w c, outcome (m w) = SysExit c ->
    c = 1 /\ exists cmd rc, rc <> 0 /\ EvShell cmd rc ∈ events (m w).

(** What can make [main] of [src/fileshare.py], called with [argv] and
    ending in the run [r], exit with a status other than 0. *)
Definition failure_cause (E : Env) (argv : list string) (r : Run unit) : Prop :=
  geteuid E <> 0 \/
  list_in (List.nth 1 argv "") ["get"; "remove"; "clean"] = false \/
  ((length argv < 3)%nat /\
   (List.nth 1 argv "" = "get" \/ List.nth 1 argv "" = "remove")) \/
  (List.nth 1 argv "" = "get" /\ forall f, ~ retrieved f (events r)) \/
  (exists cmd rc, rc <> 0 /\ EvShell cmd rc ∈ events r) \/
  (exists e, outcome r = Raised e).

(* ===================================================================== *)
(** ** Laws of the monad *)
(* ===================================================================== *)

Lemma run_eta {A} (r : Run A) : r = mkRun (outcome r) (world r) (events r).
Proof. by destruct r. Qed.

Lemma world_eta (w : World) : w = mkWorld (fs w) (cwd w).
Proof. by destruct w. Qed.

Lemma prepend_run {A} evs (o : Outcome A) w evs' :
  prepend evs (mkRun o w evs') = mkRun o w (evs ++ evs').
Proof. done. Qed.

Lemma prepend_prepend {A} evs evs' (r : Run A) :
  prepend evs (prepend evs' r) = prepend (evs ++ evs') r.
Proof. unfold prepend. cbn. by rewrite app_assoc. Qed.

Lemma prepend_nil {A} (r : Run A) : prepend [] r = r.
Proof. by destruct r. Qed.

Lemma events_prepend {A} evs (r : Run A) : events (prepend evs r) = evs ++ events r.
Proof. done. Qed.

Lemma world_prepend {A} evs (r : Run A) : world (prepend evs r) = world r.
Proof. done. Qed.

Lemma outcome_prepend {A} evs (r : Run A) : outcome (prepend evs r) = outcome r.
Proof. done. Qed.

(** Membership of a given event in a trace assembled from parts. *)
Ltac ev_in :=
  cbn [events app];
  repeat first [rewrite events_prepend | rewrite elem_of_app | rewrite elem_of_cons];
  intuition.

(** Membership of a given event in the trace of a concrete run. *)
Ltac in_events := apply list_elem_of_In; vm_compute; tauto.

Lemma bind_normal {A B} (m : Py A) (k : A -> Py B) w a :
  outcome (m w) = Normal a ->
  bind m k w = prepend (events (m w)) (k a (world (m w))).
Proof. intros H. unfold bind. by rewrite H. Qed.

Lemma bind_exit {A B} (m : Py A) (k : A -> Py B) w c :
  outcome (m w) = SysExit c ->
  bind m k w = mkRun (SysExit c) (world (m w)) (events (m w)).
Proof. intros H. unfold bind. by rewrite H. Qed.

Lemma bind_raised {A B} (m : Py A) (k : A -> Py B) w e :
  outcome (m w) = Raised e ->
  bind m k w = mkRun (Raised e) (world (m w)) (events (m w)).
Proof. intros H. unfold bind. by rewrite H. Qed.

Lemma bind_ret_l {A B} (a : A) (k : A -> Py B) w : bind (ret a) k w = k a w.
Proof. unfold bind, ret. cbn. by destruct (k a w). Qed.

Lemma bind_cong_l {A B} (m m' : Py A) (k : A -> Py B) w :
  m w = m' w -> bind m k w = bind m' k w.
Proof. intros H. unfold bind. by rewrite H. Qed.

Lemma bind_run_normal {A B} (m : Py A) (k : A -> Py B) w a w' evs :
  m w = mkRun (Normal a) w' evs -> bind m k w = prepend evs (k a w').
Proof. intros H. unfold bind. by rewrite H. Qed.

Lemma bind_run_exit {A B} (m : Py A) (k : A -> Py B) w c w' evs :
  m w = mkRun (SysExit c) w' evs -> bind m k w = mkRun (SysExit c) w' evs.
Proof. intros H. unfold bind. by rewrite H. Qed.

Lemma bind_run_raised {A B} (m : Py A) (k : A -> Py B) w e w' evs :
  m w = mkRun (Raised e) w' evs -> bind m k w = mkRun (Raised e) w' evs.
Proof. intros H. unfold bind. by rewrite H. Qed.

Lemma bind_events_prefix {A B} (m : Py A) (k : A -> Py B) w :
  exists rest, events (bind m k w) = events (m w) ++ rest.
Proof.
  unfold bind. destruct (outcome (m w)); cbn; eauto.
  all: exists []; by rewrite app_nil_r.
Qed.

Section Emits.

Context {A B : Type} (P : Event -> bool).

Lemma emits_ret (a : A) : emits P (ret a).
Proof. by intros w. Qed.

Lemma emits_sys_exit c : emits P (@sys_exit A c).
Proof. by intros w. Qed.

Lemma emits_raise c msg : emits P (@raise A c msg).
Proof. by intros w. Qed.

Lemma emits_bind (m : Py A) (k : A -> Py B) :
  emits P m -> (forall a, emits P (k a)) -> emits P (bind m k).
Proof.
  intros Hm Hk w. unfold bind. specialize (Hm w).
  destruct (outcome (m w)) as [a| |]; cbn; auto.
  rewrite forallb_app, Hm. apply Hk.
Qed.

Lemma emits_try_except (m : Py A) handles (h : PyExn -> Py A) :
  emits P m -> (forall e, emits P (h e)) -> emits P (try_except m handles h).
Proof.
  intros Hm Hh w. unfold try_except. specialize (Hm w).
  destruct (outcome (m w)) as [a| |e]; auto.
  destruct (handles (exn_class e)); auto. cbn.
  rewrite forallb_app, Hm. apply Hh.
Qed.

Lemma emits_emit e : P e = true -> emits P (emit e).
Proof. intros H w. cbn. by rewrite H. Qed.

End Emits.

Lemma emits_print P msg : P (EvPrint msg) = true -> emits P (print msg).
Proof. apply emits_emit. Qed.

Lemma emits_path_exists P p :
  (forall b, P (EvProbe p b) = true) -> emits P (path_exists p).
Proof. intros H w. cbn. by rewrite H. Qed.

Lemma emits_os_makedirs P p : P (EvMakedirs p) = true -> emits P (os_makedirs p).
Proof. intros H w. unfold os_makedirs. repeat case_match; cbn; by rewrite ?H. Qed.

Lemma emits_os_chdir P p : P (EvChdir p) = true -> emits P (os_chdir p).
Proof. intros H w. unfold os_chdir. repeat case_match; cbn; by rewrite ?H. Qed.

Lemma emits_os_chmod P p : P (EvChmod p) = true -> emits P (os_chmod p).
Proof. intros H w. unfold os_chmod. repeat case_match; cbn; by rewrite ?H. Qed.

Lemma emits_write_file P p c : P (EvWrite p) = true -> emits P (write_file p c).
Proof. intros H w. unfold write_file. repeat case_match; cbn; by rewrite ?H. Qed.

Lemma emits_requests_get E P u : P (EvHttpGet u) = true -> emits P (requests_get E u).
Proof. intros H w. unfold requests_get. repeat case_match; cbn; by rewrite ?H. Qed.

Lemma emits_subprocess_shell E P cmd :
  (forall rc, P (EvShell cmd rc) = true) -> emits P (subprocess_shell E cmd).
Proof. intros H w. unfold subprocess_shell. repeat case_match; cbn; by rewrite ?H. Qed.

Lemma emits_subprocess_exec E P argv dir :
  (forall rc, P (EvExec argv rc) = true) -> emits P (subprocess_exec E argv dir).
Proof. intros H w. unfold subprocess_exec. repeat case_match; cbn; by rewrite ?H. Qed.

Lemma emits_zip_extractall E P path dest :
  P (EvExtract path) = true -> P (EvExtractAborted path) = true ->
  emits P (zip_extractall E path dest).
Proof.
  intros H H' w. unfold zip_extractall. repeat case_match; cbn; by rewrite ?H, ?H'.
Qed.

Lemma emits_importlib_find_spec E P m : emits P (importlib_find_spec E m).
Proof. intros w. unfold importlib_find_spec. by repeat case_match. Qed.

(** Decompose a program along its structure down to its primitives. *)
Ltac emits_step :=
  lazymatch goal with
  | |- emits _ (bind _ _) => apply emits_bind; [| intros ?]
  | |- emits _ (ret _) => apply emits_ret
  | |- emits _ (sys_exit _) => apply emits_sys_exit
  | |- emits _ (raise _ _) => apply emits_raise
  | |- emits _ (try_except _ _ _) => apply emits_try_except; [| intros ?]
  | |- emits _ (print _) => apply emits_print
  | |- emits _ (path_exists _) => apply emits_path_exists; intros ?
  | |- emits _ (os_makedirs _) => apply emits_os_makedirs
  | |- emits _ (os_chdir _) => apply emits_os_chdir
  | |- emits _ (os_chmod _) => apply emits_os_chmod
  | |- emits _ (write_file _ _) => apply emits_write_file
  | |- emits _ (requests_get _ _) => apply emits_requests_get
  | |- emits _ (subprocess_shell _ _) => apply emits_subprocess_shell; intros ?
  | |- emits _ (subprocess_exec _ _ _) => apply emits_subprocess_exec; intros ?
  | |- emits _ (zip_extractall _ _ _) => apply emits_zip_extractall
  | |- emits _ (importlib_find_spec _ _) => apply emits_importlib_find_spec
  | |- emits _ (if ?b then _ else _) => destruct b
  | |- emits _ (match ?x with _ => _ end) => destruct x
  | |- emits _ (fun w => subprocess_exec _ _ (cwd w) w) =>
      intros ?; apply emits_subprocess_exec; intros ?
  end.

Ltac emits_tac := repeat emits_step; try reflexivity.

Section Strict.

Context {A B : Type}.

Lemma strict_quiet (m : Py A) : emits (fun e => negb (is_shell e)) m -> strict m.
Proof.
  intros H w cmd rc Hin _. specialize (H w).
  rewrite forallb_forall in H. apply list_elem_of_In in Hin.
  by apply H in Hin.
Qed.

Lemma strict_bind (m : Py A) (k : A -> Py B) :
  strict m -> (forall a, strict (k a)) -> strict (bind m k).
Proof.
  intros Hm Hk w cmd rc. unfold bind.
  specialize (Hm w cmd rc).
  destruct (outcome (m w)) as [a| |] eqn:Ho; cbn;
    [|intros Hin Hrc; specialize (Hm Hin Hrc); by simplify_eq..].
  rewrite elem_of_app. intros [Hin|Hin] Hrc.
  - by specialize (Hm Hin Hrc).
  - by apply (Hk a (world (m w)) cmd rc).
Qed.

End Strict.

Lemma strict_run E cmd : strict (run E cmd).
Proof.
  intros w c rc. unfold run, bind, subprocess_shell.
  destruct (shell E cmd (cwd w) (fs w)) as [rc' m'] eqn:Hs. cbn.
  destruct (Z.eqb_spec rc' 0) as [->|Hne]; cbn; [|done].
  rewrite list_elem_of_In. cbn. intros [[= _ <-]|[]]. done.
Qed.

Ltac strict_step :=
  lazymatch goal with
  | |- strict (bind _ _) => apply strict_bind; [| intros ?]
  | |- strict (run _ _) => apply strict_run
  | |- strict (if ?b then _ else _) => destruct b
  | |- strict (match ?x with _ => _ end) => destruct x
  | |- strict _ => apply strict_quiet; emits_tac
  end.

Ltac strict_tac := repeat strict_step.

(* ===================================================================== *)
(** ** Python strings *)
(* ===================================================================== *)

Lemma py_split_length c s : length (py_split c s) = S (count_char c s).
Proof.
  induction s as [|a s IH]; [done|]. cbn.
  destruct (Ascii.eqb a c); cbn; [by rewrite IH|].
  destruct (py_split c s); cbn in *; lia.
Qed.

Lemma str_in_count c s : str_in c s = false <-> count_char c s = O.
Proof.
  induction s as [|a s IH]; [done|]. cbn.
  destruct (Ascii.eqb a c); cbn; [split; [done|lia]|done].
Qed.

Lemma py_split_no_sep c s : Forall (fun t => str_in c t = false) (py_split c s).
Proof.
  induction s as [|a s IH]; cbn; [by constructor|].
  destruct (Ascii.eqb a c) eqn:Hac; [by constructor|].
  destruct (py_split c s) as [|h t]; inversion IH; subst.
  all: constructor; cbn; by rewrite ?Hac.
Qed.

Lemma py_split_join c s : py_join (String c "") (py_split c s) = s.
Proof.
  induction s as [|a s IH]; [done|]. cbn [py_split].
  pose proof (py_split_length c s) as Hl.
  destruct (Ascii.eqb_spec a c) as [->|Hne];
    destruct (py_split c s) as [|h [|h' t]]; try done;
    cbn [py_join] in *; rewrite <- IH; reflexivity.
Qed.

(** An identifier with exactly one separator unpacks into its two
    segments, neither of which holds a separator. *)
Lemma py_split_one_sep s :
  count_char "/" s = 1%nat ->
  exists owner name,
    py_split "/" s = [owner; name] /\ s = owner +:+ "/" +:+ name /\
    str_in "/" owner = false /\ str_in "/" name = false.
Proof.
  intros Hc. pose proof (py_split_length "/" s) as Hl. rewrite Hc in Hl.
  pose proof (py_split_no_sep "/" s) as Hn.
  pose proof (py_split_join "/" s) as Hj.
  destruct (py_split "/" s) as [|o [|n [|]]]; try done.
  exists o, n. inversion Hn as [|? ? Ho Hn']; inversion Hn'; subst.
  repeat split; done.
Qed.

Lemma unpack2_too_many s w :
  (2 <= count_char "/" s)%nat ->
  unpack2 (py_split "/" s) w =
    mkRun (Raised (Exn ValueError "too many values to unpack (expected 2)")) w [].
Proof.
  intros Hc. pose proof (py_split_length "/" s) as Hl.
  destruct (py_split "/" s) as [|a [|b [|]]]; cbn in Hl; try lia; done.
Qed.

Lemma unpack2_too_few s w :
  count_char "/" s = O ->
  unpack2 (py_split "/" s) w =
    mkRun (Raised (Exn ValueError "not enough values to unpack (expected 2, got 1)"))
      w [].
Proof.
  intros Hc. pose proof (py_split_length "/" s) as Hl.
  destruct (py_split "/" s) as [|a [|b [|]]]; cbn in Hl; try lia; done.
Qed.

(* ===================================================================== *)
(** ** The privilege gate of [main] *)
(* ===================================================================== *)

(** C10. Whatever the command line (get, remove, clean, --help or
    anything else), [main] run with a non-zero effective user id prints
    the request to use sudo and exits with status 1; the run consists of
    that single print, so no HTTP request is issued and the file system
    and working directory are those it started with. Both variants. *)
Theorem main_requires_root (E : Env) (argv : list string) (w : World) :
  geteuid E <> 0 ->
  V2.main E argv w = mkRun (SysExit 1) w [EvPrint "Please run with sudo."] /\
  V1.main E argv w = mkRun (SysExit 1) w [EvPrint "Please run with sudo."].
Proof.
  intros Hne. unfold V2.main, V1.main.
  apply Z.eqb_neq in Hne. unfold bind at 1 6. rewrite Hne. by cbn.
Qed.

Lemma main_requires_root_witness :
  V2.main (RefEnv.env 1000 []) ["fileshare"; "--help"] RefEnv.empty_world =
    mkRun (SysExit 1) RefEnv.empty_world [EvPrint "Please run with sudo."] /\
  V1.main (RefEnv.env 1000 []) ["fileshare"; "--help"] RefEnv.empty_world =
    mkRun (SysExit 1) RefEnv.empty_world [EvPrint "Please run with sudo."].
Proof. apply main_requires_root. cbn. lia. Defined.

(* ===================================================================== *)
(** ** Symbolic execution of the primitives *)
(* ===================================================================== *)

Lemma starts_with_slash_app s t : starts_with_slash (String "/" s +:+ t) = true.
Proof. done. Qed.

Lemma eqb_app_nonempty a s t : (String a s +:+ t =? "")%string = false.
Proof. done. Qed.

Lemma fs_has_None (m : FS) p : fs_has m p = false <-> m !! p = None.
Proof. unfold fs_has. by destruct (m !! p). Qed.

Lemma fs_has_Some (m : FS) p : fs_has m p = true <-> is_Some (m !! p).
Proof.
  unfold fs_has. destruct (m !! p); split; try done; try by eauto.
Qed.

Lemma run_ok E cmd w :
  fst (shell E cmd (cwd w) (fs w)) = 0 ->
  run E cmd w =
    mkRun (Normal tt) (mkWorld (snd (shell E cmd (cwd w) (fs w))) (cwd w))
      [EvShell cmd 0].
Proof.
  unfold run, bind, subprocess_shell.
  destruct (shell E cmd (cwd w) (fs w)) as [rc m']. cbn. by intros ->.
Qed.

Lemma run_failed E cmd w :
  fst (shell E cmd (cwd w) (fs w)) <> 0 ->
  run E cmd w =
    mkRun (SysExit 1) (mkWorld (snd (shell E cmd (cwd w) (fs w))) (cwd w))
      [EvShell cmd (fst (shell E cmd (cwd w) (fs w)));
       EvPrint ("Command failed: " +:+ cmd)].
Proof.
  unfold run, bind, subprocess_shell.
  destruct (shell E cmd (cwd w) (fs w)) as [rc m']. cbn.
  intros Hne. apply Z.eqb_neq in Hne. by rewrite Hne.
Qed.

(** Reduce a run while keeping string concatenations folded. *)
Ltac py_red :=
  repeat (progress (cbn; unfold path_exists, resolve;
                    rewrite ?eqb_app_nonempty, ?starts_with_slash_app)).

(** Case split on the exit status of the next shell command. *)
Ltac run_cases E cmd w H :=
  destruct (Z.eq_dec (fst (shell E cmd (cwd w) (fs w))) 0) as [H|H];
  [rewrite (run_ok E cmd w H) | rewrite (run_failed E cmd w H)].

(* ===================================================================== *)
(** ** The reference environment *)
(* ===================================================================== *)

Lemma ref_rm_rf_gone p (m : FS) : RefEnv.rm_rf p m !! p = None.
Proof.
  unfold RefEnv.rm_rf. apply map_lookup_filter_None. right.
  intros x _. cbn. unfold RefEnv.is_under. by rewrite String.eqb_refl.
Qed.

Lemma ref_rm_rf_creates_nothing p (m : FS) q :
  m !! q = None -> RefEnv.rm_rf p m !! q = None.
Proof. intros H. unfold RefEnv.rm_rf. apply map_lookup_filter_None. by left. Qed.

(* ===================================================================== *)
(** ** Removal *)
(* ===================================================================== *)

Lemma remove_repo_bare E x w :
  count_char "/" x = O -> remove_repo E x w = remove_paths E x w.
Proof.
  intros Hc. apply str_in_count in Hc. unfold remove_repo. rewrite Hc.
  cbv beta iota. by rewrite bind_ret_l.
Qed.

Lemma remove_repo_pair E x w owner name :
  py_split "/" x = [owner; name] -> str_in "/" x = true ->
  remove_repo E x w = remove_paths E name w.
Proof.
  intros Hs Hc. unfold remove_repo. rewrite Hc, Hs.
  unfold unpack2. cbv beta iota.
  rewrite (bind_cong_l _ (ret name)) by reflexivity.
  apply bind_ret_l.
Qed.

Lemma remove_repo_too_many E x w :
  (2 <= count_char "/" x)%nat ->
  remove_repo E x w =
    mkRun (Raised (Exn ValueError "too many values to unpack (expected 2)")) w [].
Proof.
  intros Hc. unfold remove_repo.
  destruct (str_in "/" x) eqn:Hin.
  2:{ apply str_in_count in Hin. lia. }
  apply bind_run_raised, bind_run_raised. by apply unpack2_too_many.
Qed.

Lemma remove_paths_absent E n w :
  fs w !! ("/usr/local/bin/" +:+ n) = None ->
  fs w !! ("/usr/share/" +:+ n) = None ->
  remove_paths E n w =
    mkRun (Normal tt) w
      [EvProbe ("/usr/local/bin/" +:+ n) false;
       EvPrint "Binary not found in /usr/local/bin";
       EvProbe ("/usr/share/" +:+ n) false;
       EvPrint "Share directory not found"].
Proof.
  intros Hb Hs. apply fs_has_None in Hb, Hs.
  unfold remove_paths, bind. py_red.
  rewrite Hb. py_red. rewrite Hs. by py_red.
Qed.


Lemma remove_paths_keeps_cwd E n w : cwd (world (remove_paths E n w)) = cwd w.
Proof.
  unfold remove_paths, bind. py_red.
  destruct (fs_has (fs w) ("/usr/local/bin/" +:+ n)).
  - run_cases E ("sudo rm -rf " +:+ "/usr/local/bin/" +:+ n) w H0; [|done].
    py_red. set (m1 := snd (shell E _ (cwd w) (fs w))) in *.
    destruct (fs_has m1 ("/usr/share/" +:+ n)); [|done].
    by run_cases E ("sudo rm -rf " +:+ "/usr/share/" +:+ n) (mkWorld m1 (cwd w)) H1.
  - py_red. destruct (fs_has (fs w) ("/usr/share/" +:+ n)); [|done].
    by run_cases E ("sudo rm -rf " +:+ "/usr/share/" +:+ n) w H1.
Qed.

Lemma remove_repo_cases E x :
  (forall w, remove_repo E x w = remove_paths E (package_name x) w) \/
  (forall w, exists e, remove_repo E x w = mkRun (Raised e) w []).
Proof.
  destruct (count_char "/" x) as [|[|k]] eqn:Hc.
  - left. intros w. unfold package_name.
    pose proof Hc as Hin. apply str_in_count in Hin. rewrite Hin.
    by apply remove_repo_bare.
  - left. intros w. destruct (py_split_one_sep x Hc) as (o & n & Hs & _ & _ & _).
    assert (str_in "/" x = true) as Hin.
    { destruct (str_in "/" x) eqn:Hin; [done|]. apply str_in_count in Hin. lia. }
    unfold package_name. rewrite Hin, Hs. cbn. by eapply remove_repo_pair.
  - right. intros w. eexists. apply remove_repo_too_many. lia.
Qed.


Lemma ref_rm_rf_sound uid files s :
  RefEnv.sh ("sudo rm -rf " +:+ String "/" s) =
    (fun _ m => (0, RefEnv.rm_rf (String "/" s) m)) ->
  rm_rf_sound (RefEnv.env uid files) (String "/" s).
Proof.
  intros Hsh dir m _. cbn [shell RefEnv.env]. rewrite Hsh. cbn [snd].
  split; [apply ref_rm_rf_gone|apply ref_rm_rf_creates_nothing].
Qed.



(** C9. [remove_repo] takes a bare name or an owner/name pair: with no
    separator the whole argument is the package name, with exactly one
    separator the segment after it is; with two or more separators the
    tuple unpacking raises [ValueError] before any path is probed or
    removed, so the run has no event and the world is unchanged. *)
Theorem remove_repo_name_choice (E : Env) (x : string) (w : World) :
  (count_char "/" x = 0%nat -> remove_repo E x w = remove_paths E x w) /\
  (count_char "/" x = 1%nat ->
     exists owner name,
       x = owner +:+ "/" +:+ name /\ str_in "/" name = false /\
       remove_repo E x w = remove_paths E name w) /\
  ((2 <= count_char "/" x)%nat ->
     exists msg, remove_repo E x w = mkRun (Raised (Exn ValueError msg)) w []).
Proof.
  split; [apply remove_repo_bare|split].
  - intros Hc. destruct (py_split_one_sep x Hc) as (o & n & Hs & Hx & _ & Hn).
    exists o, n. repeat split; try done.
    apply (remove_repo_pair E x w o n Hs).
    destruct (str_in "/" x) eqn:Hin; [done|]. apply str_in_count in Hin. lia.
  - intros Hc. eexists. by apply remove_repo_too_many.
Qed.

Lemma remove_repo_name_choice_witness :
  let E := RefEnv.env 0 [] in
  remove_repo E "tool" installed_world = remove_paths E "tool" installed_world /\
  (exists owner name,
     "alice/tool" = owner +:+ "/" +:+ name /\ str_in "/" name = false /\
     remove_repo E "alice/tool" installed_world = remove_paths E name installed_world) /\
  (exists msg, remove_repo E "a/b/c" installed_world =
                 mkRun (Raised (Exn ValueError msg)) installed_world []).
Proof.
  split; [|split].
  - apply (remove_repo_name_choice (RefEnv.env 0 []) "tool" installed_world).
    reflexivity.
  - apply (remove_repo_name_choice (RefEnv.env 0 []) "alice/tool" installed_world).
    reflexivity.
  - apply (remove_repo_name_choice (RefEnv.env 0 []) "a/b/c" installed_world).
    vm_compute. lia.
Defined.

(* ===================================================================== *)
(** ** Stepping through a program, one primitive at a time *)
(* ===================================================================== *)

Lemma print_run msg w : print msg w = mkRun (Normal tt) w [EvPrint msg].
Proof. done. Qed.

Lemma os_chdir_ok p w :
  fs w !! resolve w p = Some Dir ->
  os_chdir p w = mkRun (Normal tt) (mkWorld (fs w) (resolve w p)) [EvChdir p].
Proof. intros H. unfold os_chdir. by rewrite H. Qed.

Lemma probe_in_workspace name w :
  cwd w = TMP_DIR -> String.eqb name "" = false -> starts_with_slash name = false ->
  path_exists name w =
    mkRun (Normal (in_workspace w name)) w [EvProbe name (in_workspace w name)].
Proof.
  intros Hc Hn Hs. unfold path_exists, resolve, in_workspace, os_path_join.
  by rewrite Hn, Hs, Hc.
Qed.

Lemma probe_abs p w :
  starts_with_slash p = true ->
  path_exists p w = mkRun (Normal (fs_has (fs w) p)) w [EvProbe p (fs_has (fs w) p)].
Proof.
  intros H. unfold path_exists, resolve. rewrite H.
  by destruct p.
Qed.

Lemma run_spec E cmd w :
  exists m',
    run E cmd w = mkRun (Normal tt) (mkWorld m' (cwd w)) [EvShell cmd 0] \/
    exists rc, rc <> 0 /\
      run E cmd w = mkRun (SysExit 1) (mkWorld m' (cwd w))
                      [EvShell cmd rc; EvPrint ("Command failed: " +:+ cmd)].
Proof.
  exists (snd (shell E cmd (cwd w) (fs w))).
  destruct (Z.eq_dec (fst (shell E cmd (cwd w) (fs w))) 0) as [H|H].
  - left. by apply run_ok.
  - right. eexists. split; [exact H|]. by apply run_failed.
Qed.

(** Advance past the first computation of a [bind], given its run. *)
Ltac py_next eq :=
  rewrite (bind_run_normal _ _ _ _ _ _ eq); cbv beta iota zeta.

Ltac py_print :=
  rewrite (bind_run_normal _ _ _ _ _ _ (print_run _ _)); cbv beta iota zeta.

(** Split on the status of the next shell command: it succeeded and the
    program goes on, or it failed and [run] has exited. *)
Ltac py_run E cmd w :=
  let m := fresh "m" in let H := fresh "Hrun" in let rc := fresh "rc" in
  let Hrc := fresh "Hrc" in
  destruct (run_spec E cmd w) as [m [H|(rc & Hrc & H)]];
  [rewrite (bind_run_normal _ _ _ _ _ _ H); cbv beta iota zeta
  |rewrite (bind_run_exit _ _ _ _ _ _ H)].

Ltac py_run_next E :=
  match goal with
  | |- context [bind (run E ?c) _ ?w'] => py_run E c w'
  | |- context [run E ?c ?w'] =>
      let m := fresh "m" in let H := fresh "Hrun" in let rc := fresh "rc" in
      let Hrc := fresh "Hrc" in
      destruct (run_spec E c w') as [m [H|(rc & Hrc & H)]]; rewrite H
  end.

(* ===================================================================== *)
(** ** Detection and build *)
(* ===================================================================== *)


Lemma marker_not_abs p : starts_with_slash p = true -> list_in p markers = false.
Proof.
  intros H. apply bool_decide_eq_false. unfold markers. intros Hin.
  repeat (apply elem_of_cons in Hin as [->|Hin]; [done|]).
  by apply elem_of_nil in Hin.
Qed.

Lemma Path_str_abs p : absolute p = true -> starts_with_slash (Path_str p) = true.
Proof. intros H. unfold Path_str. by rewrite H. Qed.

Lemma truediv_abs p s : absolute p = true -> absolute (truediv p s) = true.
Proof. intros H. unfold truediv. by destruct (absolute (Path s)) eqn:Hs. Qed.

Lemma artifact_path_abs reponame :
  starts_with_slash
    (Path_str (truediv (truediv (Path TMP_DIR) "dist") reponame)) = true.
Proof. by apply Path_str_abs, truediv_abs. Qed.

Ltac py_probe w1 name :=
  py_next (probe_in_workspace name w1 eq_refl eq_refl eq_refl);
  cbn [priority first_match probes_until];
  destruct (in_workspace w1 name) eqn:?.







(* ===================================================================== *)
(** ** The download loop *)
(* ===================================================================== *)

Lemma resolve_ws w f : resolve w (os_path_join TMP_DIR f) = os_path_join TMP_DIR f.
Proof. done. Qed.

Lemma try_run_normal {A} (m : Py A) handles h w a w' evs :
  m w = mkRun (Normal a) w' evs -> try_except m handles h w = mkRun (Normal a) w' evs.
Proof. intros H. unfold try_except. by rewrite H. Qed.

Lemma try_run_handled {A} (m : Py A) handles h w e w' evs :
  m w = mkRun (Raised e) w' evs -> handles (exn_class e) = true ->
  try_except m handles h w = prepend evs (h e w').
Proof. intros H Hh. unfold try_except. rewrite H. cbn. by rewrite Hh. Qed.

Lemma try_run_unhandled {A} (m : Py A) handles h w e w' evs :
  m w = mkRun (Raised e) w' evs -> handles (exn_class e) = false ->
  try_except m handles h w = mkRun (Raised e) w' evs.
Proof. intros H Hh. unfold try_except. rewrite H. cbn. by rewrite Hh. Qed.

Lemma requests_get_ok E u st body w :
  http_get E u = HttpResponse st body ->
  requests_get E u w = mkRun (Normal (st, body)) w [EvHttpGet u].
Proof. intros H. unfold requests_get. by rewrite H. Qed.

Lemma requests_get_error E u msg w :
  http_get E u = HttpError msg ->
  requests_get E u w = mkRun (Raised (Exn RequestException msg)) w [EvHttpGet u].
Proof. intros H. unfold requests_get. by rewrite H. Qed.

Lemma write_file_ok p c w :
  fs w !! resolve w p <> Some Dir ->
  write_file p c w =
    mkRun (Normal tt) (mkWorld (<[resolve w p := File c]> (fs w)) (cwd w)) [EvWrite p].
Proof. intros H. unfold write_file. by destruct (fs w !! resolve w p) as [[]|]. Qed.

Lemma write_file_dir p c w :
  fs w !! resolve w p = Some Dir ->
  write_file p c w = mkRun (Raised (Exn IsADirectoryError p)) w [].
Proof. intros H. unfold write_file. by rewrite H. Qed.

Ltac py_fail eq := rewrite (bind_run_raised _ _ _ _ _ _ eq).

Lemma fetch_one_cases E url f d w :
  ((~ served E url f \/ fs w !! os_path_join TMP_DIR f = Some Dir) /\
   exists msg,
     fetch_one E url f d w =
       mkRun (Normal d) w
         [EvPrint ("Trying " +:+ (url +:+ "/" +:+ f) +:+ " ...");
          EvHttpGet (url +:+ "/" +:+ f); EvPrint msg]) \/
  (exists body,
     http_get E (url +:+ "/" +:+ f) = HttpResponse 200 body /\
     fs w !! os_path_join TMP_DIR f <> Some Dir /\
     fetch_one E url f d w =
       mkRun (Normal (d ++ [f]))
         (mkWorld (<[os_path_join TMP_DIR f := File body]> (fs w)) (cwd w))
         [EvPrint ("Trying " +:+ (url +:+ "/" +:+ f) +:+ " ...");
          EvHttpGet (url +:+ "/" +:+ f); EvWrite (os_path_join TMP_DIR f);
          EvPrint ("Downloaded " +:+ f)]).
Proof.
  unfold fetch_one, served. cbv zeta. py_print.
  destruct (http_get E (url +:+ "/" +:+ f)) as [st body|msg] eqn:Hh.
  - destruct (Z.eqb_spec st 200) as [->|Hne].
    + destruct (decide (fs w !! os_path_join TMP_DIR f = Some Dir)) as [Hd|Hd].
      * left. split; [by right|]. eexists.
        erewrite try_run_handled; [| |reflexivity].
        2:{ py_next (requests_get_ok E _ _ _ w Hh). cbn [fst snd Z.eqb Pos.eqb].
            py_fail (write_file_dir (os_path_join TMP_DIR f) body w Hd).
            reflexivity. }
        py_print. reflexivity.
      * right. exists body. split; [done|]. split; [done|].
        erewrite try_run_normal.
        2:{ py_next (requests_get_ok E _ _ _ w Hh). cbn [fst snd Z.eqb Pos.eqb].
            py_next (write_file_ok (os_path_join TMP_DIR f) body w Hd).
            py_print. reflexivity. }
        reflexivity.
    + left. split; [left; intros [b [= ? ?]]; done|]. eexists.
      erewrite try_run_normal.
      2:{ py_next (requests_get_ok E _ _ _ w Hh). cbn [fst snd].
          apply Z.eqb_neq in Hne. rewrite Hne. py_print. reflexivity. }
      reflexivity.
  - left. split; [left; by intros [b ?]|]. eexists.
    erewrite try_run_handled; [| |reflexivity].
    2:{ py_fail (requests_get_error E _ _ w Hh). reflexivity. }
    py_print. reflexivity.
Qed.

Lemma append_inj_r a b b' : a +:+ b = a +:+ b' -> b = b'.
Proof. induction a as [|c a IH]; cbn; [done|]. intros [= H]. by apply IH. Qed.

Lemma os_path_join_inj a b b' : os_path_join a b = os_path_join a b' -> b = b'.
Proof. unfold os_path_join. intros H. by apply append_inj_r, append_inj_r in H. Qed.

Lemma write_in_prints p (msgs : list Event) evs :
  forallb (fun e => negb (is_write e)) msgs = true ->
  EvWrite p ∈ msgs ++ evs <-> EvWrite p ∈ evs.
Proof.
  intros H. rewrite elem_of_app. split; [|by right].
  intros [Hin|]; [|done]. rewrite forallb_forall in H.
  apply list_elem_of_In, H in Hin. done.
Qed.

Lemma fetch_loop_spec E url fnames d0 w :
  fetch_post E url fnames d0 w (fetch_loop E url fnames d0 w).
Proof.
  revert d0 w. induction fnames as [|f rest IH]; intros d0 w.
  { exists d0. cbn. split; [done|]. split; [done|]. split; [done|].
    split_and!.
    - intros f. split; [by left|].
      intros [?|[H _]]; [done|by apply elem_of_nil in H].
    - by intros p H%elem_of_nil.
    - done.
    - by intros f H%elem_of_nil. }
  cbn [fetch_loop].
  destruct (fetch_one_cases E url f d0 w)
    as [[Hmiss [msg Hr]]|(body & Hh & Hd & Hr)].
  - py_next Hr. destruct (IH d0 w) as (d & Ho & Hc & Hu & Hm & Hw & Hf & Hs).
    exists d. unfold prepend, retrieved in *. cbn [outcome world events].
    split; [done|]. split; [done|]. split; [cbn; by rewrite Hu|].
    split_and!.
    + intros f'. rewrite (write_in_prints _ [_; _; _]) by done.
      rewrite Hm. split.
      * intros [?|[? ?]]; [by left|right]. split; [by right|done].
      * intros [?|[_ H2]]; [by left|right]. split; [|done].
        destruct (Hw _ H2) as [(f'' & Hin & Heq) _].
        by apply os_path_join_inj in Heq as ->.
    + intros p. rewrite (write_in_prints _ [_; _; _]) by done.
      intros H. destruct (Hw _ H) as [(f' & Hin & ->) Hc']. split; [|done].
      exists f'. split; [by right|done].
    + intros p. rewrite (write_in_prints _ [_; _; _]) by done. apply Hf.
    + intros f' Hin. rewrite (write_in_prints _ [_; _; _]) by done.
      destruct (decide (f' ∈ rest)) as [Hy|Hn]; [by apply Hs|].
      apply elem_of_cons in Hin as [-> |?]; [|done]. split.
      * intros H2. destruct (Hw _ H2) as [(f'' & Hin & Heq) _].
        by apply os_path_join_inj in Heq as ->.
      * intros [? ?]. by destruct Hmiss.
  - py_next Hr.
    set (w' := mkWorld (<[os_path_join TMP_DIR f := File body]> (fs w)) (cwd w)).
    destruct (IH (d0 ++ [f]) w') as (d & Ho & Hc & Hu & Hm & Hw & Hf & Hs).
    exists d. unfold prepend, retrieved in *. cbn [outcome world events].
    split; [done|]. split; [done|]. split; [cbn; by rewrite Hu|].
    assert (forall p evs, EvWrite p ∈
              [EvPrint ("Trying " +:+ (url +:+ "/" +:+ f) +:+ " ...");
               EvHttpGet (url +:+ "/" +:+ f); EvWrite (os_path_join TMP_DIR f);
               EvPrint ("Downloaded " +:+ f)] ++ evs <->
              p = os_path_join TMP_DIR f \/ EvWrite p ∈ evs) as Hin.
    { intros p evs. cbn. rewrite !elem_of_cons. split.
      - intros [?|[?|[[= ->]|[?|?]]]]; try done; by eauto.
      - intros [-> |?]; by eauto. }
    split_and!.
    + intros f'. rewrite Hin, Hm, elem_of_app, list_elem_of_singleton. split.
      * intros [[?| ->]|[? ?]]; [by left|right|right].
        -- split; [by left|by left].
        -- split; [by right|by right].
      * intros [?|[H1 [H2|H2]]]; [by left; left| |].
        -- apply os_path_join_inj in H2 as ->. left; by right.
        -- right. split; [|done].
           destruct (Hw _ H2) as [(f'' & Hin' & Heq) _].
           by apply os_path_join_inj in Heq as ->.
    + intros p. rewrite Hin. intros [-> |H].
      * split; [exists f; split; [by left|done]|].
        destruct (decide (EvWrite (os_path_join TMP_DIR f) ∈
                            events (fetch_loop E url rest (d0 ++ [f]) w'))) as [Hy|Hn].
        -- by apply Hw.
        -- rewrite (Hf _ Hn). exists body. apply lookup_insert_eq.
      * destruct (Hw _ H) as [(f' & Hin' & ->) Hc']. split; [|done].
        exists f'. split; [by right|done].
    + intros p. rewrite Hin. intros Hn.
      rewrite Hf by (intros ?; apply Hn; by right).
      apply lookup_insert_ne. intros <-. apply Hn. by left.
    + intros f' Hin'. rewrite Hin.
      destruct (decide (f' = f)) as [-> |Hne].
      * split; [intros _; split; [by exists body|done]|intros _; by left].
      * apply elem_of_cons in Hin' as [?|Hin']; [done|].
        rewrite (Hs _ Hin'). cbn [fs w'].
        rewrite lookup_insert_ne by (intros Heq; by apply os_path_join_inj in Heq).
        split; [intros [H|H]; [by apply os_path_join_inj in H|done]|by right].
Qed.

Lemma emits_fetch_loop E P url fnames d0 :
  (forall msg, P (EvPrint msg) = true) -> (forall u, P (EvHttpGet u) = true) ->
  (forall p, P (EvWrite p) = true) ->
  emits P (fetch_loop E url fnames d0).
Proof.
  intros Hp Hh Hw. revert d0. induction fnames as [|f rest IH]; intros d0.
  - apply emits_ret.
  - cbn [fetch_loop]. apply emits_bind; [|intros d; apply IH].
    unfold fetch_one. emits_tac; by rewrite ?Hp, ?Hh, ?Hw.
Qed.

(* ===================================================================== *)
(** ** Extraction *)
(* ===================================================================== *)

Lemma append_length a b : String.length (a +:+ b) = (String.length a + String.length b)%nat.
Proof.
  induction a as [|c a IH]; [done|].
  change (String c a +:+ b) with (String c (a +:+ b)). cbn [String.length].
  by rewrite IH.
Qed.

Lemma os_path_join_ne a b : os_path_join a b <> a.
Proof.
  unfold os_path_join. intros H. apply (f_equal String.length) in H.
  rewrite !append_length in H. cbn in H. lia.
Qed.

Lemma extract_keeps (dest : string) members (m : FS) p :
  is_Some (m !! p) ->
  is_Some (List.fold_left (fun m kv => <[os_path_join dest (fst kv) := snd kv]> m)
             members m !! p).
Proof.
  revert m. induction members as [|kv members IH]; intros m H; [done|].
  cbn. apply IH. destruct (decide (os_path_join dest kv.1 = p)) as [->|Hne].
  - rewrite lookup_insert_eq. eauto.
  - by rewrite lookup_insert_ne.
Qed.

Lemma extract_keeps_dest (dest : string) members (m : FS) :
  List.fold_left (fun m kv => <[os_path_join dest (fst kv) := snd kv]> m)
    members m !! dest = m !! dest.
Proof.
  revert m. induction members as [|kv members IH]; intros m; [done|].
  cbn. rewrite IH. apply lookup_insert_ne, os_path_join_ne.
Qed.

Lemma grows_refl w : grows w w.
Proof. by repeat split. Qed.

Lemma grows_trans w1 w2 w3 : grows w1 w2 -> grows w2 w3 -> grows w1 w3.
Proof.
  intros (H1 & H2 & H3) (H4 & H5 & H6). repeat split; try congruence.
  intros p Hp. by apply H6, H3.
Qed.

Lemma zip_extractall_cases E f w :
  let path := os_path_join TMP_DIR f in
  match fs w !! path with
  | Some (File payload) =>
      match unzip E payload with
      | Some (members, err) =>
          zip_extractall E path TMP_DIR w =
            mkRun (match err with None => Normal tt | Some e => Raised e end)
              (mkWorld (List.fold_left
                          (fun m kv => <[os_path_join TMP_DIR (fst kv) := snd kv]> m)
                          members (fs w)) (cwd w))
              [match err with
               | None => EvExtract path
               | Some _ => EvExtractAborted path
               end]
      | None =>
          zip_extractall E path TMP_DIR w =
            mkRun (Raised (Exn BadZipFile "File is not a zip file")) w []
      end
  | Some Dir =>
      zip_extractall E path TMP_DIR w = mkRun (Raised (Exn IsADirectoryError path)) w []
  | None =>
      zip_extractall E path TMP_DIR w = mkRun (Raised (Exn FileNotFoundError path)) w []
  end.
Proof.
  cbv zeta. unfold zip_extractall. rewrite resolve_ws.
  destruct (fs w !! os_path_join TMP_DIR f) as [[payload|]|]; try done.
  by destruct (unzip E payload) as [[members [e|]]|].
Qed.

Lemma extract_zip_spec E f w :
  is_Some (fs w !! os_path_join TMP_DIR f) ->
  extract_post w (extract_zip E (os_path_join TMP_DIR f) w) /\
  ((exists c, fs w !! os_path_join TMP_DIR f = Some (File c)) ->
     (outcome (extract_zip E (os_path_join TMP_DIR f) w) = Normal tt /\
      unpacked f (events (extract_zip E (os_path_join TMP_DIR f) w))) \/
     (exists e, outcome (extract_zip E (os_path_join TMP_DIR f) w) = Raised e /\
        exn_class e <> BadZipFile /\
        events (extract_zip E (os_path_join TMP_DIR f) w) =
          [EvExtractAborted (os_path_join TMP_DIR f)])).
Proof.
  intros Hex. pose proof (zip_extractall_cases E f w) as Hz. cbv zeta in Hz.
  unfold extract_zip, extract_post, unpacked.
  destruct (fs w !! os_path_join TMP_DIR f) as [[payload|]|] eqn:Hl.
  - destruct (unzip E payload) as [[members [e|]]|].
    + assert (grows w
                (mkWorld (List.fold_left
                            (fun m kv => <[os_path_join TMP_DIR (fst kv) := snd kv]> m)
                            members (fs w)) (cwd w))) as Hg.
      { split; [done|]. split; [apply extract_keeps_dest|].
        intros p. apply extract_keeps. }
      destruct (decide (exn_class e = BadZipFile)) as [Hc|Hc].
      * erewrite try_run_handled; [|py_fail Hz; reflexivity|by rewrite Hc].
        unfold print, emit. rewrite !prepend_run. cbn [world outcome events app].
        split; [split; [done|by left]|].
        intros _. left. split; [done|]. right. right. by left.
      * erewrite try_run_unhandled;
          [|py_fail Hz; reflexivity|by destruct (exn_class e)].
        cbn [world outcome events]. split; [split; [done|right]|].
        { exists e. split; [done|]. split; [done|]. right.
          exists (os_path_join TMP_DIR f). by left. }
        intros _. right. by exists e.
    + erewrite try_run_normal; [|py_next Hz; reflexivity].
      cbn [world outcome events fs cwd]. split; [split|].
      * split; [done|]. split; [apply extract_keeps_dest|].
        intros p. apply extract_keeps.
      * by left.
      * intros _. left. split; [done|]. left. cbn. by left.
    + erewrite try_run_handled; [|py_fail Hz; reflexivity|reflexivity].
      unfold print, emit. rewrite !prepend_run. cbn [world outcome events app].
      split; [split; [apply grows_refl|by left]|].
      intros _. left. split; [done|]. right. by left.
  - erewrite try_run_unhandled; [|py_fail Hz; reflexivity|reflexivity].
    cbn [world outcome events]. split; [split; [apply grows_refl|]|].
    + right. eexists. split; [done|]. split; [done|]. by left.
    + by intros [c [=]].
  - by destruct Hex.
Qed.

Lemma emits_extract_zip E P path :
  (forall msg, P (EvPrint msg) = true) -> P (EvExtract path) = true ->
  P (EvExtractAborted path) = true ->
  emits P (extract_zip E path).
Proof.
  intros Hp He Ha. unfold extract_zip. emits_tac; by rewrite ?Hp, ?He, ?Ha.
Qed.

Lemma emits_extract_loop E P fnames :
  (forall msg, P (EvPrint msg) = true) ->
  (forall p, P (EvExtract p) = true /\ P (EvExtractAborted p) = true) ->
  (forall f b, P (EvProbe (os_path_join TMP_DIR f) b) = true) ->
  emits P (extract_loop E fnames).
Proof.
  intros Hp He Hb. induction fnames as [|f rest IH]; [apply emits_ret|].
  cbn [extract_loop]. apply emits_bind; [by apply emits_path_exists|intros b].
  apply emits_bind; [|intros _; apply IH].
  destruct b; [apply emits_extract_zip; [done|apply He..]|apply emits_ret].
Qed.

Lemma probe_ws f w :
  path_exists (os_path_join TMP_DIR f) w =
    mkRun (Normal (in_workspace w f)) w
      [EvProbe (os_path_join TMP_DIR f) (in_workspace w f)].
Proof. apply probe_abs. done. Qed.

Lemma extract_loop_spec E fnames w :
  extract_post w (extract_loop E fnames w).
Proof.
  revert w. induction fnames as [|f rest IH]; intros w.
  { split; [apply grows_refl|by left]. }
  cbn [extract_loop]. cbv zeta. py_next (probe_ws f w).
  unfold extract_post in *.
  destruct (in_workspace w f) eqn:Hin.
  - unfold in_workspace in Hin. apply fs_has_Some in Hin.
    destruct (extract_zip_spec E f w Hin) as [[Hg Ho] _].
    destruct Ho as [Ho|(e & Ho & Hc & Hx)].
    + rewrite (bind_normal _ _ _ _ Ho). cbv beta.
      destruct (IH (world (extract_zip E (os_path_join TMP_DIR f) w))) as [Hg' Ho'].
      rewrite !outcome_prepend, !world_prepend, !events_prepend.
      split; [by eapply grows_trans|].
      destruct Ho' as [Ho'|(e & Ho' & Hc & Hx)]; [by left|right].
      exists e. split; [done|]. split; [done|].
      destruct Hx as [Hx|[p Hp]]; [by left|right]. exists p. ev_in.
    + rewrite (bind_raised _ _ _ _ Ho).
      rewrite !outcome_prepend, !world_prepend, !events_prepend.
      cbn [world outcome events].
      split; [done|right]. exists e. split; [done|]. split; [done|].
      destruct Hx as [Hx|[p Hp]]; [by left|right]. exists p. ev_in.
  - rewrite bind_ret_l. destruct (IH w) as [Hg Ho].
    rewrite !outcome_prepend, !world_prepend, !events_prepend.
    split; [done|].
    destruct Ho as [Ho|(e & Ho & Hc & Hx)]; [by left|right].
    exists e. split; [done|]. split; [done|].
    destruct Hx as [Hx|[p Hp]]; [by left|right]. exists p. ev_in.
Qed.

(* ===================================================================== *)
(** ** The stages of [get_repo] *)
(* ===================================================================== *)

Lemma v2_get_repo_stages E repo_path flags :
  V2.get_repo E repo_path flags =
    fetch_stage E repo_path (v2_after_fetch E repo_path flags).
Proof. reflexivity. Qed.

Lemma v1_get_repo_stages E repo_path flags :
  V1.get_repo E repo_path flags =
    fetch_stage E repo_path (v1_after_fetch E repo_path flags).
Proof. reflexivity. Qed.

(* ===================================================================== *)
(** ** Which stage emits what *)
(* ===================================================================== *)

Lemma emits_weaken {A} (P Q : Event -> bool) (m : Py A) :
  (forall e, P e = true -> Q e = true) -> emits P m -> emits Q m.
Proof.
  intros H Hm w. specialize (Hm w). rewrite forallb_forall in *.
  intros e He. by apply H, Hm.
Qed.

Lemma emits_elem {A} (P : Event -> bool) (m : Py A) w e :
  emits P m -> e ∈ events (m w) -> P e = true.
Proof.
  intros Hm He. specialize (Hm w). rewrite forallb_forall in Hm.
  by apply Hm, list_elem_of_In.
Qed.

Lemma emits_run E P cmd :
  (forall msg, P (EvPrint msg) = true) -> (forall rc, P (EvShell cmd rc) = true) ->
  emits P (run E cmd).
Proof. intros Hp Hs. unfold run. emits_tac; by rewrite ?Hp, ?Hs. Qed.

Lemma emits_hidden_imports E P mods : emits P (V2.hidden_imports E mods).
Proof.
  induction mods as [|m mods IH]; [apply emits_ret|].
  cbn [V2.hidden_imports]. emits_tac. apply IH.
Qed.

Lemma emits_unpack2 P l : emits P (unpack2 l).
Proof. unfold unpack2. destruct l as [|? [|? [|]]]; by intros w. Qed.

Ltac emits_prog :=
  repeat first
    [ emits_step
    | apply emits_run; [intros ?|intros ?]
    | apply emits_hidden_imports ];
  try reflexivity.

Lemma emits_v2_detect E reponame : emits build_event (V2.detect_and_build E reponame).
Proof. unfold V2.detect_and_build. cbv zeta. emits_prog. Qed.

Lemma emits_v1_detect E : emits build_event (V1.detect_and_build E).
Proof. unfold V1.detect_and_build. emits_prog. Qed.

Lemma emits_v2_usable bp : emits build_event (V2.usable_binary bp).
Proof. unfold V2.usable_binary. emits_prog. Qed.

Lemma emits_v1_usable bp : emits build_event (V1.usable_binary bp).
Proof. unfold V1.usable_binary. emits_prog. Qed.

Lemma emits_v2_install E bp reponame : emits build_event (V2.install_binary E bp reponame).
Proof. unfold V2.install_binary. cbv zeta. emits_prog. Qed.

Lemma emits_v1_install E bp reponame : emits build_event (V1.install_binary E bp reponame).
Proof. unfold V1.install_binary. cbv zeta. emits_prog. Qed.

Lemma emits_v2_auto E reponame : emits build_event (v2_auto E reponame).
Proof.
  unfold v2_auto.
  apply emits_bind; [by apply emits_print|intros _].
  apply emits_bind; [apply emits_v2_detect|intros bp].
  apply emits_bind; [apply emits_v2_usable|intros [u|]].
  - apply emits_bind; [apply emits_v2_install|intros _; by apply emits_print].
  - apply emits_bind; intros; by apply emits_print.
Qed.

Lemma emits_v1_auto E reponame : emits build_event (v1_auto E reponame).
Proof.
  unfold v1_auto.
  apply emits_bind; [by apply emits_print|intros _].
  apply emits_bind; [apply emits_v1_detect|intros bp].
  apply emits_bind; [apply emits_v1_usable|intros [u|]].
  - apply emits_v1_install.
  - by apply emits_print.
Qed.

Lemma emits_v2_script E : emits script_event (v2_script E).
Proof. unfold v2_script. emits_prog. Qed.

Lemma emits_v1_script E : emits script_event (v1_script E).
Proof. unfold v1_script. emits_prog. Qed.

Lemma emits_unpack E fnames : emits unpack_event (extract_loop E fnames).
Proof. by apply emits_extract_loop. Qed.

Lemma emits_v2_after_fetch E repo_path flags d :
  emits install_event (v2_after_fetch E repo_path flags d).
Proof.
  unfold v2_after_fetch, v2_install_phase.
  destruct d; [emits_prog|]. destruct (list_in "--no-unzip" flags); [emits_prog|].
  apply emits_bind; [|intros _].
  { eapply emits_weaken; [|apply emits_unpack]. by intros []. }
  apply emits_bind; [by apply emits_os_chdir|intros _].
  apply emits_bind; [apply emits_unpack2|].
  intros p. destruct (list_in "install.sh" _).
  - eapply emits_weaken; [|apply emits_v2_script]. by intros [].
  - eapply emits_weaken; [|apply emits_v2_auto]. by intros [].
Qed.

Lemma emits_v1_after_fetch E repo_path flags d :
  emits install_event (v1_after_fetch E repo_path flags d).
Proof.
  unfold v1_after_fetch, v1_install_phase.
  destruct d; [emits_prog|].
  apply emits_bind; [|intros _].
  { destruct (negb _); [|apply emits_ret].
    eapply emits_weaken; [|apply emits_unpack]. by intros []. }
  apply emits_bind; [apply emits_unpack2|].
  intros p. apply emits_bind; [|intros _; by apply emits_print].
  destruct (_ && _).
  - eapply emits_weaken; [|apply emits_v1_script]. by intros [].
  - eapply emits_weaken; [|apply emits_v1_auto]. by intros [].
Qed.

(* ===================================================================== *)
(** ** The download stage and the --no-unzip option *)
(* ===================================================================== *)

Lemma os_makedirs_cases w :
  (exists c, fs w !! TMP_DIR = Some (File c) /\
     os_makedirs TMP_DIR w = mkRun (Raised (Exn FileExistsError TMP_DIR)) w []) \/
  (exists w0,
     os_makedirs TMP_DIR w = mkRun (Normal tt) w0 [EvMakedirs TMP_DIR] /\
     (forall c, fs w !! TMP_DIR <> Some (File c)) /\
     cwd w0 = cwd w /\ fs w0 !! TMP_DIR = Some Dir /\
     forall p, p <> TMP_DIR -> fs w0 !! p = fs w !! p).
Proof.
  unfold os_makedirs. destruct (fs w !! TMP_DIR) as [[c|]|] eqn:Hl.
  - left. by exists c.
  - right. exists w. by repeat split.
  - right. eexists. split; [done|]. cbn. repeat split; try done.
    + apply lookup_insert_eq.
    + intros p Hp. by apply lookup_insert_ne.
Qed.

Lemma fetch_stage_cases {A} E repo_path (k : list string -> Py A) w :
  (exists c, fs w !! TMP_DIR = Some (File c) /\
     fetch_stage E repo_path k w =
       mkRun (Raised (Exn FileExistsError TMP_DIR)) w
         [EvPrint ("Fetching repo: " +:+ repo_path)]) \/
  (exists d w1 evs,
     fetched E repo_path w d w1 evs /\
     fetch_stage E repo_path k w =
       prepend (EvPrint ("Fetching repo: " +:+ repo_path) :: EvMakedirs TMP_DIR :: evs)
         (k d w1)).
Proof.
  unfold fetch_stage. py_print.
  destruct (os_makedirs_cases w) as [(c & Hc & Hm)|(w0 & Hm & Hnf & Hcw & Hd & Hfr)].
  { left. exists c. split; [done|]. py_fail Hm. reflexivity. }
  right. py_next Hm.
  destruct (fetch_loop_spec E (BASE_URL +:+ "/" +:+ repo_path) files_to_try [] w0)
    as (d & Ho & Hc & Hu & Hmem & Hw & Hf & Hs).
  rewrite (bind_normal _ _ _ _ Ho). rewrite !prepend_prepend.
  exists d, (world (fetch_loop E (BASE_URL +:+ "/" +:+ repo_path) files_to_try [] w0)),
    (events (fetch_loop E (BASE_URL +:+ "/" +:+ repo_path) files_to_try [] w0)).
  split; [|reflexivity].
  assert (EvWrite TMP_DIR ∉
            events (fetch_loop E (BASE_URL +:+ "/" +:+ repo_path) files_to_try [] w0))
    as Hnw.
  { intros Hin. destruct (Hw _ Hin) as [(f & _ & Heq) _].
    symmetry in Heq. by apply os_path_join_ne in Heq. }
  unfold fetched. split_and!.
  - done.
  - congruence.
  - by rewrite (Hf _ Hnw).
  - by apply emits_fetch_loop.
  - done.
  - intros f. rewrite Hmem. split.
    + intros [Hin|[? ?]]; [by apply elem_of_nil in Hin|done].
    + intros [? ?]. by right.
  - done.
  - intros p Hp Hne. rewrite (Hf _ Hp). by apply Hfr.
  - intros f Hin. rewrite (Hs _ Hin).
    rewrite (Hfr (os_path_join TMP_DIR f)) by apply os_path_join_ne. done.
Qed.

Lemma forallb_elem (P : Event -> bool) evs :
  forallb P evs = true <-> forall e, e ∈ evs -> P e = true.
Proof.
  rewrite forallb_forall. split; intros H e He; apply H.
  - by apply list_elem_of_In.
  - by apply list_elem_of_In.
Qed.

Lemma fetch_event_only e : fetch_event e = true -> fetch_only e = true.
Proof. by destruct e. Qed.

Lemma v2_after_fetch_no_unzip E repo_path flags d w :
  list_in "--no-unzip" flags = true ->
  exists o msg, v2_after_fetch E repo_path flags d w = mkRun o w [EvPrint msg].
Proof.
  intros H. unfold v2_after_fetch. rewrite H. destruct d; by eexists _, _.
Qed.

Lemma emits_v1_after_fetch_no_unzip E repo_path flags d :
  list_in "--no-unzip" flags = true ->
  emits (fun e => negb (is_extract e)) (v1_after_fetch E repo_path flags d).
Proof.
  intros H. unfold v1_after_fetch, v1_install_phase. rewrite H.
  destruct d; [emits_prog|]. cbn [negb].
  apply emits_bind; [apply emits_ret|intros _].
  apply emits_bind; [apply emits_unpack2|intros p].
  apply emits_bind; [|intros _; by apply emits_print].
  destruct (_ && _).
  - eapply emits_weaken; [|apply emits_v1_script]. by intros [].
  - eapply emits_weaken; [|apply emits_v1_auto]. by intros [].
Qed.

Lemma emits_fetch_stage {A} E P repo_path (k : list string -> Py A) :
  (forall e, fetch_only e = true -> P e = true) ->
  (forall d, emits P (k d)) -> emits P (fetch_stage E repo_path k).
Proof.
  intros HP Hk. unfold fetch_stage.
  apply emits_bind; [by apply emits_print, HP|intros _].
  apply emits_bind; [by apply emits_os_makedirs, HP|intros _].
  apply emits_bind; [|done].
  apply emits_fetch_loop; intros; by apply HP.
Qed.

Lemma install_event_not_write e : install_event e = true -> is_write e = false.
Proof. by destruct e. Qed.

(** A candidate retrieved by a run of [get_repo] is in the list the
    download loop hands to the rest of the function. *)
Lemma retrieved_downloaded {A} E repo_path (k : list string -> Py A) w f :
  (forall d, emits install_event (k d)) ->
  retrieved f (events (fetch_stage E repo_path k w)) ->
  exists d w1 evs,
    fetched E repo_path w d w1 evs /\ f ∈ d /\
    fetch_stage E repo_path k w =
      prepend (EvPrint ("Fetching repo: " +:+ repo_path) :: EvMakedirs TMP_DIR :: evs)
        (k d w1).
Proof.
  intros Hk. unfold retrieved.
  destruct (fetch_stage_cases E repo_path k w)
    as [(c & _ & ->)|(d & w1 & evs & Hf & ->)].
  { cbn. intros H. apply elem_of_cons in H as [?|H]; [done|].
    by apply elem_of_nil in H. }
  rewrite events_prepend. cbn [app]. rewrite !elem_of_cons, elem_of_app.
  intros [?|[?|[Hin|Hin]]]; try done.
  - exists d, w1, evs. split; [done|]. split; [|done].
    destruct Hf as (_ & _ & _ & _ & _ & Hmem & Hw & _).
    apply Hmem. split; [|done].
    destruct (Hw _ Hin) as [(f' & Hf' & Heq) _].
    by apply os_path_join_inj in Heq as ->.
  - apply (emits_elem _ _ _ _ (Hk d)), install_event_not_write in Hin. done.
Qed.

(** With --no-unzip, [get_repo] of [src/FileShare/fileshare.py] goes on
    after the download as soon as something was retrieved and the
    identifier has its two segments. *)
Lemma v1_no_unzip_goes_on E repo_path flags w :
  list_in "--no-unzip" flags = true ->
  count_char "/" repo_path = 1%nat ->
  (exists f, retrieved f (events (V1.get_repo E repo_path flags w))) ->
  EvPrint "Running install.sh ..." ∈ events (V1.get_repo E repo_path flags w) \/
  EvPrint "Using automatic language detection..."
    ∈ events (V1.get_repo E repo_path flags w).
Proof.
  intros Hnu Hc [f Hr]. revert Hr. rewrite v1_get_repo_stages. intros Hr.
  destruct (retrieved_downloaded E repo_path _ w _
              (emits_v1_after_fetch E repo_path flags) Hr)
    as (d & w1 & evs & Hf & Hd & ->).
  rewrite events_prepend. unfold v1_after_fetch, v1_install_phase.
  destruct d as [|f0 d0]; [by apply elem_of_nil in Hd|].
  rewrite Hnu. cbn [negb]. rewrite bind_ret_l.
  destruct (py_split_one_sep repo_path Hc) as (o & n & Hs & _).
  rewrite Hs. unfold unpack2. rewrite bind_ret_l. cbn [snd].
  match goal with
  | |- context [events (bind ?m ?k ?w0)] =>
      destruct (bind_events_prefix m k w0) as [rest ->]
  end.
  destruct (_ && _).
  - left. unfold v1_script. py_print. ev_in.
  - right. unfold v1_auto. py_print. ev_in.
Qed.

(** C6. With --no-unzip, [get_repo] of [src/fileshare.py] stops after the
    download: its events are prints, the creation of the Workspace, the
    HTTP requests and the writes of retrieved candidates, so nothing is
    extracted, detected, built, installed or executed; the working
    directory is kept, and the only paths that differ afterwards are the
    Workspace directory itself and the candidate files written by this
    fetch. In [src/FileShare/fileshare.py] the option skips the extraction
    only: nothing is extracted, and whenever something was retrieved and
    the identifier has exactly one separator the run goes on to the
    install script or to the automatic detection. *)
Theorem no_unzip_fetch_only (E : Env) (repo_path : string) (flags : list string)
    (w : World) :
  list_in "--no-unzip" flags = true ->
  let r := V2.get_repo E repo_path flags w in
  (forall e, e ∈ events r -> fetch_only e = true) /\
  cwd (world r) = cwd w /\
  (forall p, fs (world r) !! p <> fs w !! p ->
     p = TMP_DIR \/
     exists f, f ∈ files_to_try /\ p = os_path_join TMP_DIR f /\
               retrieved f (events r) /\
               exists c, fs (world r) !! p = Some (File c)) /\
  (forall e, e ∈ events (V1.get_repo E repo_path flags w) -> is_extract e = false) /\
  (count_char "/" repo_path = 1%nat ->
   (exists f, retrieved f (events (V1.get_repo E repo_path flags w))) ->
   EvPrint "Running install.sh ..." ∈ events (V1.get_repo E repo_path flags w) \/
   EvPrint "Using automatic language detection..."
     ∈ events (V1.get_repo E repo_path flags w)).
Proof.
  intros Hnu. cbv zeta. split_and!.
  - apply forallb_elem. revert w. change (emits fetch_only (V2.get_repo E repo_path flags)).
    rewrite v2_get_repo_stages. apply emits_fetch_stage; [done|intros d w].
    destruct (v2_after_fetch_no_unzip E repo_path flags d w Hnu) as (o & msg & ->).
    done.
  - rewrite v2_get_repo_stages.
    destruct (fetch_stage_cases E repo_path (v2_after_fetch E repo_path flags) w)
      as [(c & _ & ->)|(d & w1 & evs & Hf & ->)]; [done|].
    destruct (v2_after_fetch_no_unzip E repo_path flags d w1 Hnu) as (o & msg & ->).
    apply Hf.
  - rewrite v2_get_repo_stages.
    destruct (fetch_stage_cases E repo_path (v2_after_fetch E repo_path flags) w)
      as [(c & _ & ->)|(d & w1 & evs & Hf & ->)]; [done|].
    destruct (v2_after_fetch_no_unzip E repo_path flags d w1 Hnu) as (o & msg & ->).
    rewrite prepend_run. cbn [world events].
    destruct Hf as (_ & _ & _ & _ & _ & _ & Hw & Hfr & _).
    intros p Hp. destruct (decide (p = TMP_DIR)) as [|Hne]; [by left|right].
    destruct (decide (EvWrite p ∈ evs)) as [Hin|Hnin]; [|by rewrite Hfr in Hp].
    destruct (Hw _ Hin) as [(f & Hfin & ->) Hc]. exists f. split_and!; try done.
    unfold retrieved. cbn [app]. rewrite !elem_of_cons, elem_of_app. auto.
  - intros e He. apply negb_true_iff.
    revert e He. apply forallb_elem. revert w.
    change (emits (fun e => negb (is_extract e)) (V1.get_repo E repo_path flags)).
    rewrite v1_get_repo_stages. apply emits_fetch_stage; [by intros []|intros d].
    by apply emits_v1_after_fetch_no_unzip.
  - by apply v1_no_unzip_goes_on.
Qed.

Lemma no_unzip_fetch_only_witness :
  let r := V2.get_repo (RefEnv.env 0 server_app_go) "alice/tool" ["--no-unzip"]
             RefEnv.empty_world in
  let r1 := V1.get_repo (RefEnv.env 0 server_app_go) "alice/tool" ["--no-unzip"]
              RefEnv.empty_world in
  map_to_list (fs (world r)) =
    [("/tmp/fsdl/app.zip", File "zip:main.go"); ("/tmp/fsdl", Dir)] /\
  (forall e, e ∈ events r -> fetch_only e = true) /\
  (EvPrint "Running install.sh ..." ∈ events r1 \/
   EvPrint "Using automatic language detection..." ∈ events r1).
Proof.
  cbv zeta.
  assert (list_in "--no-unzip" ["--no-unzip"] = true) as Hnu by (by vm_compute).
  assert (exists f, retrieved f
            (events (V1.get_repo (RefEnv.env 0 server_app_go) "alice/tool"
                       ["--no-unzip"] RefEnv.empty_world))) as Hr
    by (exists "app.zip"; in_events).
  split; [by vm_compute|].
  destruct (no_unzip_fetch_only (RefEnv.env 0 server_app_go) "alice/tool"
              ["--no-unzip"] RefEnv.empty_world Hnu) as (H1 & _ & _ & _ & H5).
  split; [exact H1|]. exact (H5 eq_refl Hr).
Defined.

(* ===================================================================== *)
(** ** Installation and the Workspace *)
(* ===================================================================== *)


Lemma emits_v2_get_repo_keeps_workspace E repo_path flags :
  emits (fun e => negb (is_rm_workspace e)) (V2.get_repo E repo_path flags).
Proof.
  rewrite v2_get_repo_stages. apply emits_fetch_stage; [by intros []|intros d].
  unfold v2_after_fetch, v2_install_phase.
  destruct d; [emits_prog|]. destruct (list_in "--no-unzip" flags); [emits_prog|].
  apply emits_bind; [|intros _].
  { eapply emits_weaken; [|apply emits_unpack]. by intros []. }
  apply emits_bind; [by apply emits_os_chdir|intros _].
  apply emits_bind; [apply emits_unpack2|intros p].
  destruct (list_in "install.sh" _).
  { eapply emits_weaken; [|apply emits_v2_script]. by intros []. }
  unfold v2_auto, V2.detect_and_build, V2.usable_binary, V2.install_binary.
  cbv zeta. emits_prog.
Qed.

Lemma v1_install_binary_run E bp reponame w :
  outcome (V1.install_binary E bp reponame w) = Normal tt ->
  exists m,
    V1.install_binary E bp reponame w =
      mkRun (Normal tt)
        (mkWorld (snd (shell E "sudo rm -rf /tmp/fsdl" (cwd w) m)) (cwd w))
        [EvShell ("chmod +x " +:+ bp) 0;
         EvShell ("sudo cp " +:+ bp +:+ " /usr/local/bin/" +:+ Path_name (Path bp)) 0;
         EvShell ("sudo mkdir -p /usr/share/" +:+ reponame +:+ "/") 0;
         EvShell ("sudo cp " +:+ bp +:+ " /usr/share/" +:+ reponame +:+ "/") 0;
         EvPrint ("Installed as '" +:+ Path_name (Path bp) +:+ "'");
         EvShell "sudo rm -rf /tmp/fsdl" 0] /\
    fst (shell E "sudo rm -rf /tmp/fsdl" (cwd w) m) = 0.
Proof.
  unfold V1.install_binary. cbv zeta.
  py_run_next E; [|done]. py_run_next E; [|done].
  py_run_next E; [|done]. py_run_next E; [|done]. py_print.
  cbn [cwd].
  destruct (Z.eq_dec (fst (shell E "sudo rm -rf /tmp/fsdl" (cwd w) m2)) 0) as [H|H].
  - rewrite (run_ok E _ (mkWorld m2 (cwd w)) H). intros _. exists m2. by split.
  - by rewrite (run_failed E _ (mkWorld m2 (cwd w)) H).
Qed.

Lemma v2_install_binary_run E bp reponame w :
  outcome (V2.install_binary E bp reponame w) = Normal tt ->
  shell_cmds (events (V2.install_binary E bp reponame w)) =
    ["chmod +x " +:+ bp;
     "sudo cp " +:+ bp +:+ " " +:+ "/usr/local/bin/" +:+ Path_name (Path bp);
     "sudo mkdir -p " +:+ "/usr/share/" +:+ reponame;
     "sudo cp " +:+ bp +:+ " " +:+ "/usr/share/" +:+ reponame].
Proof.
  unfold V2.install_binary. cbv zeta.
  py_run_next E; [|done]. py_run_next E; [|done].
  py_run_next E; [|done]. py_run_next E; [|done]. done.
Qed.

(** C8. In [src/FileShare/fileshare.py] every install that completes ends
    with the removal of the Workspace: its last command is
    [sudo rm -rf /tmp/fsdl], it succeeded, and (the command doing what it
    reports) the Workspace directory is absent afterwards. In
    [src/fileshare.py] a completed install consists of the four
    chmod / cp / mkdir / cp commands only, and no run of [get_repo] ever
    issues the command [sudo rm -rf /tmp/fsdl]. *)
Theorem install_and_workspace (E : Env) (bp reponame : string) (w : World) :
  (rm_rf_sound E TMP_DIR ->
   outcome (V1.install_binary E bp reponame w) = Normal tt ->
   fs (world (V1.install_binary E bp reponame w)) !! TMP_DIR = None /\
   List.last (events (V1.install_binary E bp reponame w)) (EvPrint "") =
     EvShell "sudo rm -rf /tmp/fsdl" 0) /\
  (outcome (V2.install_binary E bp reponame w) = Normal tt ->
   shell_cmds (events (V2.install_binary E bp reponame w)) =
     ["chmod +x " +:+ bp;
      "sudo cp " +:+ bp +:+ " " +:+ "/usr/local/bin/" +:+ Path_name (Path bp);
      "sudo mkdir -p " +:+ "/usr/share/" +:+ reponame;
      "sudo cp " +:+ bp +:+ " " +:+ "/usr/share/" +:+ reponame]) /\
  (forall repo_path flags e,
     e ∈ events (V2.get_repo E repo_path flags w) -> is_rm_workspace e = false).
Proof.
  split_and!.
  - intros Hrm Hok. destruct (v1_install_binary_run E bp reponame w Hok) as (m & -> & H0).
    cbn [world fs events]. split; [|done].
    destruct (Hrm (cwd w) m H0) as [Hgone _]. exact Hgone.
  - apply v2_install_binary_run.
  - intros repo_path flags e He. apply negb_true_iff.
    by apply (emits_elem _ _ _ _ (emits_v2_get_repo_keeps_workspace E repo_path flags) He).
Qed.

Lemma install_and_workspace_witness :
  let E := RefEnv.env 0 [] in
  let w := mkWorld (snd (RefEnv.compile "/tmp/fsdl" "main.go" "app_bin"
                           (fs mixed_workspace))) "/tmp/fsdl" in
  fs (world (V1.install_binary E "app_bin" "tool" w)) !! TMP_DIR = None /\
  shell_cmds (events (V2.install_binary E "tool" "tool"
                        (mkWorld (snd (RefEnv.compile "/tmp/fsdl" "main.go" "tool"
                                         (fs mixed_workspace))) "/tmp/fsdl"))) =
    ["chmod +x tool"; "sudo cp tool /usr/local/bin/tool";
     "sudo mkdir -p /usr/share/tool"; "sudo cp tool /usr/share/tool"].
Proof.
  split.
  - apply (install_and_workspace (RefEnv.env 0 []) "app_bin" "tool").
    + by apply ref_rm_rf_sound.
    + by vm_compute.
  - apply (install_and_workspace (RefEnv.env 0 []) "tool" "tool"). by vm_compute.
Defined.

(** C8, as stated, fails on [src/fileshare.py]: alice/tool is fetched,
    built from main.go and installed in both places, the run returns
    normally, and the Workspace is still there with everything in it. *)
Lemma install_keeps_workspace_counterexample :
  let r := V2.get_repo (RefEnv.env 0 server_app_go) "alice/tool" []
             RefEnv.empty_world in
  outcome r = Normal tt /\
  EvPrint "Installed as 'tool'" ∈ events r /\
  fs (world r) !! "/usr/local/bin/tool" = Some (File "ELF") /\
  fs (world r) !! "/usr/share/tool/tool" = Some (File "ELF") /\
  fs (world r) !! TMP_DIR = Some Dir /\
  fs (world r) !! "/tmp/fsdl/main.go" = Some (File "src").
Proof. cbv zeta. split_and!; try (by vm_compute). in_events. Qed.

(** C6, as stated, fails on [src/FileShare/fileshare.py]: with --no-unzip
    and a Go entry point already in the Workspace, the fetch goes on to
    build and install. *)
Lemma no_unzip_counterexample :
  let r := V1.get_repo (RefEnv.env 0 server_app_go) "alice/tool" ["--no-unzip"]
             mixed_workspace in
  list_in "--no-unzip" ["--no-unzip"] = true /\
  EvProbe "main.go" true ∈ events r /\
  EvShell "go build -o app_bin main.go" 0 ∈ events r /\
  EvShell "sudo cp app_bin /usr/local/bin/app_bin" 0 ∈ events r /\
  fs (world r) !! "/usr/local/bin/app_bin" = Some (File "ELF").
Proof. cbv zeta. split_and!; try (by vm_compute); in_events. Qed.

(* ===================================================================== *)
(** ** The install phase of [src/fileshare.py] *)
(* ===================================================================== *)

Lemma os_chdir_workspace w :
  fs w !! TMP_DIR = Some Dir ->
  os_chdir TMP_DIR w = mkRun (Normal tt) (mkWorld (fs w) TMP_DIR) [EvChdir TMP_DIR].
Proof. intros H. by rewrite (os_chdir_ok TMP_DIR w H). Qed.

(** The three ways the install phase of [src/fileshare.py] can go: the
    extraction raises (an archive path that is a directory, an archive
    [extractall] does not get through); the
    identifier does not unpack into two segments; or the phase reaches the
    choice between the install script and the automatic protocol. *)
Lemma v2_install_phase_cases E repo_path d w :
  fs w !! TMP_DIR = Some Dir ->
  let re := extract_loop E zips w in
  let w3 := mkWorld (fs (world re)) TMP_DIR in
  grows w (world re) /\
  ((exists e,
      outcome re = Raised e /\ extraction_error e (events re) /\
      v2_install_phase E repo_path d w = mkRun (Raised e) (world re) (events re)) \/
   (outcome re = Normal tt /\ count_char "/" repo_path <> 1%nat /\
    exists msg,
      v2_install_phase E repo_path d w =
        mkRun (Raised (Exn ValueError msg)) w3 (events re ++ [EvChdir TMP_DIR])) \/
   (outcome re = Normal tt /\ count_char "/" repo_path = 1%nat /\
    exists owner name,
      repo_path = owner +:+ "/" +:+ name /\
      v2_install_phase E repo_path d w =
        prepend (events re ++ [EvChdir TMP_DIR])
          ((if list_in "install.sh" d then v2_script E else v2_auto E name) w3))).
Proof.
  intros Hws. cbv zeta. unfold v2_install_phase. fold zips.
  destruct (extract_loop_spec E zips w) as [Hg Ho]. split; [done|].
  destruct Ho as [Ho|(e & Ho & Hc)].
  2:{ left. exists e. split; [done|]. split; [done|].
      by rewrite (bind_raised _ _ _ _ Ho). }
  right. rewrite (bind_normal _ _ _ _ Ho). cbv beta.
  assert (fs (world (extract_loop E zips w)) !! TMP_DIR = Some Dir) as Hws'.
  { destruct Hg as (_ & -> & _). done. }
  py_next (os_chdir_workspace _ Hws').
  set (w3 := mkWorld (fs (world (extract_loop E zips w))) TMP_DIR).
  destruct (count_char "/" repo_path) as [|[|k]] eqn:Hc.
  - left. split; [done|]. split; [done|]. eexists.
    py_fail (unpack2_too_few repo_path w3 Hc). by rewrite !prepend_run.
  - right. split; [done|]. split; [done|].
    destruct (py_split_one_sep repo_path Hc) as (o & n & Hs & Hx & _ & _).
    exists o, n. split; [done|]. rewrite Hs. unfold unpack2.
    rewrite bind_ret_l. cbn [snd]. by rewrite prepend_prepend.
  - left. split; [done|]. split; [done|]. eexists.
    assert (2 <= count_char "/" repo_path)%nat as Hc' by lia.
    py_fail (unpack2_too_many repo_path w3 Hc'). by rewrite !prepend_run.
Qed.

Lemma os_chmod_ok p w n :
  fs w !! resolve w p = Some n -> os_chmod p w = mkRun (Normal tt) w [EvChmod p].
Proof. intros H. unfold os_chmod. by rewrite H. Qed.

Lemma os_chmod_missing p w :
  fs w !! resolve w p = None ->
  os_chmod p w = mkRun (Raised (Exn FileNotFoundError p)) w [].
Proof. intros H. unfold os_chmod. by rewrite H. Qed.

Lemma subprocess_exec_cases E argv dir w :
  exists m',
    (exists rc, subprocess_exec E argv dir w =
                  mkRun (Normal rc) (mkWorld m' (cwd w)) [EvExec argv (Some rc)]) \/
    subprocess_exec E argv dir w =
      mkRun (Raised (Exn OSError (List.hd "" argv))) (mkWorld m' (cwd w))
        [EvExec argv None].
Proof.
  unfold subprocess_exec. destruct (exec E argv dir (fs w)) as [[rc|] m'].
  - exists m'. left. by exists rc.
  - exists m'. by right.
Qed.

(** The install script of [src/fileshare.py], started in the Workspace. *)
Lemma v2_script_cases E w :
  cwd w = TMP_DIR ->
  (fs w !! os_path_join TMP_DIR "install.sh" = None /\
   v2_script E w =
     mkRun (Raised (Exn FileNotFoundError "install.sh")) w
       [EvPrint "install.sh found. Running and skipping default installer protocol..."]) \/
  (exists m',
     (exists rc,
       v2_script E w =
         mkRun (Normal tt) (mkWorld m' TMP_DIR)
           ([EvPrint "install.sh found. Running and skipping default installer protocol...";
             EvChmod "install.sh"; EvExec ["./install.sh"] (Some rc)] ++
            (if rc =? 0 then [] else [EvPrint "install.sh failed. Aborting."]))) \/
     v2_script E w =
       mkRun (Raised (Exn OSError "./install.sh")) (mkWorld m' TMP_DIR)
         [EvPrint "install.sh found. Running and skipping default installer protocol...";
          EvChmod "install.sh"; EvExec ["./install.sh"] None]).
Proof.
  intros Hc. unfold v2_script. py_print.
  assert (resolve w "install.sh" = os_path_join TMP_DIR "install.sh") as Hr.
  { unfold resolve. cbn. by rewrite Hc. }
  destruct (fs w !! os_path_join TMP_DIR "install.sh") as [n|] eqn:Hl.
  2:{ left. split; [done|]. rewrite <- Hr in Hl.
      py_fail (os_chmod_missing "install.sh" w Hl). reflexivity. }
  right. rewrite <- Hr in Hl. py_next (os_chmod_ok "install.sh" w n Hl).
  destruct (subprocess_exec_cases E ["./install.sh"] (cwd w) w) as [m' [[rc He]|He]];
    exists m'.
  - left. exists rc.
    assert ((fun w0 => subprocess_exec E ["./install.sh"] (cwd w0) w0) w =
              mkRun (Normal rc) (mkWorld m' TMP_DIR)
                [EvExec ["./install.sh"] (Some rc)]) as He'
      by (cbv beta; rewrite He; by rewrite Hc).
    py_next He'. destruct (rc =? 0); reflexivity.
  - right.
    assert ((fun w0 => subprocess_exec E ["./install.sh"] (cwd w0) w0) w =
              mkRun (Raised (Exn OSError "./install.sh")) (mkWorld m' TMP_DIR)
                [EvExec ["./install.sh"] None]) as He'
      by (cbv beta; rewrite He; by rewrite Hc).
    py_fail He'. reflexivity.
Qed.

(* ===================================================================== *)
(** ** The install script against automatic detection *)
(* ===================================================================== *)

Lemma bind_outcome_normal {A B} (m : Py A) (k : A -> Py B) w b :
  outcome (bind m k w) = Normal b ->
  exists a,
    outcome (m w) = Normal a /\ outcome (k a (world (m w))) = Normal b /\
    events (bind m k w) = events (m w) ++ events (k a (world (m w))).
Proof.
  unfold bind. destruct (outcome (m w)) as [a| |] eqn:Ho; try done.
  intros H. exists a. by repeat split.
Qed.

Lemma no_detect_no_build_ws_probe f b :
  no_detect_no_build (EvProbe (os_path_join TMP_DIR f) b) = true.
Proof.
  unfold no_detect_no_build. cbn [is_shell is_marker_probe negb andb].
  by rewrite marker_not_abs.
Qed.

Lemma emits_v2_after_fetch_script E repo_path flags d :
  list_in "install.sh" d = true ->
  emits no_detect_no_build (v2_after_fetch E repo_path flags d).
Proof.
  intros Hin. unfold v2_after_fetch, v2_install_phase. rewrite Hin.
  destruct d; [emits_prog|]. destruct (list_in "--no-unzip" flags); [emits_prog|].
  apply emits_bind; [|intros _].
  { apply emits_extract_loop; first [done|apply no_detect_no_build_ws_probe]. }
  apply emits_bind; [by apply emits_os_chdir|intros _].
  apply emits_bind; [apply emits_unpack2|intros p].
  eapply emits_weaken; [|apply emits_v2_script]. by intros [].
Qed.

Lemma emits_v1_after_fetch_script E repo_path flags d :
  list_in "--ignore-default" flags = true -> list_in "install.sh" d = true ->
  emits no_detect_no_build (v1_after_fetch E repo_path flags d).
Proof.
  intros Hid Hin. unfold v1_after_fetch, v1_install_phase. rewrite Hid, Hin.
  destruct d; [emits_prog|].
  apply emits_bind; [|intros _].
  { destruct (negb _); [|apply emits_ret].
    apply emits_extract_loop; first [done|apply no_detect_no_build_ws_probe]. }
  apply emits_bind; [apply emits_unpack2|intros p].
  apply emits_bind; [|intros _; by apply emits_print].
  eapply emits_weaken; [|apply emits_v1_script]. by intros [].
Qed.

Lemma list_in_true x l : list_in x l = true <-> x ∈ l.
Proof. unfold list_in. apply bool_decide_eq_true. Qed.

Lemma fetch_prefix_quiet E (P : Event -> bool) repo_path w d w1 evs e :
  (forall e, fetch_only e = true -> P e = true) ->
  fetched E repo_path w d w1 evs ->
  e ∈ EvPrint ("Fetching repo: " +:+ repo_path) :: EvMakedirs TMP_DIR :: evs ->
  P e = true.
Proof.
  intros HP Hf. rewrite !elem_of_cons. intros [->|[->|Hin]]; [by apply HP..|].
  destruct Hf as (_ & _ & _ & Hev & _). rewrite forallb_elem in Hev.
  by apply HP, fetch_event_only, Hev.
Qed.

Lemma emits_v2_get_repo_no_unzip E repo_path flags :
  list_in "--no-unzip" flags = true ->
  emits fetch_only (V2.get_repo E repo_path flags).
Proof.
  intros Hnu. rewrite v2_get_repo_stages. apply emits_fetch_stage; [done|intros d w].
  by destruct (v2_after_fetch_no_unzip E repo_path flags d w Hnu) as (o & msg & ->).
Qed.

Lemma v2_script_reached E repo_path flags w :
  list_in "--no-unzip" flags = false ->
  retrieved "install.sh" (events (V2.get_repo E repo_path flags w)) ->
  outcome (V2.get_repo E repo_path flags w) = Normal tt ->
  exists rc, EvExec ["./install.sh"] (Some rc) ∈ events (V2.get_repo E repo_path flags w).
Proof.
  intros Hnu. rewrite v2_get_repo_stages. intros Hr.
  destruct (retrieved_downloaded E repo_path _ w _
              (emits_v2_after_fetch E repo_path flags) Hr)
    as (d & w1 & evs & Hf & Hd & ->).
  rewrite outcome_prepend, events_prepend.
  apply list_in_true in Hd as Hd'.
  unfold v2_after_fetch. rewrite Hnu.
  destruct d as [|f0 d0]; [by apply elem_of_nil in Hd|].
  destruct Hf as (_ & _ & Hws & _).
  destruct (v2_install_phase_cases E repo_path (f0 :: d0) w1 Hws) as [_ Hc].
  cbv zeta in Hc.
  destruct Hc as [(e & _ & _ & ->)|[(_ & _ & msg & ->)|(_ & _ & o & n & _ & ->)]];
    [done..|].
  rewrite Hd', outcome_prepend, events_prepend.
  destruct (v2_script_cases E (mkWorld (fs (world (extract_loop E zips w1))) TMP_DIR)
              eq_refl) as [[_ ->]|(m' & [[rc ->]| ->])]; [done| |done].
  intros _. exists rc. ev_in.
Qed.

Lemma v1_script_reached E repo_path flags w :
  list_in "--ignore-default" flags = true ->
  retrieved "install.sh" (events (V1.get_repo E repo_path flags w)) ->
  outcome (V1.get_repo E repo_path flags w) = Normal tt ->
  exists rc, EvExec [os_path_join TMP_DIR "install.sh"] (Some rc)
               ∈ events (V1.get_repo E repo_path flags w).
Proof.
  intros Hid. rewrite v1_get_repo_stages. intros Hr.
  destruct (retrieved_downloaded E repo_path _ w _
              (emits_v1_after_fetch E repo_path flags) Hr)
    as (d & w1 & evs & Hf & Hd & ->).
  rewrite outcome_prepend, events_prepend.
  apply list_in_true in Hd as Hd'.
  unfold v1_after_fetch, v1_install_phase. rewrite Hid, Hd'. cbn [andb].
  destruct d as [|f0 d0]; [by apply elem_of_nil in Hd|].
  intros Ho.
  apply bind_outcome_normal in Ho as (? & _ & Ho & ->).
  apply bind_outcome_normal in Ho as (p & _ & Ho & ->).
  apply bind_outcome_normal in Ho as (? & Ho & _ & ->).
  unfold v1_script in *.
  apply bind_outcome_normal in Ho as (? & _ & Ho & ->).
  apply bind_outcome_normal in Ho as (? & _ & Ho & ->).
  apply bind_outcome_normal in Ho as (rc & Ho & _ & ->).
  exists rc. revert Ho. unfold subprocess_exec.
  destruct (exec E _ _ _) as [[rc'|] m']; [|done]. cbn [outcome events].
  intros [= ->]. ev_in.
Qed.

Lemma emits_v1_after_fetch_default E repo_path flags d :
  list_in "--ignore-default" flags = false ->
  emits (fun e => negb (is_exec e)) (v1_after_fetch E repo_path flags d).
Proof.
  intros Hid. unfold v1_after_fetch, v1_install_phase. rewrite Hid. cbn [andb].
  destruct d; [emits_prog|].
  apply emits_bind; [|intros _].
  { destruct (negb _); [|apply emits_ret].
    eapply emits_weaken; [|apply emits_unpack]. by intros []. }
  apply emits_bind; [apply emits_unpack2|intros p].
  apply emits_bind; [|intros _; by apply emits_print].
  eapply emits_weaken; [|apply emits_v1_auto]. by intros [].
Qed.

Lemma v1_detect_probes E w bp :
  outcome (V1.detect_and_build E w) = Normal bp ->
  exists b, EvProbe "main.py" b ∈ events (V1.detect_and_build E w).
Proof.
  unfold V1.detect_and_build. intros Ho.
  apply bind_outcome_normal in Ho as (u & _ & Ho & ->).
  apply bind_outcome_normal in Ho as (b & _ & _ & ->).
  eexists. apply elem_of_app. right. apply elem_of_app. left.
  unfold path_exists. cbn [events]. by left.
Qed.

Lemma v1_auto_probes E n w :
  outcome (v1_auto E n w) = Normal tt ->
  exists b, EvProbe "main.py" b ∈ events (v1_auto E n w).
Proof.
  unfold v1_auto. intros Ho.
  apply bind_outcome_normal in Ho as (u & _ & Ho & ->).
  apply bind_outcome_normal in Ho as (bp & Hd & _ & ->).
  destruct (v1_detect_probes E _ bp Hd) as [b Hb]. exists b. ev_in.
Qed.

(** Without --ignore-default a run of [get_repo] of
    [src/FileShare/fileshare.py] that returns has been through the
    automatic detection. *)
Lemma v1_default_detects E repo_path flags w :
  list_in "--ignore-default" flags = false ->
  outcome (V1.get_repo E repo_path flags w) = Normal tt ->
  exists b, EvProbe "main.py" b ∈ events (V1.get_repo E repo_path flags w).
Proof.
  intros Hid. rewrite v1_get_repo_stages.
  destruct (fetch_stage_cases E repo_path (v1_after_fetch E repo_path flags) w)
    as [(c & _ & ->)|(d & w1 & evs & Hf & ->)]; [done|].
  rewrite outcome_prepend, events_prepend.
  unfold v1_after_fetch, v1_install_phase. rewrite Hid. cbn [andb].
  destruct d as [|f0 d0]; [done|]. intros Ho.
  apply bind_outcome_normal in Ho as (u & _ & Ho & ->).
  apply bind_outcome_normal in Ho as (p & _ & Ho & ->).
  apply bind_outcome_normal in Ho as ([] & Ha & _ & ->).
  destruct (v1_auto_probes E _ _ Ha) as [b Hb]. exists b. ev_in.
Qed.

(** C1. In [src/fileshare.py], a fetch that retrieved install.sh never
    probes a build marker and never runs a shell command, whatever else
    is in the Workspace; it runs the script whenever it completes without
    --no-unzip, and does not run it under --no-unzip. In
    [src/FileShare/fileshare.py] the script replaces the detection only
    under --ignore-default: with that option a fetch that retrieved
    install.sh never probes a marker or runs a command, and runs the
    script whenever it completes; without it no program is ever
    executed, and every fetch that completes has probed the first build
    marker, whether or not install.sh was retrieved. *)
Theorem script_overrides_detection (E : Env) (repo_path : string)
    (flags : list string) (w : World) :
  let r2 := V2.get_repo E repo_path flags w in
  let r1 := V1.get_repo E repo_path flags w in
  (retrieved "install.sh" (events r2) ->
     (forall e, e ∈ events r2 -> no_detect_no_build e = true) /\
     (list_in "--no-unzip" flags = true -> forall e, e ∈ events r2 -> is_exec e = false) /\
     (list_in "--no-unzip" flags = false -> outcome r2 = Normal tt ->
        exists rc, EvExec ["./install.sh"] (Some rc) ∈ events r2)) /\
  (retrieved "install.sh" (events r1) -> list_in "--ignore-default" flags = true ->
     (forall e, e ∈ events r1 -> no_detect_no_build e = true) /\
     (outcome r1 = Normal tt ->
        exists rc, EvExec [os_path_join TMP_DIR "install.sh"] (Some rc) ∈ events r1)) /\
  (list_in "--ignore-default" flags = false ->
     (forall e, e ∈ events r1 -> is_exec e = false) /\
     (outcome r1 = Normal tt -> exists b, EvProbe "main.py" b ∈ events r1)).
Proof.
  cbv zeta. split_and!.
  - intros Hr. split_and!.
    + revert Hr. rewrite v2_get_repo_stages. intros Hr.
      destruct (retrieved_downloaded E repo_path _ w _
                  (emits_v2_after_fetch E repo_path flags) Hr)
        as (d & w1 & evs & Hf & Hd & ->).
      intros e. rewrite events_prepend, elem_of_app. intros [He|He].
      * eapply fetch_prefix_quiet; [|done..]. by intros [].
      * apply list_in_true in Hd.
        by apply (emits_elem _ _ _ _ (emits_v2_after_fetch_script E repo_path flags d Hd) He).
    + intros Hnu e He.
      apply (emits_elem _ _ _ _ (emits_v2_get_repo_no_unzip E repo_path flags Hnu)) in He.
      by destruct e.
    + intros Hnu Ho. by apply v2_script_reached.
  - intros Hr Hid. split.
    + revert Hr. rewrite v1_get_repo_stages. intros Hr.
      destruct (retrieved_downloaded E repo_path _ w _
                  (emits_v1_after_fetch E repo_path flags) Hr)
        as (d & w1 & evs & Hf & Hd & ->).
      intros e. rewrite events_prepend, elem_of_app. intros [He|He].
      * eapply fetch_prefix_quiet; [|done..]. by intros [].
      * apply list_in_true in Hd.
        by apply (emits_elem _ _ _ _
                    (emits_v1_after_fetch_script E repo_path flags d Hid Hd) He).
    + intros Ho. by apply v1_script_reached.
  - intros Hid. split.
    + intros e He. apply negb_true_iff. revert e He. apply forallb_elem.
      revert w.
      change (emits (fun e => negb (is_exec e)) (V1.get_repo E repo_path flags)).
      rewrite v1_get_repo_stages. apply emits_fetch_stage; [by intros []|intros d].
      by apply emits_v1_after_fetch_default.
    + by apply v1_default_detects.
Qed.

Lemma script_overrides_detection_witness :
  let r := V2.get_repo (RefEnv.env 0 server_root_script) "alice/tool" []
             RefEnv.empty_world in
  let r1 := V1.get_repo (RefEnv.env 0 server_root_script) "alice/tool" []
              RefEnv.empty_world in
  retrieved "install.sh" (events r) /\
  (forall e, e ∈ events r -> no_detect_no_build e = true) /\
  (exists rc, EvExec ["./install.sh"] (Some rc) ∈ events r) /\
  (forall e, e ∈ events r1 -> is_exec e = false) /\
  (exists b, EvProbe "main.py" b ∈ events r1).
Proof.
  cbv zeta.
  assert (retrieved "install.sh"
            (events (V2.get_repo (RefEnv.env 0 server_root_script) "alice/tool" []
                       RefEnv.empty_world))) as Hr by in_events.
  assert (list_in "--ignore-default" [] = false) as Hid by (by vm_compute).
  assert (list_in "--no-unzip" [] = false) as Hnu by (by vm_compute).
  assert (outcome (V2.get_repo (RefEnv.env 0 server_root_script) "alice/tool" []
                     RefEnv.empty_world) = Normal tt) as Ho2 by (by vm_compute).
  assert (outcome (V1.get_repo (RefEnv.env 0 server_root_script) "alice/tool" []
                     RefEnv.empty_world) = Normal tt) as Ho1 by (by vm_compute).
  destruct (script_overrides_detection (RefEnv.env 0 server_root_script)
              "alice/tool" [] RefEnv.empty_world) as (H2 & _ & H1').
  destruct (H2 Hr) as (H1 & _ & H3). destruct (H1' Hid) as (H4 & H5).
  split; [exact Hr|]. split; [exact H1|]. split; [exact (H3 Hnu Ho2)|].
  split; [exact H4|exact (H5 Ho1)].
Defined.

(** C1, as stated, fails in two ways. In [src/fileshare.py] with
    --no-unzip, install.sh is retrieved and no program is executed. In
    [src/FileShare/fileshare.py] without --ignore-default, install.sh is
    retrieved, yet the markers are probed, the Go toolchain runs on the
    main.go unpacked from root.zip, and the script is never executed. *)
Lemma script_overrides_detection_counterexample :
  let r2 := V2.get_repo (RefEnv.env 0 server_root_script) "alice/tool"
              ["--no-unzip"] RefEnv.empty_world in
  let r1 := V1.get_repo (RefEnv.env 0 server_root_script) "alice/tool" []
              RefEnv.empty_world in
  (retrieved "install.sh" (events r2) /\
   forallb (fun e => negb (is_exec e)) (events r2) = true) /\
  (retrieved "install.sh" (events r1) /\
   EvProbe "main.go" true ∈ events r1 /\
   EvShell "go build -o app_bin main.go" 0 ∈ events r1 /\
   forallb (fun e => negb (is_exec e)) (events r1) = true).
Proof. cbv zeta. split_and!; try (by vm_compute); in_events. Qed.

(* ===================================================================== *)
(** ** A repository with root.zip and install.sh only *)
(* ===================================================================== *)

Lemma extract_loop_skip E f rest w :
  in_workspace w f = false ->
  extract_loop E (f :: rest) w =
    prepend [EvProbe (os_path_join TMP_DIR f) false] (extract_loop E rest w).
Proof.
  intros H. cbn [extract_loop]. cbv zeta. py_next (probe_ws f w). rewrite H.
  by rewrite bind_ret_l.
Qed.

Lemma extract_loop_last E f w :
  (exists c, fs w !! os_path_join TMP_DIR f = Some (File c)) ->
  (outcome (extract_loop E [f] w) = Normal tt /\
   unpacked f (events (extract_loop E [f] w))) \/
  (exists e, outcome (extract_loop E [f] w) = Raised e /\
     exn_class e <> BadZipFile /\
     events (extract_loop E [f] w) =
       [EvProbe (os_path_join TMP_DIR f) true;
        EvExtractAborted (os_path_join TMP_DIR f)]).
Proof.
  intros Hf. cbn [extract_loop]. cbv zeta. py_next (probe_ws f w).
  assert (in_workspace w f = true) as ->.
  { unfold in_workspace. apply fs_has_Some. destruct Hf as [c ->]. eauto. }
  assert (is_Some (fs w !! os_path_join TMP_DIR f)) as Hs
    by (destruct Hf as [c ->]; eauto).
  destruct (extract_zip_spec E f w Hs) as [_ Hz].
  destruct (Hz Hf) as [[Ho Hu]|(e & Ho & Hc & Hev)].
  - left. rewrite (bind_normal _ _ _ _ Ho). cbv beta. unfold ret at 1.
    rewrite !prepend_run. cbn [outcome events]. split; [done|].
    unfold unpacked in *.
    destruct Hu as [Hu|Hu]; [left|right]; ev_in.
  - right. exists e. rewrite (bind_raised _ _ _ _ Ho), prepend_run.
    cbn [outcome events]. by rewrite Hev.
Qed.

Lemma extract_fresh E w :
  in_workspace w "main.zip" = false -> in_workspace w "app.zip" = false ->
  (exists c, fs w !! os_path_join TMP_DIR "root.zip" = Some (File c)) ->
  (outcome (extract_loop E zips w) = Normal tt /\
   unpacked "root.zip" (events (extract_loop E zips w))) \/
  (exists e, outcome (extract_loop E zips w) = Raised e /\
     exn_class e <> BadZipFile /\
     EvExtractAborted (os_path_join TMP_DIR "root.zip")
       ∈ events (extract_loop E zips w)).
Proof.
  intros H1 H2 H3. unfold zips.
  rewrite (extract_loop_skip E _ _ w H1), (extract_loop_skip E _ _ w H2).
  rewrite !outcome_prepend, !events_prepend.
  destruct (extract_loop_last E "root.zip" w H3) as [[Ho Hu]|(e & Ho & Hc & Hev)].
  - left. split; [done|].
    unfold unpacked in *. destruct Hu as [Hu|Hu]; [left|right]; ev_in.
  - right. exists e. split; [done|]. split; [done|]. rewrite Hev. ev_in.
Qed.

Lemma unpacked_app f l1 l2 l3 : unpacked f l2 -> unpacked f (l1 ++ l2 ++ l3).
Proof. unfold unpacked. intros [H|H]; [left|right]; ev_in. Qed.

Lemma retrieved_app f l1 l2 l3 : retrieved f l2 -> retrieved f (l1 ++ l2 ++ l3).
Proof. unfold retrieved. intros H. ev_in. Qed.

(** C2. For a repository with exactly one separator whose server holds
    only root.zip and install.sh, fetched without --no-unzip into a fresh
    Workspace, [get_repo] of [src/fileshare.py] writes both candidates to
    the Workspace and then hands root.zip to the extraction. Either
    root.zip is unpacked (or reported as a bad archive) and only after
    that the script is executed; or the extraction of root.zip breaks off
    with an error other than a bad ZIP file, the run ends with that error
    and no program is executed. In both cases no build marker is probed
    and no shell command is run. *)
Theorem root_zip_and_script (E : Env) (repo_path : string) (flags : list string)
    (w : World) :
  count_char "/" repo_path = 1%nat ->
  list_in "--no-unzip" flags = false ->
  root_and_script_only E repo_path ->
  fresh_workspace w ->
  let r := V2.get_repo E repo_path flags w in
  retrieved "root.zip" (events r) /\ retrieved "install.sh" (events r) /\
  ((exists before rc after,
      events r = before ++ EvExec ["./install.sh"] rc :: after /\
      retrieved "root.zip" before /\ retrieved "install.sh" before /\
      unpacked "root.zip" before) \/
   (exists e,
      outcome r = Raised e /\ exn_class e <> BadZipFile /\
      EvExtractAborted (os_path_join TMP_DIR "root.zip") ∈ events r /\
      forall e', e' ∈ events r -> is_exec e' = false)) /\
  (forall e, e ∈ events r -> no_detect_no_build e = true).
Proof.
  intros Hc Hnu (Hmain & Happ & Hroot & Hinst) [Hnf Hfresh]. cbv zeta.
  rewrite v2_get_repo_stages.
  destruct (fetch_stage_cases E repo_path (v2_after_fetch E repo_path flags) w)
    as [(c & Hfile & _)|(d & w1 & evs & Hf & ->)]; [by destruct (Hnf c)|].
  pose proof Hf as (_ & Hcw & Hws & Hev & _ & Hmem & Hw & Hfr & Hs).
  assert (forall f, f ∈ files_to_try ->
            fs w !! os_path_join TMP_DIR f <> Some Dir) as Hnd.
  { intros f Hin. by rewrite (Hfresh f Hin). }
  assert ("main.zip" ∈ files_to_try) as Hi1 by (by apply list_in_true).
  assert ("app.zip" ∈ files_to_try) as Hi2 by (by apply list_in_true).
  assert ("root.zip" ∈ files_to_try) as Hi3 by (by apply list_in_true).
  assert ("install.sh" ∈ files_to_try) as Hi4 by (by apply list_in_true).
  assert (retrieved "root.zip" evs) as Hr3 by (apply Hs; auto).
  assert (retrieved "install.sh" evs) as Hr4 by (apply Hs; auto).
  assert (~ retrieved "main.zip" evs) as Hr1 by (rewrite Hs by done; tauto).
  assert (~ retrieved "app.zip" evs) as Hr2 by (rewrite Hs by done; tauto).
  assert (list_in "install.sh" d = true) as Hd by (apply list_in_true, Hmem; auto).
  rewrite events_prepend.
  split; [unfold retrieved in *; ev_in|]. split; [unfold retrieved in *; ev_in|].
  split.
  2:{ intros e. rewrite elem_of_app. intros [He|He].
      - eapply (fetch_prefix_quiet E); [|done..]. by intros [].
      - by apply (emits_elem _ _ _ _
                    (emits_v2_after_fetch_script E repo_path flags d Hd) He). }
  rewrite outcome_prepend.
  unfold v2_after_fetch. rewrite Hnu.
  destruct d as [|f0 d0]; [done|].
  assert (in_workspace w1 "main.zip" = false) as Hz1.
  { unfold in_workspace. apply fs_has_None.
    rewrite Hfr; [by apply Hfresh|done|apply os_path_join_ne]. }
  assert (in_workspace w1 "app.zip" = false) as Hz2.
  { unfold in_workspace. apply fs_has_None.
    rewrite Hfr; [by apply Hfresh|done|apply os_path_join_ne]. }
  destruct (Hw _ Hr3) as [_ Hz3]. destruct (Hw _ Hr4) as [_ [c4 Hz4]].
  destruct (v2_install_phase_cases E repo_path (f0 :: d0) w1 Hws) as [Hg Hcases].
  cbv zeta in Hcases.
  destruct (extract_fresh E w1 Hz1 Hz2 Hz3) as [[Ho Hu]|(e & Ho & Hce & Hab)].
  2:{ right. exists e.
      destruct Hcases as [(e' & Ho' & _ & ->)|[(Ho' & _)|(Ho' & _)]];
        [|congruence..].
      cbn [outcome events]. split; [congruence|]. split; [done|].
      split; [ev_in|].
      intros e0. rewrite elem_of_app. intros [He|He].
      - apply negb_true_iff.
        exact (fetch_prefix_quiet E (fun e => negb (is_exec e)) repo_path w
                 (f0 :: d0) w1 evs e0 ltac:(by intros []) Hf He).
      - apply negb_true_iff.
        apply (emits_elem (fun e => negb (is_exec e)) (extract_loop E zips) w1 e0);
          [|done].
        eapply emits_weaken; [|apply emits_unpack]. by intros []. }
  left.
  destruct Hcases as [(e & Ho' & _)|[(_ & Hc' & _)|(_ & _ & o & n & _ & ->)]];
    [congruence|done|].
  rewrite Hd.
  set (w3 := mkWorld (fs (world (extract_loop E zips w1))) TMP_DIR).
  assert (fs w3 !! os_path_join TMP_DIR "install.sh" <> None) as Hex.
  { destruct Hg as (_ & _ & Hkeep). apply not_eq_None_Some, Hkeep.
    rewrite Hz4. eauto. }
  destruct (v2_script_cases E w3 eq_refl) as [[Hno _]|(m' & [[rc ->]| ->])];
    [done| |].
  - exists ((EvPrint ("Fetching repo: " +:+ repo_path) :: EvMakedirs TMP_DIR :: evs) ++
            (events (extract_loop E zips w1) ++ [EvChdir TMP_DIR]) ++
            [EvPrint "install.sh found. Running and skipping default installer protocol...";
             EvChmod "install.sh"]),
      (Some rc), (if rc =? 0 then [] else [EvPrint "install.sh failed. Aborting."]).
    unfold prepend, retrieved, unpacked in *. cbn [events].
    split; [by rewrite <- !app_assoc|].
    split_and!; [ev_in..|destruct Hu; [left|right]; ev_in].
  - exists ((EvPrint ("Fetching repo: " +:+ repo_path) :: EvMakedirs TMP_DIR :: evs) ++
            (events (extract_loop E zips w1) ++ [EvChdir TMP_DIR]) ++
            [EvPrint "install.sh found. Running and skipping default installer protocol...";
             EvChmod "install.sh"]),
      None, [].
    unfold prepend, retrieved, unpacked in *. cbn [events].
    split; [by rewrite <- !app_assoc|].
    split_and!; [ev_in..|destruct Hu; [left|right]; ev_in].
Qed.

Lemma ref_root_and_script_only :
  root_and_script_only (RefEnv.env 0 server_root_script) "alice/tool".
Proof.
  unfold root_and_script_only, served. cbv zeta. split_and!.
  - intros [b H]. vm_compute in H. discriminate.
  - intros [b H]. vm_compute in H. discriminate.
  - by exists "zip:main.go".
  - by exists (RefEnv.script "exit 0").
Qed.

Lemma ref_fresh_workspace : fresh_workspace RefEnv.empty_world.
Proof. split; intros; cbn; by rewrite lookup_empty. Qed.

Lemma root_zip_and_script_witness :
  let r := V2.get_repo (RefEnv.env 0 server_root_script) "alice/tool" []
             RefEnv.empty_world in
  retrieved "root.zip" (events r) /\ retrieved "install.sh" (events r) /\
  ((exists before rc after,
      events r = before ++ EvExec ["./install.sh"] rc :: after /\
      retrieved "root.zip" before /\ retrieved "install.sh" before /\
      unpacked "root.zip" before) \/
   (exists e,
      outcome r = Raised e /\ exn_class e <> BadZipFile /\
      EvExtractAborted (os_path_join TMP_DIR "root.zip") ∈ events r /\
      forall e', e' ∈ events r -> is_exec e' = false)) /\
  (forall e, e ∈ events r -> no_detect_no_build e = true).
Proof.
  apply (root_zip_and_script (RefEnv.env 0 server_root_script) "alice/tool" []
           RefEnv.empty_world).
  - reflexivity.
  - by vm_compute.
  - exact ref_root_and_script_only.
  - exact ref_fresh_workspace.
Defined.

(** C2, as stated, fails: in the very scenario of the claim root.zip is
    unpacked into the Workspace (its main.go is there afterwards) before
    the install script is executed. *)
Lemma root_zip_counterexample :
  let r := V2.get_repo (RefEnv.env 0 server_root_script) "alice/tool" []
             RefEnv.empty_world in
  root_and_script_only (RefEnv.env 0 server_root_script) "alice/tool" /\
  EvExtract "/tmp/fsdl/root.zip" ∈ events r /\
  fs (world r) !! "/tmp/fsdl/main.go" = Some (File "src") /\
  EvExec ["./install.sh"] (Some 0) ∈ events r.
Proof.
  cbv zeta. split; [exact ref_root_and_script_only|].
  split_and!; try (by vm_compute); in_events.
Qed.

(** The other way the scenario can go: root.zip is encrypted, its
    extraction breaks off with [RuntimeError], and the run ends there,
    before the install script. *)
Example root_zip_encrypted :
  let r := V2.get_repo (RefEnv.env 0 server_encrypted_root) "alice/tool" []
             RefEnv.empty_world in
  root_and_script_only (RefEnv.env 0 server_encrypted_root) "alice/tool" /\
  outcome r =
    Raised (Exn RuntimeError
              "File 'main.go' is encrypted, password required for extraction") /\
  EvExtractAborted "/tmp/fsdl/root.zip" ∈ events r /\
  forallb (fun e => negb (is_exec e)) (events r) = true.
Proof.
  cbv zeta. split_and!; try (by vm_compute).
  - unfold root_and_script_only, served. cbv zeta. split_and!.
    + intros [b H]. vm_compute in H. discriminate.
    + intros [b H]. vm_compute in H. discriminate.
    + by exists "enc:main.go".
    + by exists (RefEnv.script "exit 0").
  - in_events.
Qed.

(* ===================================================================== *)
(** ** Malformed repository identifiers *)
(* ===================================================================== *)

Lemma unpack2_malformed s w :
  count_char "/" s <> 1%nat ->
  exists msg, unpack2 (py_split "/" s) w = mkRun (Raised (Exn ValueError msg)) w [].
Proof.
  intros Hc. destruct (count_char "/" s) as [|[|k]] eqn:Hk; [|done|].
  - eexists. by apply unpack2_too_few.
  - eexists. apply unpack2_too_many. lia.
Qed.

Lemma emits_bind_raised {A B} P (m : Py A) (k : A -> Py B) :
  (forall w, exists e, m w = mkRun (Raised e) w []) -> emits P (bind m k).
Proof.
  intros H w. destruct (H w) as [e He]. by rewrite (bind_run_raised _ _ _ _ _ _ He).
Qed.

Lemma nothing_run_ws_probe f b :
  nothing_run (EvProbe (os_path_join TMP_DIR f) b) = true.
Proof. unfold nothing_run. cbn. by rewrite marker_not_abs. Qed.

Lemma emits_extract_nothing_run E fnames : emits nothing_run (extract_loop E fnames).
Proof. apply emits_extract_loop; first [done|apply nothing_run_ws_probe]. Qed.

Lemma emits_v2_after_fetch_malformed E repo_path flags d :
  count_char "/" repo_path <> 1%nat ->
  emits nothing_run (v2_after_fetch E repo_path flags d).
Proof.
  intros Hc. unfold v2_after_fetch, v2_install_phase.
  destruct d; [emits_prog|]. destruct (list_in "--no-unzip" flags); [emits_prog|].
  apply emits_bind; [apply emits_extract_nothing_run|intros _].
  apply emits_bind; [by apply emits_os_chdir|intros _].
  apply emits_bind_raised. intros w.
  destruct (unpack2_malformed repo_path w Hc) as [msg ->]. eauto.
Qed.

Lemma emits_v1_after_fetch_malformed E repo_path flags d :
  count_char "/" repo_path <> 1%nat ->
  emits nothing_run (v1_after_fetch E repo_path flags d).
Proof.
  intros Hc. unfold v1_after_fetch, v1_install_phase.
  destruct d; [emits_prog|].
  apply emits_bind; [|intros _].
  { destruct (negb _); [apply emits_extract_nothing_run|apply emits_ret]. }
  apply emits_bind_raised. intros w.
  destruct (unpack2_malformed repo_path w Hc) as [msg ->]. eauto.
Qed.

Lemma http_urls_app l1 l2 : http_urls (l1 ++ l2) = http_urls l1 ++ http_urls l2.
Proof.
  induction l1 as [|e l1 IH]; [done|]. destruct e; cbn; by rewrite ?IH.
Qed.

Lemma http_urls_quiet l :
  forallb (fun e => negb (is_http e)) l = true -> http_urls l = [].
Proof.
  induction l as [|e l IH]; [done|]. cbn. intros [He Hl]%andb_true_iff.
  destruct e; try done; by apply IH.
Qed.

Lemma fetch_stage_urls {A} E repo_path (k : list string -> Py A) w :
  (forall d, emits install_event (k d)) ->
  (forall c, fs w !! TMP_DIR <> Some (File c)) ->
  http_urls (events (fetch_stage E repo_path k w)) =
    List.map (fun f => (BASE_URL +:+ "/" +:+ repo_path) +:+ "/" +:+ f) files_to_try.
Proof.
  intros Hk Hnf.
  destruct (fetch_stage_cases E repo_path k w)
    as [(c & Hfile & _)|(d & w1 & evs & Hf & ->)]; [by destruct (Hnf c)|].
  rewrite events_prepend.
  change (?a :: ?b :: evs) with ([a; b] ++ evs).
  rewrite !http_urls_app. destruct Hf as (_ & _ & _ & _ & -> & _).
  rewrite (http_urls_quiet (events (k d w1))); [by rewrite app_nil_r|].
  eapply (emits_weaken install_event); [|apply Hk]. by intros [].
Qed.

Lemma fetch_stage_nothing_run {A} E repo_path (k : list string -> Py A) w e :
  (forall d, emits nothing_run (k d)) ->
  e ∈ events (fetch_stage E repo_path k w) -> nothing_run e = true.
Proof.
  intros Hk. revert e. apply forallb_elem. revert w.
  apply emits_fetch_stage; [by intros []|done].
Qed.

Lemma nothing_run_spec e :
  nothing_run e = true ->
  is_shell e = false /\ is_exec e = false /\ is_marker_probe e = false.
Proof.
  unfold nothing_run. rewrite !andb_true_iff, !negb_true_iff. tauto.
Qed.

Lemma extraction_error_app e l1 l2 :
  extraction_error e l2 -> extraction_error e (l1 ++ l2).
Proof.
  intros [Hc Hx]. split; [done|].
  destruct Hx as [Hx|[p Hp]]; [by left|right]. exists p. ev_in.
Qed.

Lemma v2_parse_failure E repo_path flags w :
  count_char "/" repo_path <> 1%nat ->
  list_in "--no-unzip" flags = false ->
  (exists f, retrieved f (events (V2.get_repo E repo_path flags w))) ->
  parse_failure (V2.get_repo E repo_path flags w).
Proof.
  intros Hc Hnu [f Hr]. revert Hr. rewrite v2_get_repo_stages. intros Hr.
  destruct (retrieved_downloaded E repo_path _ w _
              (emits_v2_after_fetch E repo_path flags) Hr)
    as (d & w1 & evs & Hf & Hd & ->).
  unfold parse_failure. rewrite outcome_prepend, events_prepend.
  unfold v2_after_fetch. rewrite Hnu.
  destruct d as [|f0 d0]; [by apply elem_of_nil in Hd|].
  destruct Hf as (_ & _ & Hws & _).
  destruct (v2_install_phase_cases E repo_path (f0 :: d0) w1 Hws) as [_ Hcases].
  cbv zeta in Hcases.
  destruct Hcases as [(e & _ & Hx & ->)|[(_ & _ & msg & ->)|(_ & Hc' & _)]]; [..|done].
  - exists e. split; [done|]. right. by apply extraction_error_app.
  - eexists. split; [done|]. by left.
Qed.

Lemma v1_parse_failure E repo_path flags w :
  count_char "/" repo_path <> 1%nat ->
  (exists f, retrieved f (events (V1.get_repo E repo_path flags w))) ->
  parse_failure (V1.get_repo E repo_path flags w).
Proof.
  intros Hc [f Hr]. revert Hr. rewrite v1_get_repo_stages. intros Hr.
  destruct (retrieved_downloaded E repo_path _ w _
              (emits_v1_after_fetch E repo_path flags) Hr)
    as (d & w1 & evs & Hf & Hd & ->).
  unfold parse_failure. rewrite outcome_prepend, events_prepend.
  unfold v1_after_fetch, v1_install_phase.
  destruct d as [|f0 d0]; [by apply elem_of_nil in Hd|].
  assert (forall w2, exists msg,
            (p <- unpack2 (py_split "/" repo_path) ;;
             (if list_in "--ignore-default" flags
                 && list_in "install.sh" (f0 :: d0)
              then v1_script E else v1_auto E (snd p)) ;;
             print "Done.")%py w2 = mkRun (Raised (Exn ValueError msg)) w2 [])
    as Hparse.
  { intros w2. destruct (unpack2_malformed repo_path w2 Hc) as [msg Hu].
    exists msg. by rewrite (bind_run_raised _ _ _ _ _ _ Hu). }
  destruct (negb (list_in "--no-unzip" flags)).
  - destruct (extract_loop_spec E zips w1) as [_ [Ho|(e & Ho & Hx)]]; fold zips.
    + rewrite (bind_normal _ _ _ _ Ho).
      destruct (Hparse (world (extract_loop E zips w1))) as [msg ->].
      rewrite outcome_prepend. eexists. split; [done|]. by left.
    + rewrite (bind_raised _ _ _ _ Ho). cbn [outcome events].
      exists e. split; [done|]. right. by apply extraction_error_app.
  - rewrite bind_ret_l. destruct (Hparse w1) as [msg ->].
    eexists. split; [done|]. by left.
Qed.

Lemma fetched_nothing E repo_path w d w1 evs :
  fetched E repo_path w d w1 evs ->
  (forall f, ~ retrieved f evs) -> d = [].
Proof.
  intros (_ & _ & _ & _ & _ & Hmem & _) Hnr.
  destruct d as [|f0 d0]; [done|]. exfalso.
  assert (f0 ∈ f0 :: d0) as Hin by by left.
  apply Hmem in Hin as [_ Hr]. by apply (Hnr f0).
Qed.

Lemma fetch_stage_nothing_retrieved {A} E repo_path (k : list string -> Py A) w :
  (forall c, fs w !! TMP_DIR <> Some (File c)) ->
  (forall w1, exists evs1, k [] w1 = mkRun (SysExit 1) w1 evs1) ->
  (forall f, ~ retrieved f (events (fetch_stage E repo_path k w))) ->
  outcome (fetch_stage E repo_path k w) = SysExit 1.
Proof.
  intros Hnf Hk.
  destruct (fetch_stage_cases E repo_path k w)
    as [(c & Hfile & _)|(d & w1 & evs & Hf & ->)]; [by destruct (Hnf c)|].
  intros Hnr.
  assert (d = []) as ->.
  { apply (fetched_nothing E repo_path w d w1 evs Hf).
    intros f Hr. apply (Hnr f). rewrite events_prepend. unfold retrieved in *. ev_in. }
  rewrite outcome_prepend. by destruct (Hk w1) as [evs1 ->].
Qed.

Lemma v2_no_unzip_returns E repo_path flags w :
  list_in "--no-unzip" flags = true ->
  (exists f, retrieved f (events (V2.get_repo E repo_path flags w))) ->
  outcome (V2.get_repo E repo_path flags w) = Normal tt.
Proof.
  intros Hnu [f Hr]. revert Hr. rewrite v2_get_repo_stages. intros Hr.
  destruct (retrieved_downloaded E repo_path _ w _
              (emits_v2_after_fetch E repo_path flags) Hr)
    as (d & w1 & evs & Hf & Hd & ->).
  rewrite outcome_prepend. unfold v2_after_fetch. rewrite Hnu.
  destruct d as [|f0 d0]; [by apply elem_of_nil in Hd|done].
Qed.

(** C4. [get_repo] does not validate the identifier up front. Whatever the
    identifier, provided the Workspace path is not a regular file, both
    variants first request the four candidates, and a fetch that retrieves
    none of them exits with status 1. With an identifier that does not
    have exactly one separator nothing is executed or detected, and once
    something was retrieved the fetch ends with an uncaught exception
    before any install: the unpacking of the identifier raises
    [ValueError], unless the extraction just before it already raised (on
    an archive path that is a directory, or on an archive whose extraction
    broke off); in [src/fileshare.py] this needs --no-unzip to be absent,
    and with --no-unzip a fetch that retrieved something returns normally
    whatever the identifier. An identifier with exactly one separator
    unpacks into its two segments, empty ones included. *)
Theorem malformed_repo_ref (E : Env) (repo_path : string) (flags : list string)
    (w : World) :
  let r2 := V2.get_repo E repo_path flags w in
  let r1 := V1.get_repo E repo_path flags w in
  let urls := List.map (fun f => (BASE_URL +:+ "/" +:+ repo_path) +:+ "/" +:+ f)
                files_to_try in
  ((forall c, fs w !! TMP_DIR <> Some (File c)) ->
     http_urls (events r2) = urls /\ http_urls (events r1) = urls /\
     ((forall f, ~ retrieved f (events r2)) -> outcome r2 = SysExit 1) /\
     ((forall f, ~ retrieved f (events r1)) -> outcome r1 = SysExit 1)) /\
  (count_char "/" repo_path <> 1%nat ->
     (forall e, e ∈ events r2 ->
        is_shell e = false /\ is_exec e = false /\ is_marker_probe e = false) /\
     (forall e, e ∈ events r1 ->
        is_shell e = false /\ is_exec e = false /\ is_marker_probe e = false) /\
     (list_in "--no-unzip" flags = false -> (exists f, retrieved f (events r2)) ->
        parse_failure r2) /\
     ((exists f, retrieved f (events r1)) -> parse_failure r1)) /\
  (list_in "--no-unzip" flags = true -> (exists f, retrieved f (events r2)) ->
     outcome r2 = Normal tt) /\
  (count_char "/" repo_path = 1%nat ->
     exists owner name,
       repo_path = owner +:+ "/" +:+ name /\
       unpack2 (py_split "/" repo_path) w = mkRun (Normal (owner, name)) w []).
Proof.
  cbv zeta. split_and!.
  - intros Hnf. split_and!.
    + rewrite v2_get_repo_stages.
      apply fetch_stage_urls; [apply emits_v2_after_fetch|done].
    + rewrite v1_get_repo_stages.
      apply fetch_stage_urls; [apply emits_v1_after_fetch|done].
    + rewrite v2_get_repo_stages.
      apply fetch_stage_nothing_retrieved; [done|]. intros w1. by eexists.
    + rewrite v1_get_repo_stages.
      apply fetch_stage_nothing_retrieved; [done|]. intros w1. by eexists.
  - intros Hc. split_and!.
    + intros e He. apply nothing_run_spec. revert He. rewrite v2_get_repo_stages.
      apply fetch_stage_nothing_run. intros d.
      by apply emits_v2_after_fetch_malformed.
    + intros e He. apply nothing_run_spec. revert He. rewrite v1_get_repo_stages.
      apply fetch_stage_nothing_run. intros d.
      by apply emits_v1_after_fetch_malformed.
    + by apply v2_parse_failure.
    + by apply v1_parse_failure.
  - by apply v2_no_unzip_returns.
  - intros Hc. destruct (py_split_one_sep repo_path Hc) as (o & n & Hs & Hx & _).
    exists o, n. split; [done|]. by rewrite Hs.
Qed.

Lemma malformed_repo_ref_witness :
  let E := RefEnv.env 0 server_bare in
  let r2 := V2.get_repo E "tool" [] RefEnv.empty_world in
  http_urls (events r2) =
    List.map (fun f => (BASE_URL +:+ "/" +:+ "tool") +:+ "/" +:+ f) files_to_try /\
  parse_failure r2 /\
  outcome (V2.get_repo E "tool" ["--no-unzip"] RefEnv.empty_world) = Normal tt /\
  exists owner name,
    "alice/" = owner +:+ "/" +:+ name /\
    unpack2 (py_split "/" "alice/") RefEnv.empty_world =
      mkRun (Normal (owner, name)) RefEnv.empty_world [].
Proof.
  cbv zeta.
  assert (forall c, fs RefEnv.empty_world !! TMP_DIR <> Some (File c)) as Hnf
    by (intros c; cbn; by rewrite lookup_empty).
  assert (count_char "/" "tool" <> 1%nat) as Hc by (by vm_compute).
  assert (list_in "--no-unzip" [] = false) as Hnu by (by vm_compute).
  assert (list_in "--no-unzip" ["--no-unzip"] = true) as Hnu' by (by vm_compute).
  assert (exists f, retrieved f
            (events (V2.get_repo (RefEnv.env 0 server_bare) "tool" []
                       RefEnv.empty_world))) as Hr
    by (exists "main.zip"; in_events).
  assert (exists f, retrieved f
            (events (V2.get_repo (RefEnv.env 0 server_bare) "tool" ["--no-unzip"]
                       RefEnv.empty_world))) as Hr'
    by (clear; exists "main.zip"; in_events).
  destruct (malformed_repo_ref (RefEnv.env 0 server_bare) "tool" []
              RefEnv.empty_world) as (H1 & H2 & _ & _).
  destruct (malformed_repo_ref (RefEnv.env 0 server_bare) "tool" ["--no-unzip"]
              RefEnv.empty_world) as (_ & _ & H4 & _).
  destruct (malformed_repo_ref (RefEnv.env 0 server_bare) "alice/" []
              RefEnv.empty_world) as (_ & _ & _ & H3).
  destruct (H1 Hnf) as [Hu _]. destruct (H2 Hc) as (_ & _ & Hp & _).
  split; [exact Hu|]. split; [exact (Hp Hnu Hr)|].
  split; [exact (H4 Hnu' Hr')|]. exact (H3 eq_refl).
Defined.

(** C4, as stated, fails: for the identifier tool, which has no separator,
    the four requests are issued; when the server has nothing the fetch
    ends with exit status 1 for lack of candidates, not in parsing; and
    with --no-unzip the fetch of a retrieved candidate even succeeds. *)
Lemma malformed_repo_ref_counterexample :
  let r := V2.get_repo (RefEnv.env 0 []) "tool" [] RefEnv.empty_world in
  let r' := V2.get_repo (RefEnv.env 0 server_bare) "tool" ["--no-unzip"]
              RefEnv.empty_world in
  count_char "/" "tool" = 0%nat /\
  http_urls (events r) =
    ["https://quanthai.net/repos/tool/main.zip";
     "https://quanthai.net/repos/tool/app.zip";
     "https://quanthai.net/repos/tool/root.zip";
     "https://quanthai.net/repos/tool/install.sh"] /\
  outcome r = SysExit 1 /\
  EvHttpGet "https://quanthai.net/repos/tool/main.zip" ∈ events r' /\
  outcome r' = Normal tt.
Proof. cbv zeta. split_and!; try (by vm_compute). in_events. Qed.

(* ===================================================================== *)
(** ** Exit status of the process *)
(* ===================================================================== *)

(** The four ways [main] of [src/fileshare.py] goes on after its checks. *)
Lemma v2_main_cases E argv w :
  (exists c msgs, V2.main E argv w = mkRun (SysExit c) w (List.map EvPrint msgs)) \/
  V2.main E argv w = clean_tempfolder E w \/
  V2.main E argv w =
    V2.get_repo E (py_strip "/" (List.nth 2 argv "")) (List.skipn 3 argv) w \/
  V2.main E argv w = remove_repo E (py_strip "/" (List.nth 2 argv "")) w \/
  V2.main E argv w = mkRun (Normal tt) w [].
Proof.
  unfold V2.main.
  destruct (negb (geteuid E =? 0)) eqn:H1.
  { left. by exists 1, ["Please run with sudo."]. }
  rewrite bind_ret_l.
  destruct ((length argv <? 2)%nat || list_in "--help" argv) eqn:H2.
  { left. by exists 0, [V2.help_text]. }
  rewrite bind_ret_l. cbv zeta.
  destruct (negb (list_in (List.nth 1 argv "") ["get"; "remove"; "clean"])) eqn:H3.
  { left. by exists 1, ["Unknown command: " +:+ List.nth 1 argv ""; V2.help_text]. }
  rewrite bind_ret_l.
  destruct (String.eqb (List.nth 1 argv "") "clean"); [by right; left|].
  destruct (length argv <? 3)%nat eqn:H4.
  { left. by exists 1, ["Error: Missing repo path."; V2.help_text]. }
  rewrite bind_ret_l.
  destruct (String.eqb (List.nth 1 argv "") "get"); [by right; right; left|].
  destruct (String.eqb (List.nth 1 argv "") "remove"); [by right; right; right; left|].
  by right; right; right; right.
Qed.

Lemma v2_main_get E prog raw flags w :
  geteuid E = 0 -> list_in "--help" (prog :: "get" :: raw :: flags) = false ->
  V2.main E (prog :: "get" :: raw :: flags) w =
    V2.get_repo E (py_strip "/" raw) flags w.
Proof.
  intros Hu Hh. unfold V2.main. rewrite Hu, Hh.
  cbn [Z.eqb negb length Nat.ltb Nat.leb orb].
  rewrite bind_ret_l, bind_ret_l. cbv zeta. cbn [List.nth].
  change (list_in "get" ["get"; "remove"; "clean"]) with true.
  cbn [negb]. rewrite bind_ret_l.
  change ("get" =? "clean")%string with false.
  change ("get" =? "get")%string with true. cbv iota.
  rewrite bind_ret_l. reflexivity.
Qed.

Lemma v2_main_missing_arg E prog cmd w :
  geteuid E = 0 -> list_in "--help" [prog; cmd] = false ->
  cmd = "get" \/ cmd = "remove" ->
  V2.main E [prog; cmd] w =
    mkRun (SysExit 1) w [EvPrint "Error: Missing repo path."; EvPrint V2.help_text].
Proof.
  intros Hu Hh Hc. unfold V2.main. rewrite Hu, Hh.
  cbn [Z.eqb negb length Nat.ltb Nat.leb orb]. rewrite !bind_ret_l.
  destruct Hc as [-> | ->]; reflexivity.
Qed.

Lemma strict_fetch_stage {A} E repo_path (k : list string -> Py A) :
  (forall d, strict (k d)) -> strict (fetch_stage E repo_path k).
Proof.
  intros Hk. unfold fetch_stage.
  apply strict_bind; [apply strict_quiet; by apply emits_print|intros _].
  apply strict_bind; [apply strict_quiet; by apply emits_os_makedirs|intros _].
  apply strict_bind; [|done].
  apply strict_quiet. by apply emits_fetch_loop.
Qed.

Lemma strict_v2_detect E reponame : strict (V2.detect_and_build E reponame).
Proof.
  unfold V2.detect_and_build. cbv zeta.
  apply strict_bind; [apply strict_quiet; by apply emits_os_chdir|intros _].
  apply strict_bind; [apply strict_quiet, emits_hidden_imports|intros l].
  strict_tac.
Qed.

Lemma strict_v2_auto E reponame : strict (v2_auto E reponame).
Proof.
  unfold v2_auto.
  apply strict_bind; [apply strict_quiet; by apply emits_print|intros _].
  apply strict_bind; [apply strict_v2_detect|intros bp].
  apply strict_bind; [unfold V2.usable_binary; strict_tac|intros [u|]].
  - apply strict_bind; [unfold V2.install_binary; cbv zeta; strict_tac|].
    intros _. apply strict_quiet. by apply emits_print.
  - strict_tac.
Qed.

Lemma strict_v2_get_repo E repo_path flags : strict (V2.get_repo E repo_path flags).
Proof.
  rewrite v2_get_repo_stages. apply strict_fetch_stage. intros d.
  unfold v2_after_fetch, v2_install_phase.
  destruct d; [strict_tac|]. destruct (list_in "--no-unzip" flags); [strict_tac|].
  apply strict_bind; [|intros _].
  { apply strict_quiet. eapply emits_weaken; [|apply emits_unpack]. by intros []. }
  apply strict_bind; [apply strict_quiet; by apply emits_os_chdir|intros _].
  apply strict_bind; [apply strict_quiet, emits_unpack2|intros p].
  destruct (list_in "install.sh" _); [|apply strict_v2_auto].
  apply strict_quiet. eapply emits_weaken; [|apply emits_v2_script]. by intros [].
Qed.

Lemma strict_remove_repo E x : strict (remove_repo E x).
Proof.
  unfold remove_repo.
  apply strict_bind.
  { destruct (str_in "/" x); [|strict_tac].
    apply strict_bind; [apply strict_quiet, emits_unpack2|intros; strict_tac]. }
  intros reponame. cbv zeta. strict_tac.
Qed.

Lemma strict_clean_tempfolder E : strict (clean_tempfolder E).
Proof. unfold clean_tempfolder. strict_tac. Qed.

Lemma strict_v2_main E argv : strict (V2.main E argv).
Proof.
  intros w. destruct (v2_main_cases E argv w) as [(c & msgs & ->)|[->|[->|[->| ->]]]].
  - intros cmd rc Hin. cbn in Hin. apply list_elem_of_fmap in Hin as (? & ? & ?).
    done.
  - apply strict_clean_tempfolder.
  - apply strict_v2_get_repo.
  - apply strict_remove_repo.
  - by intros cmd rc Hin%elem_of_nil.
Qed.

Lemma no_exec_elem {A} (m : Py A) w a rc :
  emits (fun e => negb (is_exec e)) m -> EvExec a rc ∉ events (m w).
Proof. intros Hm Hin. by apply (emits_elem _ _ _ _ Hm) in Hin. Qed.

Lemma v2_exec_returns E repo_path flags w a rc :
  EvExec a (Some rc) ∈ events (V2.get_repo E repo_path flags w) ->
  outcome (V2.get_repo E repo_path flags w) = Normal tt.
Proof.
  rewrite v2_get_repo_stages.
  destruct (fetch_stage_cases E repo_path (v2_after_fetch E repo_path flags) w)
    as [(c & _ & ->)|(d & w1 & evs & Hf & ->)].
  { cbn. intros H. by repeat (apply elem_of_cons in H as [?|H]; [done|]);
      apply elem_of_nil in H. }
  rewrite events_prepend, outcome_prepend, elem_of_app. intros [Hin|Hin].
  { apply (fetch_prefix_quiet E (fun e => negb (is_exec e)) _ _ _ _ _ _
             ltac:(by intros []) Hf) in Hin. done. }
  revert Hin. unfold v2_after_fetch.
  destruct d as [|f0 d0].
  { intros Hin. exfalso. revert Hin. apply no_exec_elem. emits_prog. }
  destruct (list_in "--no-unzip" flags).
  { intros Hin. exfalso. revert Hin. apply no_exec_elem. emits_prog. }
  destruct Hf as (_ & _ & Hws & _).
  assert (forall a rc, EvExec a rc ∉ events (extract_loop E zips w1)) as Hre.
  { intros a' rc'. apply no_exec_elem.
    eapply emits_weaken; [|apply emits_unpack]. by intros []. }
  destruct (v2_install_phase_cases E repo_path (f0 :: d0) w1 Hws) as [_ Hcases].
  cbv zeta in Hcases.
  destruct Hcases as [(e & _ & _ & ->)|[(_ & _ & msg & ->)|(_ & _ & o & n & _ & ->)]].
  - cbn [events]. intros Hin. by apply Hre in Hin.
  - cbn [events]. rewrite elem_of_app, list_elem_of_singleton.
    intros [Hin|?]; [by apply Hre in Hin|done].
  - rewrite events_prepend, outcome_prepend, !elem_of_app, list_elem_of_singleton.
    intros [[Hin|?]|Hin]; [by apply Hre in Hin|done|].
    destruct (list_in "install.sh" (f0 :: d0)).
    + destruct (v2_script_cases E (mkWorld (fs (world (extract_loop E zips w1))) TMP_DIR)
                  eq_refl) as [[_ He]|(m' & [[rc' He]|He])];
        rewrite He in *; [|done|]; exfalso; cbn [events] in Hin;
        repeat (apply elem_of_cons in Hin as [?|Hin]; [done|]);
        by apply elem_of_nil in Hin.
    + exfalso. revert Hin. apply no_exec_elem.
      eapply emits_weaken; [|apply emits_v2_auto]. by intros [].
Qed.

Lemma emits_remove_repo E x : emits (fun e => negb (is_exec e)) (remove_repo E x).
Proof.
  unfold remove_repo. cbv zeta.
  apply emits_bind; [|intros ?; emits_prog].
  destruct (str_in "/" x); [|apply emits_ret].
  apply emits_bind; [apply emits_unpack2|intros; apply emits_ret].
Qed.

Lemma v2_main_exec_returns E argv w a rc :
  EvExec a (Some rc) ∈ events (V2.main E argv w) ->
  outcome (V2.main E argv w) = Normal tt.
Proof.
  destruct (v2_main_cases E argv w) as [(c & msgs & ->)|[->|[->|[->| ->]]]].
  - cbn. intros Hin. apply list_elem_of_fmap in Hin as (? & ? & ?). done.
  - intros Hin. exfalso. revert Hin. apply no_exec_elem.
    unfold clean_tempfolder. emits_prog.
  - apply v2_exec_returns.
  - intros Hin. exfalso. revert Hin. apply no_exec_elem, emits_remove_repo.
  - by intros Hin%elem_of_nil.
Qed.

Lemma v2_nothing_retrieved E repo_path flags w :
  (forall c, fs w !! TMP_DIR <> Some (File c)) ->
  (forall f, ~ retrieved f (events (V2.get_repo E repo_path flags w))) ->
  outcome (V2.get_repo E repo_path flags w) = SysExit 1 /\
  forall e, e ∈ events (V2.get_repo E repo_path flags w) ->
    is_shell e = false /\ is_exec e = false.
Proof.
  intros Hnf. rewrite v2_get_repo_stages.
  destruct (fetch_stage_cases E repo_path (v2_after_fetch E repo_path flags) w)
    as [(c & Hfile & _)|(d & w1 & evs & Hf & ->)]; [by destruct (Hnf c)|].
  intros Hnr.
  assert (d = []) as ->.
  { destruct d as [|f0 d0]; [done|]. exfalso.
    destruct Hf as (_ & _ & _ & _ & _ & Hmem & _).
    assert (f0 ∈ f0 :: d0) as Hin by by left.
    apply Hmem in Hin as [_ Hr]. apply (Hnr f0).
    rewrite events_prepend. unfold retrieved in *. ev_in. }
  split; [done|]. intros e. rewrite events_prepend, elem_of_app. intros [He|He].
  - apply (fetch_prefix_quiet E (fun e => negb (is_shell e) && negb (is_exec e))
             _ _ _ _ _ _ ltac:(by intros []) Hf) in He.
    apply andb_true_iff in He as [?%negb_true_iff ?%negb_true_iff]. done.
  - cbn in He. apply elem_of_cons in He as [-> |He]; [done|].
    by apply elem_of_nil in He.
Qed.

Section Exits.

Context {A B : Type}.

Lemma no_exit_exits (m : Py A) : no_exit m -> exits_on_failure m.
Proof. intros H w c Ho. by destruct (H w c). Qed.

Lemma no_exit_bind (m : Py A) (k : A -> Py B) :
  no_exit m -> (forall a, no_exit (k a)) -> no_exit (bind m k).
Proof.
  intros Hm Hk w c. unfold bind. specialize (Hm w).
  destruct (outcome (m w)) as [a|c'|e] eqn:Ho; cbn; [|by destruct (Hm c')|done].
  apply Hk.
Qed.

Lemma exits_bind (m : Py A) (k : A -> Py B) :
  exits_on_failure m -> (forall a, exits_on_failure (k a)) ->
  exits_on_failure (bind m k).
Proof.
  intros Hm Hk w c. unfold bind. specialize (Hm w).
  destruct (outcome (m w)) as [a|c'|e] eqn:Ho; cbn.
  - intros Hc. destruct (Hk a (world (m w)) c Hc) as (-> & cmd & rc & Hrc & Hin).
    split; [done|]. exists cmd, rc. split; [done|]. ev_in.
  - intros [= <-]. by apply Hm.
  - done.
Qed.

Lemma no_exit_try (m : Py A) handles (h : PyExn -> Py A) :
  no_exit m -> (forall e, no_exit (h e)) -> no_exit (try_except m handles h).
Proof.
  intros Hm Hh w c. unfold try_except. specialize (Hm w).
  destruct (outcome (m w)) as [a|c'|e] eqn:Ho; [by rewrite Ho|by destruct (Hm c')|].
  destruct (handles (exn_class e)); [|by rewrite Ho].
  rewrite outcome_prepend. apply Hh.
Qed.

End Exits.

(** The primitives of the runtime never exit. *)
Ltac no_exit_prim :=
  let w := fresh "w" in let c := fresh "c" in
  intros w c;
  cbv [print emit ret raise path_exists os_chdir os_chmod os_makedirs write_file
       requests_get subprocess_exec subprocess_shell importlib_find_spec
       zip_extractall unpack2];
  repeat case_match; done.

Ltac no_exit_step :=
  lazymatch goal with
  | |- no_exit (bind _ _) => apply no_exit_bind; [| intros ?]
  | |- no_exit (try_except _ _ _) => apply no_exit_try; [| intros ?]
  | |- no_exit (if ?b then _ else _) => destruct b
  | |- no_exit (match ?x with _ => _ end) => destruct x
  | |- no_exit _ => no_exit_prim
  end.

Ltac no_exit_tac := repeat no_exit_step.

Lemma exits_run E cmd : exits_on_failure (run E cmd).
Proof.
  intros w c Ho.
  destruct (run_spec E cmd w) as [m [Hr|(rc & Hrc & Hr)]]; rewrite Hr in *; [done|].
  cbn in Ho. injection Ho as <-. split; [done|]. exists cmd, rc. split; [done|].
  cbn. by left.
Qed.

Ltac exits_step :=
  lazymatch goal with
  | |- exits_on_failure (bind _ _) => apply exits_bind; [| intros ?]
  | |- exits_on_failure (run _ _) => apply exits_run
  | |- exits_on_failure (if ?b then _ else _) => destruct b
  | |- exits_on_failure (match ?x with _ => _ end) => destruct x
  | |- exits_on_failure _ => apply no_exit_exits; no_exit_tac
  end.

Ltac exits_tac := repeat exits_step.

Lemma no_exit_hidden_imports E mods : no_exit (V2.hidden_imports E mods).
Proof.
  induction mods as [|m mods IH]; cbn [V2.hidden_imports]; [no_exit_tac|].
  apply no_exit_bind; [no_exit_tac|intros b].
  apply no_exit_bind; [done|intros l; no_exit_tac].
Qed.

Lemma no_exit_extract_loop E fnames : no_exit (extract_loop E fnames).
Proof.
  intros w c Ho.
  destruct (extract_loop_spec E fnames w) as [_ [H|(e & H & _)]]; congruence.
Qed.

Lemma exits_v2_detect E reponame : exits_on_failure (V2.detect_and_build E reponame).
Proof.
  unfold V2.detect_and_build. cbv zeta.
  apply exits_bind; [exits_tac|intros _].
  apply exits_bind; [apply no_exit_exits, no_exit_hidden_imports|intros l].
  exits_tac.
Qed.

Lemma exits_v2_auto E reponame : exits_on_failure (v2_auto E reponame).
Proof.
  unfold v2_auto.
  apply exits_bind; [exits_tac|intros _].
  apply exits_bind; [apply exits_v2_detect|intros bp].
  apply exits_bind; [unfold V2.usable_binary; exits_tac|intros [u|]].
  - apply exits_bind; [unfold V2.install_binary; cbv zeta; exits_tac|].
    intros _. exits_tac.
  - exits_tac.
Qed.

Lemma no_exit_v2_script E : no_exit (v2_script E).
Proof.
  unfold v2_script.
  apply no_exit_bind; [no_exit_tac|intros _].
  apply no_exit_bind; [no_exit_tac|intros _].
  apply no_exit_bind; [|intros rc; no_exit_tac].
  intros w c. unfold subprocess_exec. by repeat case_match.
Qed.

Lemma exits_v2_install_phase E repo_path d :
  exits_on_failure (v2_install_phase E repo_path d).
Proof.
  unfold v2_install_phase.
  apply exits_bind; [apply no_exit_exits, no_exit_extract_loop|intros _].
  apply exits_bind; [exits_tac|intros _].
  apply exits_bind; [exits_tac|intros p].
  destruct (list_in "install.sh" d);
    [apply no_exit_exits, no_exit_v2_script|apply exits_v2_auto].
Qed.

Lemma exits_remove_repo E x : exits_on_failure (remove_repo E x).
Proof.
  unfold remove_repo.
  apply exits_bind; [|intros reponame; cbv zeta; exits_tac].
  destruct (str_in "/" x); [|exits_tac].
  apply exits_bind; [exits_tac|intros; exits_tac].
Qed.

Lemma exits_clean_tempfolder E : exits_on_failure (clean_tempfolder E).
Proof. unfold clean_tempfolder. exits_tac. Qed.

(** A get exits only with status 1: for lack of candidates, or after a
    command that failed. *)
Lemma v2_get_repo_exits E repo_path flags w c :
  outcome (V2.get_repo E repo_path flags w) = SysExit c ->
  c = 1 /\
  ((forall f, ~ retrieved f (events (V2.get_repo E repo_path flags w))) \/
   exists cmd rc,
     rc <> 0 /\ EvShell cmd rc ∈ events (V2.get_repo E repo_path flags w)).
Proof.
  rewrite v2_get_repo_stages.
  destruct (fetch_stage_cases E repo_path (v2_after_fetch E repo_path flags) w)
    as [(c' & _ & ->)|(d & w1 & evs & Hf & ->)]; [done|].
  rewrite outcome_prepend, events_prepend. unfold v2_after_fetch.
  destruct d as [|f0 d0].
  - cbn [outcome events]. rewrite (bind_run_normal _ _ _ _ _ _ (print_run _ _)).
    cbn. intros [= <-]. split; [done|]. left. intros f Hr.
    destruct Hf as (_ & _ & _ & _ & _ & Hmem & Hw & _).
    assert (EvWrite (os_path_join TMP_DIR f) ∈ evs) as Hr'.
    { revert Hr. unfold retrieved. cbn [app].
      repeat first [rewrite elem_of_cons | rewrite elem_of_app | rewrite elem_of_nil].
      intuition discriminate. }
    clear Hr. rename Hr' into Hr.
    assert (f ∈ @nil string) as Hin; [|by apply elem_of_nil in Hin].
    apply Hmem. destruct (Hw _ Hr) as [(f' & Hf' & Heq) _].
    apply os_path_join_inj in Heq as ->. by split.
  - intros Ho.
    assert (exits_on_failure
              (if list_in "--no-unzip" flags
               then print "--no-unzip used. Skipping extraction and install."
               else v2_install_phase E repo_path (f0 :: d0))) as Hx.
    { destruct (list_in "--no-unzip" flags);
        [exits_tac|apply exits_v2_install_phase]. }
    destruct (Hx w1 c Ho) as (-> & cmd & rc & Hrc & Hin).
    split; [done|]. right. exists cmd, rc. split; [done|]. ev_in.
Qed.

(** Whatever makes [main] of [src/fileshare.py] end with a status other
    than 0 is one of the causes listed, and the status is 1. *)
Lemma v2_main_failure E argv w :
  exit_code (outcome (V2.main E argv w)) <> 0 ->
  exit_code (outcome (V2.main E argv w)) = 1 /\
  failure_cause E argv (V2.main E argv w).
Proof.
  unfold failure_cause, V2.main.
  destruct (Z.eqb_spec (geteuid E) 0) as [Hu|Hu]; cbn [negb].
  2:{ intros _. split; [done|]. by left. }
  rewrite bind_ret_l.
  destruct ((length argv <? 2)%nat || list_in "--help" argv) eqn:H2.
  { by intros []. }
  rewrite bind_ret_l. cbv zeta.
  destruct (list_in (List.nth 1 argv "") ["get"; "remove"; "clean"]) eqn:H3;
    cbn [negb].
  2:{ intros _. split; [done|]. right. by left. }
  rewrite bind_ret_l.
  destruct (String.eqb_spec (List.nth 1 argv "") "clean") as [Hc|Hc].
  { intros Hne.
    destruct (outcome (clean_tempfolder E w)) as [[]|c|e] eqn:Ho; [done| |].
    - destruct (exits_clean_tempfolder E w c Ho) as (-> & Hcmd).
      split; [done|]. do 4 right. by left.
    - split; [done|]. do 5 right. by exists e. }
  destruct (length argv <? 3)%nat eqn:H4.
  { intros _. split; [done|]. do 2 right. left. split; [by apply Nat.ltb_lt|].
    apply list_in_true in H3.
    rewrite !elem_of_cons, elem_of_nil in H3. tauto. }
  rewrite bind_ret_l.
  destruct (String.eqb_spec (List.nth 1 argv "") "get") as [Hg|Hg].
  { intros Hne.
    destruct (outcome (V2.get_repo E _ _ w)) as [[]|c|e] eqn:Ho; [done| |].
    - destruct (v2_get_repo_exits E _ _ w c Ho) as (-> & [Hn|Hcmd]).
      + split; [done|]. do 3 right. left. by split.
      + split; [done|]. do 4 right. by left.
    - split; [done|]. do 5 right. by exists e. }
  destruct (String.eqb_spec (List.nth 1 argv "") "remove") as [Hr|Hr].
  { intros Hne.
    destruct (outcome (remove_repo E _ w)) as [[]|c|e] eqn:Ho; [done| |].
    - destruct (exits_remove_repo E _ w c Ho) as (-> & Hcmd).
      split; [done|]. do 4 right. by left.
    - split; [done|]. do 5 right. by exists e. }
  by intros [].
Qed.

(** C5. Exit status of [src/fileshare.py]. The process ends with status 0
    or 1. It ends with status 0 on success, that is, unless one of these
    holds: the user is not root, the subcommand is unknown, get or remove
    lacks its argument, a get retrieved no candidate, a command run
    through [run] returned a non-zero status, or an exception was not
    caught. A get whose fetch retrieves no candidate exits with status 1
    without running any command or program. Whenever a command run
    through [run] returns a non-zero status the process exits with status
    1. A get or remove without its argument exits with status 1 after the
    usage text. The status of the install script is not among the causes
    of a failure: whenever the script was executed and returned, with
    whatever status, the process exits with status 0. *)
Theorem exit_codes (E : Env) (argv : list string) (w : World) :
  let r := V2.main E argv w in
  (exit_code (outcome r) <> 0 ->
   exit_code (outcome r) = 1 /\ failure_cause E argv r) /\
  (~ failure_cause E argv r -> exit_code (outcome r) = 0) /\
  (geteuid E = 0 ->
   (forall c, fs w !! TMP_DIR <> Some (File c)) ->
   (exists prog raw flags, argv = prog :: "get" :: raw :: flags) ->
   list_in "--help" argv = false ->
   (forall f, ~ retrieved f (events r)) ->
   exit_code (outcome r) = 1 /\
   forall e, e ∈ events r -> is_shell e = false /\ is_exec e = false) /\
  (forall cmd rc, EvShell cmd rc ∈ events r -> rc <> 0 -> exit_code (outcome r) = 1) /\
  (geteuid E = 0 ->
   (exists prog cmd, argv = [prog; cmd] /\ (cmd = "get" \/ cmd = "remove")) ->
   list_in "--help" argv = false ->
   r = mkRun (SysExit 1) w [EvPrint "Error: Missing repo path."; EvPrint V2.help_text]) /\
  (forall a rc, EvExec a (Some rc) ∈ events r -> exit_code (outcome r) = 0).
Proof.
  cbv zeta. split_and!.
  - apply v2_main_failure.
  - intros Hnc. destruct (decide (exit_code (outcome (V2.main E argv w)) = 0))
      as [H0|H0]; [done|].
    by destruct (v2_main_failure E argv w H0) as [_ Hc].
  - intros Hu Hnf (prog & raw & flags & ->) Hh.
    rewrite (v2_main_get E prog raw flags w Hu Hh). intros Hnr.
    destruct (v2_nothing_retrieved E _ flags w Hnf Hnr) as [-> Hq]. by split.
  - intros cmd rc Hin Hrc. by rewrite (strict_v2_main E argv w cmd rc Hin Hrc).
  - intros Hu (prog & cmd & -> & Hc) Hh. by apply v2_main_missing_arg.
  - intros a rc Hin. by rewrite (v2_main_exec_returns E argv w a rc Hin).
Qed.

(** On the reference machine the get of alice/tool, whose app.zip unpacks
    to a Go entry point, builds and installs without any cause of
    failure. *)
Lemma ref_install_succeeds :
  ~ failure_cause (RefEnv.env 0 server_app_go) ["fileshare"; "get"; "alice/tool"]
      (V2.main (RefEnv.env 0 server_app_go) ["fileshare"; "get"; "alice/tool"]
         RefEnv.empty_world).
Proof.
  intros [H|[H|[[H _]|[[_ H]|[(cmd & rc & Hrc & H)|[e H]]]]]].
  - by vm_compute in H.
  - by vm_compute in H.
  - vm_compute in H. lia.
  - apply (H "app.zip"). in_events.
  - apply list_elem_of_In in H. vm_compute in H.
    repeat (destruct H as [H|H]; [try discriminate; by injection H as _ <-|]).
    done.
  - by vm_compute in H.
Qed.

Lemma exit_codes_witness :
  let w := RefEnv.empty_world in
  exit_code (outcome (V2.main (RefEnv.env 0 server_app_go)
                        ["fileshare"; "get"; "alice/tool"] w)) = 0 /\
  exit_code (outcome (V2.main (RefEnv.env 0 []) ["fileshare"; "get"; "alice/tool"] w)) = 1 /\
  exit_code (outcome (V2.main (RefEnv.env 0 server_spaced)
                        ["fileshare"; "get"; "alice/my tool"] w)) = 1 /\
  V2.main (RefEnv.env 0 []) ["fileshare"; "remove"] w =
    mkRun (SysExit 1) w [EvPrint "Error: Missing repo path."; EvPrint V2.help_text] /\
  exit_code (outcome (V2.main (RefEnv.env 0 server_failing_script)
                        ["fileshare"; "get"; "alice/tool"] w)) = 0.
Proof.
  cbv zeta.
  assert (forall f, ~ retrieved f
            (events (V2.main (RefEnv.env 0 []) ["fileshare"; "get"; "alice/tool"]
                       RefEnv.empty_world))) as Hnr.
  { intros f Hr. unfold retrieved in Hr. apply list_elem_of_In in Hr.
    vm_compute in Hr. intuition discriminate. }
  assert (EvShell "go build -o my tool main.go" 127
            ∈ events (V2.main (RefEnv.env 0 server_spaced)
                        ["fileshare"; "get"; "alice/my tool"] RefEnv.empty_world))
    as Hsh by in_events.
  assert (EvExec ["./install.sh"] (Some 3)
            ∈ events (V2.main (RefEnv.env 0 server_failing_script)
                        ["fileshare"; "get"; "alice/tool"] RefEnv.empty_world))
    as Hex by in_events.
  destruct (exit_codes (RefEnv.env 0 server_app_go) ["fileshare"; "get"; "alice/tool"]
              RefEnv.empty_world) as (_ & H0 & _).
  destruct (exit_codes (RefEnv.env 0 []) ["fileshare"; "get"; "alice/tool"]
              RefEnv.empty_world) as (_ & _ & Ha & _).
  destruct (exit_codes (RefEnv.env 0 server_spaced)
              ["fileshare"; "get"; "alice/my tool"] RefEnv.empty_world)
    as (_ & _ & _ & Hb & _).
  destruct (exit_codes (RefEnv.env 0 []) ["fileshare"; "remove"]
              RefEnv.empty_world) as (_ & _ & _ & _ & Hc & _).
  destruct (exit_codes (RefEnv.env 0 server_failing_script)
              ["fileshare"; "get"; "alice/tool"] RefEnv.empty_world)
    as (_ & _ & _ & _ & _ & Hd).
  split_and!.
  - exact (H0 ref_install_succeeds).
  - refine (proj1 (Ha eq_refl _ _ _ Hnr)).
    + intros c. cbn. by rewrite lookup_empty.
    + by exists "fileshare", "alice/tool", [].
    + by vm_compute.
  - refine (Hb "go build -o my tool main.go" 127 Hsh _). done.
  - refine (Hc eq_refl _ _); [by exists "fileshare", "remove"; auto|by vm_compute].
  - exact (Hd ["./install.sh"] 3 Hex).
Defined.

(** C5, as stated, fails: an install script that exits with status 3 is
    reported, and the process still exits with status 0; and status 1 is
    also the exit status of an unknown subcommand. *)
Lemma exit_codes_counterexample :
  let r := V2.main (RefEnv.env 0 server_failing_script)
             ["fileshare"; "get"; "alice/tool"] RefEnv.empty_world in
  let r' := V2.main (RefEnv.env 0 []) ["fileshare"; "upgrade"] RefEnv.empty_world in
  EvExec ["./install.sh"] (Some 3) ∈ events r /\
  EvPrint "install.sh failed. Aborting." ∈ events r /\
  exit_code (outcome r) = 0 /\
  exit_code (outcome r') = 1.
Proof. cbv zeta. split_and!; try (by vm_compute); in_events. Qed.

(* ===================================================================== *)
(** ** Further properties of the command line *)
(* ===================================================================== *)

(** X1. Run as root, [main] of either variant answers a command line that
    is too short, or that holds --help anywhere (as the program name, after
    a subcommand, among the flags of get), with the usage text and exit
    status 0, and does nothing else: the subcommand is not even looked
    at. *)
Theorem help_short_circuits (E : Env) (argv : list string) (w : World) :
  geteuid E = 0 ->
  (length argv < 2)%nat \/ "--help" ∈ argv ->
  V2.main E argv w = mkRun (SysExit 0) w [EvPrint V2.help_text] /\
  V1.main E argv w = mkRun (SysExit 0) w [EvPrint V1.help_text].
Proof.
  intros Hu Hh.
  assert ((length argv <? 2)%nat || list_in "--help" argv = true) as Hb.
  { apply orb_true_iff. destruct Hh as [Hl|Hin].
    - left. by apply Nat.ltb_lt.
    - right. by apply list_in_true. }
  unfold V2.main, V1.main. rewrite Hu, Hb. cbn [Z.eqb negb].
  rewrite !bind_ret_l. by split.
Qed.

Lemma help_short_circuits_witness :
  let argv := ["fileshare"; "get"; "alice/tool"; "--help"] in
  V2.main (RefEnv.env 0 server_app_go) argv RefEnv.empty_world =
    mkRun (SysExit 0) RefEnv.empty_world [EvPrint V2.help_text] /\
  V1.main (RefEnv.env 0 server_app_go) argv RefEnv.empty_world =
    mkRun (SysExit 0) RefEnv.empty_world [EvPrint V1.help_text].
Proof.
  apply (help_short_circuits (RefEnv.env 0 server_app_go)
           ["fileshare"; "get"; "alice/tool"; "--help"] RefEnv.empty_world).
  - reflexivity.
  - right. by apply list_in_true.
Defined.

Lemma main_clean_eq E prog rest w :
  geteuid E = 0 -> list_in "--help" (prog :: "clean" :: rest) = false ->
  V2.main E (prog :: "clean" :: rest) w = clean_tempfolder E w /\
  V1.main E (prog :: "clean" :: rest) w = clean_tempfolder E w.
Proof.
  intros Hu Hh. unfold V2.main, V1.main. rewrite Hu, Hh.
  cbn [Z.eqb negb length Nat.ltb Nat.leb orb]. rewrite !bind_ret_l.
  cbv zeta. cbn [List.nth].
  change (list_in "clean" ["get"; "remove"; "clean"]) with true.
  cbn [negb]. rewrite !bind_ret_l. by split.
Qed.

Lemma clean_tempfolder_ok E w :
  fst (shell E "sudo rm -rf /tmp/fsdl" (cwd w) (fs w)) = 0 ->
  clean_tempfolder E w =
    mkRun (Normal tt)
      (mkWorld (snd (shell E "sudo rm -rf /tmp/fsdl" (cwd w) (fs w))) (cwd w))
      [EvShell "sudo rm -rf /tmp/fsdl" 0; EvPrint "Cleaning complete"].
Proof.
  intros H. unfold clean_tempfolder.
  by rewrite (bind_run_normal _ _ _ _ _ _ (run_ok E _ w H)).
Qed.

Lemma clean_tempfolder_failed E w :
  fst (shell E "sudo rm -rf /tmp/fsdl" (cwd w) (fs w)) <> 0 ->
  clean_tempfolder E w =
    mkRun (SysExit 1)
      (mkWorld (snd (shell E "sudo rm -rf /tmp/fsdl" (cwd w) (fs w))) (cwd w))
      [EvShell "sudo rm -rf /tmp/fsdl"
         (fst (shell E "sudo rm -rf /tmp/fsdl" (cwd w) (fs w)));
       EvPrint "Command failed: sudo rm -rf /tmp/fsdl"].
Proof.
  intros H. unfold clean_tempfolder.
  by rewrite (bind_run_exit _ _ _ _ _ _ (run_failed E _ w H)).
Qed.

(** X2. The clean subcommand, in either variant, needs no further
    argument and ignores any that follow: run as root it is exactly
    [clean_tempfolder]. It runs the single command
    [sudo rm -rf /tmp/fsdl] and requests nothing. When that command
    returns 0 the run returns normally after printing "Cleaning
    complete", and (the command doing what it reports) the Workspace is
    gone; when it returns another status the run exits with status 1
    after reporting the failed command, without that message. In both
    cases the world is the one the command left. *)
Theorem clean_removes_workspace (E : Env) (prog : string) (rest : list string)
    (w : World) :
  geteuid E = 0 -> list_in "--help" (prog :: "clean" :: rest) = false ->
  let r := V2.main E (prog :: "clean" :: rest) w in
  let out := shell E "sudo rm -rf /tmp/fsdl" (cwd w) (fs w) in
  V1.main E (prog :: "clean" :: rest) w = r /\
  shell_cmds (events r) = ["sudo rm -rf /tmp/fsdl"] /\
  http_urls (events r) = [] /\
  (fst out = 0 ->
   r = mkRun (Normal tt) (mkWorld (snd out) (cwd w))
         [EvShell "sudo rm -rf /tmp/fsdl" 0; EvPrint "Cleaning complete"] /\
   (rm_rf_sound E TMP_DIR -> fs (world r) !! TMP_DIR = None)) /\
  (fst out <> 0 ->
   r = mkRun (SysExit 1) (mkWorld (snd out) (cwd w))
         [EvShell "sudo rm -rf /tmp/fsdl" (fst out);
          EvPrint "Command failed: sudo rm -rf /tmp/fsdl"]).
Proof.
  intros Hu Hh. cbv zeta.
  destruct (main_clean_eq E prog rest w Hu Hh) as [-> ->]. split; [done|].
  destruct (Z.eq_dec (fst (shell E "sudo rm -rf /tmp/fsdl" (cwd w) (fs w))) 0)
    as [H0|H0].
  - rewrite (clean_tempfolder_ok E w H0).
    split; [done|]. split; [done|]. split; [|done].
    intros _. split; [done|]. intros Hrm. cbn [world fs].
    by destruct (Hrm (cwd w) (fs w) H0).
  - rewrite (clean_tempfolder_failed E w H0).
    split; [done|]. split; [done|]. split; [done|]. by intros _.
Qed.

Lemma clean_removes_workspace_witness :
  let E := RefEnv.env 0 [] in
  let r := V2.main E ["fileshare"; "clean"; "leftover"] mixed_workspace in
  V1.main E ["fileshare"; "clean"; "leftover"] mixed_workspace = r /\
  outcome r = Normal tt /\
  EvPrint "Cleaning complete" ∈ events r /\
  fs (world r) !! TMP_DIR = None.
Proof.
  cbv zeta.
  assert (list_in "--help" ["fileshare"; "clean"; "leftover"] = false) as Hh
    by (by vm_compute).
  assert (fst (shell (RefEnv.env 0 []) "sudo rm -rf /tmp/fsdl"
                 (cwd mixed_workspace) (fs mixed_workspace)) = 0) as H0
    by (by vm_compute).
  assert (rm_rf_sound (RefEnv.env 0 []) TMP_DIR) as Hrm
    by (by apply ref_rm_rf_sound).
  destruct (clean_removes_workspace (RefEnv.env 0 []) "fileshare" ["leftover"]
              mixed_workspace eq_refl Hh) as (H1 & _ & _ & H4 & _).
  destruct (H4 H0) as [Hr Hgone].
  split; [exact H1|]. split; [by rewrite Hr|]. split; [rewrite Hr; ev_in|].
  exact (Hgone Hrm).
Defined.

(* ===================================================================== *)
(** ** Installation and removal, command by command *)
(* ===================================================================== *)

Ltac all_zero :=
  let Hin := fresh in
  intros ? ? Hin; cbn [events app] in Hin;
  repeat (apply elem_of_cons in Hin as [Hin|Hin]; [by simplify_eq|]);
  by apply elem_of_nil in Hin.

Ltac failed_after ran cmd rc later :=
  right; split; [done|]; exists ran, cmd, rc, later;
  rewrite ?prepend_run; cbn [events app];
  split_and!; [done|done|done|ev_in|done].

Lemma v2_install_stops E bp reponame w :
  stops_at_first_failure (v2_install_cmds bp reponame)
    (V2.install_binary E bp reponame w).
Proof.
  unfold V2.install_binary, v2_install_cmds. cbv zeta.
  py_run_next E.
  2:{ failed_after (@nil string) ("chmod +x " +:+ bp) rc
        ["sudo cp " +:+ bp +:+ " " +:+ "/usr/local/bin/" +:+ Path_name (Path bp);
         "sudo mkdir -p " +:+ "/usr/share/" +:+ reponame;
         "sudo cp " +:+ bp +:+ " " +:+ "/usr/share/" +:+ reponame]. }
  py_run_next E.
  2:{ failed_after ["chmod +x " +:+ bp]
        ("sudo cp " +:+ bp +:+ " " +:+ "/usr/local/bin/" +:+ Path_name (Path bp)) rc
        ["sudo mkdir -p " +:+ "/usr/share/" +:+ reponame;
         "sudo cp " +:+ bp +:+ " " +:+ "/usr/share/" +:+ reponame]. }
  py_run_next E.
  2:{ failed_after ["chmod +x " +:+ bp;
                    "sudo cp " +:+ bp +:+ " " +:+ "/usr/local/bin/"
                      +:+ Path_name (Path bp)]
        ("sudo mkdir -p " +:+ "/usr/share/" +:+ reponame) rc
        ["sudo cp " +:+ bp +:+ " " +:+ "/usr/share/" +:+ reponame]. }
  py_run_next E.
  2:{ failed_after ["chmod +x " +:+ bp;
                    "sudo cp " +:+ bp +:+ " " +:+ "/usr/local/bin/"
                      +:+ Path_name (Path bp);
                    "sudo mkdir -p " +:+ "/usr/share/" +:+ reponame]
        ("sudo cp " +:+ bp +:+ " " +:+ "/usr/share/" +:+ reponame) rc
        (@nil string). }
  left. split; [done|]. split; [done|]. all_zero.
Qed.

Lemma v1_install_stops E bp reponame w :
  stops_at_first_failure (v1_install_cmds bp reponame)
    (V1.install_binary E bp reponame w).
Proof.
  unfold V1.install_binary, v1_install_cmds. cbv zeta.
  py_run_next E.
  2:{ failed_after (@nil string) ("chmod +x " +:+ bp) rc
        ["sudo cp " +:+ bp +:+ " /usr/local/bin/" +:+ Path_name (Path bp);
         "sudo mkdir -p /usr/share/" +:+ reponame +:+ "/";
         "sudo cp " +:+ bp +:+ " /usr/share/" +:+ reponame +:+ "/";
         "sudo rm -rf /tmp/fsdl"]. }
  py_run_next E.
  2:{ failed_after ["chmod +x " +:+ bp]
        ("sudo cp " +:+ bp +:+ " /usr/local/bin/" +:+ Path_name (Path bp)) rc
        ["sudo mkdir -p /usr/share/" +:+ reponame +:+ "/";
         "sudo cp " +:+ bp +:+ " /usr/share/" +:+ reponame +:+ "/";
         "sudo rm -rf /tmp/fsdl"]. }
  py_run_next E.
  2:{ failed_after ["chmod +x " +:+ bp;
                    "sudo cp " +:+ bp +:+ " /usr/local/bin/" +:+ Path_name (Path bp)]
        ("sudo mkdir -p /usr/share/" +:+ reponame +:+ "/") rc
        ["sudo cp " +:+ bp +:+ " /usr/share/" +:+ reponame +:+ "/";
         "sudo rm -rf /tmp/fsdl"]. }
  py_run_next E.
  2:{ failed_after ["chmod +x " +:+ bp;
                    "sudo cp " +:+ bp +:+ " /usr/local/bin/" +:+ Path_name (Path bp);
                    "sudo mkdir -p /usr/share/" +:+ reponame +:+ "/"]
        ("sudo cp " +:+ bp +:+ " /usr/share/" +:+ reponame +:+ "/") rc
        ["sudo rm -rf /tmp/fsdl"]. }
  py_print. py_run_next E.
  2:{ failed_after ["chmod +x " +:+ bp;
                    "sudo cp " +:+ bp +:+ " /usr/local/bin/" +:+ Path_name (Path bp);
                    "sudo mkdir -p /usr/share/" +:+ reponame +:+ "/";
                    "sudo cp " +:+ bp +:+ " /usr/share/" +:+ reponame +:+ "/"]
        "sudo rm -rf /tmp/fsdl" rc (@nil string). }
  left. split; [done|]. split; [done|]. all_zero.
Qed.

(** X3. [install_binary] has no rollback and no retry. In both variants
    it runs its commands in the fixed order chmod, cp to /usr/local/bin,
    mkdir -p of the share directory, cp to the share directory (then, in
    [src/FileShare/fileshare.py], the removal of the Workspace): either
    every command ran with status 0 and the call returned, or it exited
    with status 1 at the first command that failed, after reporting it,
    without starting any later command. *)
Theorem install_stops_at_first_failure (E : Env) (bp reponame : string) (w : World) :
  stops_at_first_failure (v2_install_cmds bp reponame)
    (V2.install_binary E bp reponame w) /\
  stops_at_first_failure (v1_install_cmds bp reponame)
    (V1.install_binary E bp reponame w).
Proof. split; [apply v2_install_stops|apply v1_install_stops]. Qed.

Lemma run_then_print E cmd msg w :
  exists m',
    (run E cmd ;; print msg)%py w =
      mkRun (Normal tt) (mkWorld m' (cwd w)) [EvShell cmd 0; EvPrint msg] \/
    exists rc, rc <> 0 /\
      (run E cmd ;; print msg)%py w =
        mkRun (SysExit 1) (mkWorld m' (cwd w))
          [EvShell cmd rc; EvPrint ("Command failed: " +:+ cmd)].
Proof.
  destruct (run_spec E cmd w) as [m [Hr|(rc & Hrc & Hr)]]; exists m.
  - left. by rewrite (bind_run_normal _ _ _ _ _ _ Hr).
  - right. exists rc. split; [done|]. by rewrite (bind_run_exit _ _ _ _ _ _ Hr).
Qed.

Ltac guarded_done :=
  rewrite ?prepend_run; cbn [events app probed_before andb];
  rewrite ?String.eqb_refl; split; [done|];
  let Hin := fresh in
  intros ? ? Hin;
  repeat (apply elem_of_cons in Hin as [Hin|Hin]; [simplify_eq; by auto|]);
  by apply elem_of_nil in Hin.

Lemma remove_paths_guarded E n w :
  probed_before None (events (remove_paths E n w)) = true /\
  (forall cmd rc, EvShell cmd rc ∈ events (remove_paths E n w) ->
     cmd = "sudo rm -rf " +:+ "/usr/local/bin/" +:+ n \/
     cmd = "sudo rm -rf " +:+ "/usr/share/" +:+ n).
Proof.
  unfold remove_paths. cbv zeta.
  py_next (probe_abs ("/usr/local/bin/" +:+ n) w eq_refl).
  destruct (fs_has (fs w) ("/usr/local/bin/" +:+ n)).
  - destruct (run_then_print E ("sudo rm -rf " +:+ "/usr/local/bin/" +:+ n)
                ("Removed binary from " +:+ "/usr/local/bin/" +:+ n) w)
      as [m [Hr|(rc & Hrc & Hr)]].
    2:{ rewrite (bind_run_exit _ _ _ _ _ _ Hr). guarded_done. }
    py_next Hr.
    py_next (probe_abs ("/usr/share/" +:+ n) (mkWorld m (cwd w)) eq_refl).
    destruct (fs_has _ ("/usr/share/" +:+ n)).
    + destruct (run_then_print E ("sudo rm -rf " +:+ "/usr/share/" +:+ n)
                  ("Removed directory " +:+ "/usr/share/" +:+ n) (mkWorld m (cwd w)))
        as [m2 [Hr2|(rc & Hrc & Hr2)]]; rewrite Hr2; guarded_done.
    + unfold print, emit. guarded_done.
  - py_print.
    py_next (probe_abs ("/usr/share/" +:+ n) w eq_refl).
    destruct (fs_has _ ("/usr/share/" +:+ n)).
    + destruct (run_then_print E ("sudo rm -rf " +:+ "/usr/share/" +:+ n)
                  ("Removed directory " +:+ "/usr/share/" +:+ n) w)
        as [m2 [Hr2|(rc & Hrc & Hr2)]]; rewrite Hr2; guarded_done.
    + unfold print, emit. guarded_done.
Qed.

(** X4. [remove_repo] issues a removal command only for a path it has just
    found. Every command it runs is [sudo rm -rf] followed by the binary
    path or the share path of the package, issued right after that very
    path was probed and found to exist; when neither path exists it runs
    no command at all and leaves the world as it was. It requests nothing
    from the network. (This is about the command lines issued: the path
    is written into them unquoted, and what a command then removes is the
    shell's reading of it.) *)
Theorem remove_repo_removes_only_found (E : Env) (x : string) (w : World) :
  probed_before None (events (remove_repo E x w)) = true /\
  (forall cmd rc, EvShell cmd rc ∈ events (remove_repo E x w) ->
     cmd = "sudo rm -rf " +:+ "/usr/local/bin/" +:+ package_name x \/
     cmd = "sudo rm -rf " +:+ "/usr/share/" +:+ package_name x) /\
  (fs w !! ("/usr/local/bin/" +:+ package_name x) = None ->
   fs w !! ("/usr/share/" +:+ package_name x) = None ->
   world (remove_repo E x w) = w /\ shell_cmds (events (remove_repo E x w)) = []) /\
  http_urls (events (remove_repo E x w)) = [].
Proof.
  destruct (remove_repo_cases E x) as [Heq|Hex].
  - rewrite Heq. destruct (remove_paths_guarded E (package_name x) w) as [H1 H2].
    split; [done|]. split; [done|]. split.
    { intros Hb Hs. by rewrite (remove_paths_absent E _ w Hb Hs). }
    apply http_urls_quiet. clear H1 H2 Heq. revert w.
    change (emits (fun e => negb (is_http e)) (remove_paths E (package_name x))).
    unfold remove_paths. cbv zeta. emits_prog.
  - destruct (Hex w) as [e ->]. split; [done|]. split; [|done].
    by intros cmd rc Hin%elem_of_nil.
Qed.

Lemma remove_repo_removes_only_found_witness :
  world (remove_repo (RefEnv.env 0 []) "alice/tool" RefEnv.empty_world) =
    RefEnv.empty_world /\
  shell_cmds (events (remove_repo (RefEnv.env 0 []) "alice/tool" RefEnv.empty_world)) = [].
Proof.
  refine (proj1 (proj2 (proj2 (remove_repo_removes_only_found (RefEnv.env 0 [])
                                 "alice/tool" RefEnv.empty_world))) _ _);
    by vm_compute.
Defined.

(* ===================================================================== *)
(** ** The repository argument of the command line *)
(* ===================================================================== *)

Lemma py_lstrip_slashes n s : py_lstrip "/" (slashes n +:+ s) = py_lstrip "/" s.
Proof. induction n as [|n IH]; [done|]. exact IH. Qed.

Lemma py_rstrip_slashes m : py_rstrip "/" (slashes m) = "".
Proof. induction m as [|m IH]; [done|]. cbn [slashes py_rstrip]. by rewrite IH. Qed.

Lemma py_rstrip_app_slashes s m : py_rstrip "/" (s +:+ slashes m) = py_rstrip "/" s.
Proof.
  induction s as [|a s IH]; [apply py_rstrip_slashes|].
  change (String a s +:+ slashes m) with (String a (s +:+ slashes m)).
  cbn [py_rstrip]. by rewrite IH.
Qed.

Lemma py_lstrip_app_slashes s m :
  py_lstrip "/" (s +:+ slashes m) =
    match py_lstrip "/" s with
    | EmptyString => EmptyString
    | r => r +:+ slashes m
    end.
Proof.
  induction s as [|a s IH].
  - change ("" +:+ slashes m) with (slashes m).
    induction m as [|m IHm]; [done|]. exact IHm.
  - change (String a s +:+ slashes m) with (String a (s +:+ slashes m)).
    cbn [py_lstrip]. destruct (Ascii.eqb a "/"); [exact IH|done].
Qed.

Lemma py_strip_slashes n m s :
  py_strip "/" (slashes n +:+ s +:+ slashes m) = py_strip "/" s.
Proof.
  unfold py_strip. rewrite py_lstrip_slashes, py_lstrip_app_slashes.
  destruct (py_lstrip "/" s) as [|a r]; [done|].
  apply py_rstrip_app_slashes.
Qed.

Lemma help_flag_ext prog cmd r1 r2 flags :
  r1 <> "--help" -> r2 <> "--help" ->
  list_in "--help" (prog :: cmd :: r1 :: flags) =
  list_in "--help" (prog :: cmd :: r2 :: flags).
Proof.
  intros H1 H2. unfold list_in. apply bool_decide_ext.
  rewrite !elem_of_cons. split; intros [?|[?|[?|?]]]; auto; congruence.
Qed.

Lemma v2_main_arg_ext E prog cmd r1 r2 flags w :
  list_in "--help" (prog :: cmd :: r1 :: flags) =
    list_in "--help" (prog :: cmd :: r2 :: flags) ->
  py_strip "/" r1 = py_strip "/" r2 ->
  V2.main E (prog :: cmd :: r1 :: flags) w = V2.main E (prog :: cmd :: r2 :: flags) w.
Proof.
  intros Hh Hs. unfold V2.main. cbv zeta.
  cbn [length List.nth List.skipn]. by rewrite Hh, Hs.
Qed.

Lemma v1_main_arg_ext E prog cmd r1 r2 flags w :
  list_in "--help" (prog :: cmd :: r1 :: flags) =
    list_in "--help" (prog :: cmd :: r2 :: flags) ->
  py_strip "/" r1 = py_strip "/" r2 ->
  V1.main E (prog :: cmd :: r1 :: flags) w = V1.main E (prog :: cmd :: r2 :: flags) w.
Proof.
  intros Hh Hs. unfold V1.main. cbv zeta.
  cbn [length List.nth List.skipn]. by rewrite Hh, Hs.
Qed.

(** X5. Slashes around the repository argument are ignored. In both
    variants, [main] called with the argument [raw] wrapped in any number
    of leading and trailing slashes behaves exactly as with [raw] itself,
    whatever the command and the flags: same outcome, same final world,
    same trace. (The argument must not be, up to such slashes, the word
    --help, which [main] looks for before it strips anything.) *)
Theorem repo_argument_slashes (E : Env) (prog cmd raw : string)
    (flags : list string) (n m : nat) (w : World) :
  py_strip "/" raw <> "--help" ->
  V2.main E (prog :: cmd :: (slashes n +:+ raw +:+ slashes m) :: flags) w =
    V2.main E (prog :: cmd :: raw :: flags) w /\
  V1.main E (prog :: cmd :: (slashes n +:+ raw +:+ slashes m) :: flags) w =
    V1.main E (prog :: cmd :: raw :: flags) w.
Proof.
  intros Hh.
  assert (slashes n +:+ raw +:+ slashes m <> "--help") as H1.
  { intros Heq. apply Hh. rewrite <- (py_strip_slashes n m raw), Heq. reflexivity. }
  assert (raw <> "--help") as H2.
  { intros ->. by apply Hh. }
  split.
  - apply v2_main_arg_ext; [by apply help_flag_ext|apply py_strip_slashes].
  - apply v1_main_arg_ext; [by apply help_flag_ext|apply py_strip_slashes].
Qed.

Lemma repo_argument_slashes_witness :
  py_strip "/" "alice/tool" <> "--help" /\
  V2.main (RefEnv.env 0 []) ["fileshare"; "remove"; slashes 1 +:+ "alice/tool" +:+ slashes 2]
      installed_world =
    V2.main (RefEnv.env 0 []) ["fileshare"; "remove"; "alice/tool"] installed_world.
Proof.
  assert (py_strip "/" "alice/tool" <> "--help") as H by (by vm_compute).
  split; [exact H|].
  exact (proj1 (repo_argument_slashes (RefEnv.env 0 []) "fileshare" "remove"
                  "alice/tool" [] 1 2 installed_world H)).
Defined.


(* ===================================================================== *)
(** ** What the download requests and what it stores *)
(* ===================================================================== *)

Lemma workspace_blocked {A} E repo_path (k : list string -> Py A) w c :
  fs w !! TMP_DIR = Some (File c) ->
  fetch_stage E repo_path k w =
    mkRun (Raised (Exn FileExistsError TMP_DIR)) w
      [EvPrint ("Fetching repo: " +:+ repo_path)].
Proof.
  intros Hc.
  destruct (fetch_stage_cases E repo_path k w)
    as [(c' & _ & ->)|(d & w1 & evs & Hf & _)]; [done|].
  destruct Hf as (Hnf & _). by destruct (Hnf c).
Qed.

(** X6. [get_repo] asks the server for every candidate, whatever happens
    to the others. Unless /tmp/fsdl is a regular file, a run of either
    variant requests exactly the four URLs of main.zip, app.zip, root.zip
    and install.sh under the repository, in this order, once each, and
    nothing else: no answer of the server, no network error, no flag and
    nothing the later stages do adds or removes a request. When /tmp/fsdl
    is a regular file the run raises [FileExistsError] before the first
    request, having printed one line. *)
Theorem fetch_requests_every_candidate (E : Env) (repo_path : string)
    (flags : list string) (w : World) :
  ((forall c, fs w !! TMP_DIR <> Some (File c)) ->
   http_urls (events (V2.get_repo E repo_path flags w)) =
     List.map (file_url repo_path) files_to_try /\
   http_urls (events (V1.get_repo E repo_path flags w)) =
     List.map (file_url repo_path) files_to_try) /\
  (forall c, fs w !! TMP_DIR = Some (File c) ->
   V2.get_repo E repo_path flags w =
     mkRun (Raised (Exn FileExistsError TMP_DIR)) w
       [EvPrint ("Fetching repo: " +:+ repo_path)] /\
   V1.get_repo E repo_path flags w =
     mkRun (Raised (Exn FileExistsError TMP_DIR)) w
       [EvPrint ("Fetching repo: " +:+ repo_path)]).
Proof.
  split.
  - intros Hnf. split.
    + rewrite v2_get_repo_stages.
      apply fetch_stage_urls; [apply emits_v2_after_fetch|done].
    + rewrite v1_get_repo_stages.
      apply fetch_stage_urls; [apply emits_v1_after_fetch|done].
  - intros c Hc. split.
    + rewrite v2_get_repo_stages. by eapply workspace_blocked.
    + rewrite v1_get_repo_stages. by eapply workspace_blocked.
Qed.

Lemma fetch_requests_every_candidate_witness :
  http_urls (events (V2.get_repo (RefEnv.env 0 server_app_go) "alice/tool" []
                       RefEnv.empty_world)) =
    List.map (file_url "alice/tool") files_to_try /\
  V2.get_repo (RefEnv.env 0 server_app_go) "alice/tool" [] blocked_world =
    mkRun (Raised (Exn FileExistsError TMP_DIR)) blocked_world
      [EvPrint ("Fetching repo: " +:+ "alice/tool")].
Proof.
  split.
  - refine (proj1 (proj1 (fetch_requests_every_candidate (RefEnv.env 0 server_app_go)
                            "alice/tool" [] RefEnv.empty_world) _)).
    intros c. by vm_compute.
  - refine (proj1 (proj2 (fetch_requests_every_candidate (RefEnv.env 0 server_app_go)
                            "alice/tool" [] blocked_world) "not a directory" _)).
    by vm_compute.
Defined.

Lemma files_to_try_nodup : NoDup files_to_try.
Proof.
  unfold files_to_try.
  repeat (apply NoDup_cons; split;
          [rewrite ?elem_of_cons, elem_of_nil; intuition discriminate|]).
  apply NoDup_nil_2.
Qed.

Lemma fetch_loop_unwritten E url fnames d0 w f :
  f ∉ fnames ->
  fs (world (fetch_loop E url fnames d0 w)) !! os_path_join TMP_DIR f =
    fs w !! os_path_join TMP_DIR f.
Proof.
  intros Hnin.
  destruct (fetch_loop_spec E url fnames d0 w) as (d & _ & _ & _ & _ & Hw & Hf & _).
  apply Hf. intros Hin. destruct (Hw _ Hin) as [(g & Hg & Heq) _].
  apply os_path_join_inj in Heq. by subst.
Qed.

Lemma fetch_loop_content E url fnames d0 w f body :
  NoDup fnames -> f ∈ fnames ->
  http_get E (url +:+ "/" +:+ f) = HttpResponse 200 body ->
  fs w !! os_path_join TMP_DIR f <> Some Dir ->
  fs (world (fetch_loop E url fnames d0 w)) !! os_path_join TMP_DIR f =
    Some (File body).
Proof.
  revert d0 w. induction fnames as [|f0 rest IH]; intros d0 w Hnd Hin Hget Hdir.
  { by apply elem_of_nil in Hin. }
  apply NoDup_cons in Hnd as [Hf0 Hnd]. cbn [fetch_loop].
  destruct (fetch_one_cases E url f0 d0 w)
    as [(Hmiss & msg & Heq)|(body0 & Hget0 & Hdir0 & Heq)];
    rewrite (bind_run_normal _ _ _ _ _ _ Heq), world_prepend.
  - apply elem_of_cons in Hin as [->|Hin]; [|by apply IH].
    destruct Hmiss as [Hns|Hd]; [|done]. destruct Hns. by exists body.
  - apply elem_of_cons in Hin as [->|Hin].
    + rewrite (fetch_loop_unwritten E url rest _ _ f0 Hf0). cbn [fs].
      rewrite lookup_insert_eq. congruence.
    + apply IH; try done. cbn [fs].
      rewrite lookup_insert_ne; [done|].
      intros Heq'%os_path_join_inj. by subst.
Qed.

Lemma fetch_loop_unserved E url fnames d0 w f :
  f ∈ fnames ->
  ~ served E url f \/ fs w !! os_path_join TMP_DIR f = Some Dir ->
  fs (world (fetch_loop E url fnames d0 w)) !! os_path_join TMP_DIR f =
    fs w !! os_path_join TMP_DIR f.
Proof.
  intros Hin Hns.
  destruct (fetch_loop_spec E url fnames d0 w) as (d & _ & _ & _ & _ & _ & Hf & Hs).
  apply Hf. intros Hw. apply (Hs f Hin) in Hw as [Hsv Hd]. by destruct Hns.
Qed.

Lemma v2_no_unzip_world E repo_path flags w :
  list_in "--no-unzip" flags = true ->
  (forall c, fs w !! TMP_DIR <> Some (File c)) ->
  exists w0,
    (forall f, fs w0 !! os_path_join TMP_DIR f = fs w !! os_path_join TMP_DIR f) /\
    world (V2.get_repo E repo_path flags w) =
      world (fetch_loop E (BASE_URL +:+ "/" +:+ repo_path) files_to_try [] w0).
Proof.
  intros Hnu Hnf. rewrite v2_get_repo_stages. unfold fetch_stage. py_print.
  destruct (os_makedirs_cases w) as [(c & Hc & _)|(w0 & Hm & _ & _ & _ & Hfr)];
    [by destruct (Hnf c)|].
  exists w0. split.
  { intros f. apply Hfr. apply os_path_join_ne. }
  py_next Hm.
  destruct (fetch_loop_spec E (BASE_URL +:+ "/" +:+ repo_path) files_to_try [] w0)
    as (d & Ho & _).
  rewrite (bind_normal _ _ _ _ Ho), !world_prepend.
  by destruct (v2_after_fetch_no_unzip E repo_path flags d
                 (world (fetch_loop E (BASE_URL +:+ "/" +:+ repo_path) files_to_try [] w0))
                 Hnu) as (o & msg & ->).
Qed.

(** X7. What a fetch leaves in the Workspace. After [get_repo] of
    [src/fileshare.py] with --no-unzip, for each of the four candidates:
    if the server answered 200, the file of that name in /tmp/fsdl holds
    exactly the body of the answer, replacing whatever file was there
    before; if the server did not answer 200 (another status, or a
    network error), or a directory is in the way, the path is left as it
    was, so a copy from an earlier fetch stays in place. *)
Theorem fetch_stores_response_bodies (E : Env) (repo_path : string)
    (flags : list string) (w : World) (f : string) :
  list_in "--no-unzip" flags = true ->
  (forall c, fs w !! TMP_DIR <> Some (File c)) ->
  f ∈ files_to_try ->
  let r := V2.get_repo E repo_path flags w in
  (forall body,
     http_get E (file_url repo_path f) = HttpResponse 200 body ->
     fs w !! os_path_join TMP_DIR f <> Some Dir ->
     fs (world r) !! os_path_join TMP_DIR f = Some (File body)) /\
  (~ served E (BASE_URL +:+ "/" +:+ repo_path) f \/
   fs w !! os_path_join TMP_DIR f = Some Dir ->
   fs (world r) !! os_path_join TMP_DIR f = fs w !! os_path_join TMP_DIR f).
Proof.
  intros Hnu Hnf Hin. cbv zeta.
  destruct (v2_no_unzip_world E repo_path flags w Hnu Hnf) as (w0 & Hw0 & ->).
  split.
  - intros body Hget Hdir.
    apply (fetch_loop_content E _ _ _ _ _ _ files_to_try_nodup Hin Hget).
    by rewrite Hw0.
  - intros Hns. rewrite <- (Hw0 f).
    apply fetch_loop_unserved; [done|]. by rewrite Hw0.
Qed.

Lemma fetch_stores_response_bodies_witness :
  fs (world (V2.get_repo (RefEnv.env 0 server_app_go) "alice/tool" ["--no-unzip"]
               stale_world)) !! os_path_join TMP_DIR "app.zip" =
    Some (File "zip:main.go") /\
  fs (world (V2.get_repo (RefEnv.env 0 server_app_go) "alice/tool" ["--no-unzip"]
               stale_world)) !! os_path_join TMP_DIR "install.sh" =
    fs stale_world !! os_path_join TMP_DIR "install.sh".
Proof.
  assert (list_in "--no-unzip" ["--no-unzip"] = true) as H1 by (by vm_compute).
  assert (forall c, fs stale_world !! TMP_DIR <> Some (File c)) as H2
    by (intros c; by vm_compute).
  split.
  - assert ("app.zip" ∈ files_to_try) as H3 by (apply list_elem_of_In; vm_compute; tauto).
    refine (proj1 (fetch_stores_response_bodies (RefEnv.env 0 server_app_go)
                     "alice/tool" ["--no-unzip"] stale_world "app.zip" H1 H2 H3)
              "zip:main.go" _ _); by vm_compute.
  - assert ("install.sh" ∈ files_to_try) as H3
      by (apply list_elem_of_In; vm_compute; tauto).
    refine (proj2 (fetch_stores_response_bodies (RefEnv.env 0 server_app_go)
                     "alice/tool" ["--no-unzip"] stale_world "install.sh" H1 H2 H3) _).
    left. intros [body Hb]. by vm_compute in Hb.
Defined.


(* ===================================================================== *)
(** ** What the build hands to the installer *)
(* ===================================================================== *)

Lemma hidden_imports_run E mods w :
  (forall m, m ∈ mods -> find_spec E m <> None) ->
  V2.hidden_imports E mods w =
    mkRun (Normal (List.map (String.append "--hidden-import=")
                     (List.filter (importable E) mods))) w [].
Proof.
  induction mods as [|m mods IH]; intros H; [done|].
  cbn [V2.hidden_imports List.filter]. unfold importable at 1.
  destruct (find_spec E m) as [b|] eqn:Hm; [|by destruct (H m); [left|]].
  erewrite bind_run_normal;
    [|unfold importlib_find_spec; rewrite Hm; reflexivity].
  erewrite bind_run_normal; [|apply IH; intros; apply H; by right].
  by destruct b.
Qed.

Ltac build_ok :=
  left; rewrite ?prepend_run; cbn [outcome world events app cwd fs];
  split_and!; [done|done|all_zero|done].

Ltac build_failed cmd :=
  right; rewrite ?prepend_run; cbn [outcome world events app];
  split; [done|]; exists cmd; split; [rewrite !elem_of_cons; auto 10|done].

Lemma v1_build_result E w :
  fs w !! TMP_DIR = Some Dir ->
  build_result (v1_build_cmds (Detector w)) (fun _ => v1_artifact (Detector w))
    (V1.detect_and_build E w).
Proof.
  intros Hws. unfold V1.detect_and_build, build_result, Detector.
  py_next (os_chdir_ok TMP_DIR w Hws).
  change (resolve w TMP_DIR) with TMP_DIR.
  set (w1 := mkWorld (fs w) TMP_DIR).
  assert (in_workspace w = in_workspace w1) as -> by done.
  py_probe w1 "main.py".
  { cbn [v1_build_cmds v1_artifact]. py_print.
    py_run_next E; [|build_failed "pip install pyinstaller"].
    py_run_next E; [build_ok|build_failed "pyinstaller --onefile main.py"]. }
  py_probe w1 "main.go".
  { cbn [v1_build_cmds v1_artifact]. py_print.
    py_run_next E; [build_ok|build_failed "go build -o app_bin main.go"]. }
  py_probe w1 "main.cpp".
  { cbn [v1_build_cmds v1_artifact]. py_print.
    py_run_next E; [build_ok|build_failed "g++ main.cpp -o app_bin"]. }
  py_probe w1 "Makefile".
  { cbn [v1_build_cmds v1_artifact]. py_print.
    py_run_next E; [build_ok|build_failed "make"]. }
  cbn [v1_build_cmds v1_artifact]. py_print. build_ok.
Qed.

Lemma v2_build_result E reponame w :
  fs w !! TMP_DIR = Some Dir ->
  (forall m, m ∈ V2.known_hidden_imports -> find_spec E m <> None) ->
  build_result (v2_build_cmds E reponame (Detector w))
    (v2_artifact reponame (Detector w)) (V2.detect_and_build E reponame w).
Proof.
  intros Hws Himp. unfold V2.detect_and_build, build_result, Detector.
  cbv zeta.
  py_next (os_chdir_ok TMP_DIR w Hws).
  change (resolve w TMP_DIR) with TMP_DIR.
  set (w1 := mkWorld (fs w) TMP_DIR).
  assert (in_workspace w = in_workspace w1) as -> by done.
  py_next (hidden_imports_run E _ w1 Himp).
  py_probe w1 "main.py".
  { cbn [v2_build_cmds v2_artifact]. cbv zeta. py_print.
    py_run_next E; [|build_failed "pip install pyinstaller"].
    py_run_next E.
    2:{ build_failed
          ("sudo pyinstaller --onefile main.py --name " +:+ reponame +:+ " " +:+
             ("" +:+ " " +:+
              py_join " " (List.map (String.append "--hidden-import=")
                             (List.filter (importable E) V2.known_hidden_imports)))). }
    py_next (probe_abs _ (mkWorld m0 (cwd (mkWorld m (cwd w1))))
               (artifact_path_abs reponame)).
    rewrite !prepend_prepend. cbn [app].
    destruct (fs_has _ _) eqn:Hb; cbv iota; unfold ret; rewrite !prepend_run;
      cbn [outcome world events app cwd fs] in Hb |- *; rewrite ?Hb; left;
      (split_and!; [done|done|all_zero|done]). }
  py_probe w1 "main.go".
  { cbn [v2_build_cmds v2_artifact]. py_print.
    py_run_next E; [build_ok|build_failed ("go build -o " +:+ reponame +:+ " main.go")]. }
  py_probe w1 "main.cpp".
  { cbn [v2_build_cmds v2_artifact]. py_print.
    py_run_next E; [build_ok|build_failed ("g++ main.cpp -o " +:+ reponame)]. }
  py_probe w1 "Makefile".
  { cbn [v2_build_cmds v2_artifact]. py_print.
    py_run_next E; [build_ok|build_failed "make"]. }
  cbn [v2_build_cmds v2_artifact]. py_print. build_ok.
Qed.

(** X8. What [detect_and_build] builds and what it hands to the
    installer. Started in an existing Workspace (and, for
    [src/fileshare.py], with hidden-import probes that do not raise), a
    run either exits with status 1 right after reporting the failure of
    one of the build commands of the strategy detected, or returns having
    run exactly these commands, each with status 0, with /tmp/fsdl as
    working directory. In [src/fileshare.py] the PyInstaller command
    names the binary after the repository and lists a --hidden-import for
    each known module that can be imported; the result is
    /tmp/fsdl/dist/<reponame> if that path exists after the build and
    nothing otherwise, and <reponame> for Go and C++. In
    [src/FileShare/fileshare.py] the result does not depend on the
    repository: dist/main for Python, app_bin for Go and C++. In both, a
    Makefile project and a Workspace without entry point yield nothing to
    install, also when make succeeded. *)
Theorem build_artifact (E : Env) (reponame : string) (w : World) :
  fs w !! TMP_DIR = Some Dir ->
  (forall m, m ∈ V2.known_hidden_imports -> find_spec E m <> None) ->
  build_result (v2_build_cmds E reponame (Detector w))
    (v2_artifact reponame (Detector w)) (V2.detect_and_build E reponame w) /\
  build_result (v1_build_cmds (Detector w)) (fun _ => v1_artifact (Detector w))
    (V1.detect_and_build E w).
Proof.
  intros Hws Himp. split; [by apply v2_build_result|by apply v1_build_result].
Qed.

Lemma build_artifact_witness :
  Detector makefile_workspace = GenericMakefile /\
  outcome (V2.detect_and_build (RefEnv.env 0 []) "tool" makefile_workspace) =
    Normal None /\
  build_result (v2_build_cmds (RefEnv.env 0 []) "tool" (Detector makefile_workspace))
    (v2_artifact "tool" (Detector makefile_workspace))
    (V2.detect_and_build (RefEnv.env 0 []) "tool" makefile_workspace).
Proof.
  split; [by vm_compute|]. split; [by vm_compute|].
  refine (proj1 (build_artifact (RefEnv.env 0 []) "tool" makefile_workspace _ _)).
  - by vm_compute.
  - intros m _. discriminate.
Defined.


(* ===================================================================== *)
(** ** A hidden-import probe that raises *)
(* ===================================================================== *)

Lemma hidden_imports_raises E mods w :
  (exists m, m ∈ mods /\ find_spec E m = None) ->
  exists m, m ∈ mods /\ find_spec E m = None /\
    V2.hidden_imports E mods w = mkRun (Raised (Exn ModuleNotFoundError m)) w [].
Proof.
  induction mods as [|m0 mods IH]; intros (m & Hin & Hm).
  { by apply elem_of_nil in Hin. }
  cbn [V2.hidden_imports].
  destruct (find_spec E m0) as [b|] eqn:H0.
  - apply elem_of_cons in Hin as [->|Hin]; [congruence|].
    destruct IH as (m' & Hin' & Hm' & Heq); [by exists m|].
    exists m'. split; [by right|]. split; [done|].
    erewrite bind_run_normal;
      [|unfold importlib_find_spec; rewrite H0; reflexivity].
    rewrite prepend_nil. by apply bind_run_raised.
  - exists m0. split; [by left|]. split; [done|].
    apply bind_run_raised. unfold importlib_find_spec. by rewrite H0.
Qed.

(** X9. In [src/fileshare.py] the hidden imports are probed before the
    project is looked at. When the probe of one of the known modules
    raises (as [find_spec] does for pkg_resources.py2_warn on a machine
    without pkg_resources), [detect_and_build] raises
    [ModuleNotFoundError] for that module right after entering the
    Workspace: no marker is probed and no command is run, whatever the
    kind of project, Go and C++ included, and the file system is left as
    it was. *)
Theorem hidden_import_probe_aborts (E : Env) (reponame : string) (w : World) :
  fs w !! TMP_DIR = Some Dir ->
  (exists m, m ∈ V2.known_hidden_imports /\ find_spec E m = None) ->
  let r := V2.detect_and_build E reponame w in
  (exists m, m ∈ V2.known_hidden_imports /\ find_spec E m = None /\
             outcome r = Raised (Exn ModuleNotFoundError m)) /\
  events r = [EvChdir TMP_DIR] /\
  fs (world r) = fs w.
Proof.
  intros Hws Hex. cbv zeta. unfold V2.detect_and_build. cbv zeta.
  py_next (os_chdir_ok TMP_DIR w Hws).
  destruct (hidden_imports_raises E _ (mkWorld (fs w) (resolve w TMP_DIR)) Hex)
    as (m & Hin & Hm & Heq).
  py_fail Heq. rewrite prepend_run. cbn [outcome events world fs app].
  split; [by exists m|done].
Qed.

Lemma hidden_import_probe_aborts_witness :
  fs mixed_workspace !! TMP_DIR = Some Dir /\
  events (V2.detect_and_build env_without_pkg_resources "tool" mixed_workspace) =
    [EvChdir TMP_DIR].
Proof.
  assert (fs mixed_workspace !! TMP_DIR = Some Dir) as H1 by (by vm_compute).
  split; [exact H1|].
  refine (proj1 (proj2 (hidden_import_probe_aborts env_without_pkg_resources "tool"
                          mixed_workspace H1 _))).
  exists "pkg_resources.py2_warn". split; [|by vm_compute].
  apply list_elem_of_In. vm_compute. tauto.
Defined.

(* ===================================================================== *)
(** ** What is left over from an earlier fetch *)
(* ===================================================================== *)

Lemma not_exec_fetch_only e : fetch_only e = true -> negb (is_exec e) = true.
Proof. by destruct e. Qed.

Lemma emits_v2_after_fetch_no_script E repo_path flags d :
  list_in "install.sh" d = false ->
  emits (fun e => negb (is_exec e)) (v2_after_fetch E repo_path flags d).
Proof.
  intros Hin. unfold v2_after_fetch, v2_install_phase. rewrite Hin.
  destruct d; [emits_prog|]. destruct (list_in "--no-unzip" flags); [emits_prog|].
  apply emits_bind; [|intros _].
  { eapply emits_weaken; [|apply emits_unpack]. by intros []. }
  apply emits_bind; [by apply emits_os_chdir|intros _].
  apply emits_bind; [apply emits_unpack2|intros p].
  eapply emits_weaken; [|apply emits_v2_auto]. by intros [].
Qed.

Lemma emits_v1_after_fetch_no_script E repo_path flags d :
  list_in "install.sh" d = false ->
  emits (fun e => negb (is_exec e)) (v1_after_fetch E repo_path flags d).
Proof.
  intros Hin. unfold v1_after_fetch, v1_install_phase. rewrite Hin, andb_false_r.
  destruct d; [emits_prog|].
  apply emits_bind; [|intros _].
  { destruct (negb _); [|apply emits_ret].
    eapply emits_weaken; [|apply emits_unpack]. by intros []. }
  apply emits_bind; [apply emits_unpack2|intros p].
  apply emits_bind; [|intros _; by apply emits_print].
  eapply emits_weaken; [|apply emits_v1_auto]. by intros [].
Qed.

Lemma fetch_stage_no_script {A} E repo_path (k : list string -> Py A) w :
  ~ served E (BASE_URL +:+ "/" +:+ repo_path) "install.sh" ->
  (forall d, list_in "install.sh" d = false ->
             emits (fun e => negb (is_exec e)) (k d)) ->
  forall e, e ∈ events (fetch_stage E repo_path k w) -> is_exec e = false.
Proof.
  intros Hns Hk e He. apply negb_true_iff.
  destruct (fetch_stage_cases E repo_path k w)
    as [(c & _ & Heq)|(d & w1 & evs & Hf & Heq)]; rewrite Heq in He.
  { cbn in He. apply elem_of_cons in He as [->|He]; [done|].
    by apply elem_of_nil in He. }
  rewrite events_prepend, elem_of_app in He. destruct He as [He|He].
  - exact (fetch_prefix_quiet E (fun e => negb (is_exec e)) repo_path w d w1 evs e
             not_exec_fetch_only Hf He).
  - assert (list_in "install.sh" d = false) as Hd.
    { apply bool_decide_eq_false. intros Hin.
      destruct Hf as (_ & _ & _ & _ & _ & Hmem & _ & _ & Hs).
      apply Hmem in Hin as [Hin Hr]. apply (Hs _ Hin) in Hr as [Hsv _]. done. }
    by apply (emits_elem _ _ _ _ (Hk d Hd) He).
Qed.

(** X10. The install script is run only when this very fetch downloaded
    it. If the server does not answer 200 for install.sh, no run of
    [get_repo] executes any program, in either variant and whatever the
    flags, also when an install.sh from an earlier fetch is still in the
    Workspace. *)
Theorem script_runs_only_if_downloaded (E : Env) (repo_path : string)
    (flags : list string) (w : World) :
  ~ served E (BASE_URL +:+ "/" +:+ repo_path) "install.sh" ->
  (forall e, e ∈ events (V2.get_repo E repo_path flags w) -> is_exec e = false) /\
  (forall e, e ∈ events (V1.get_repo E repo_path flags w) -> is_exec e = false).
Proof.
  intros Hns. split.
  - rewrite v2_get_repo_stages. apply fetch_stage_no_script; [done|].
    intros d Hd. by apply emits_v2_after_fetch_no_script.
  - rewrite v1_get_repo_stages. apply fetch_stage_no_script; [done|].
    intros d Hd. by apply emits_v1_after_fetch_no_script.
Qed.

Lemma ref_install_sh_not_served :
  ~ served (RefEnv.env 0 server_app_go) (BASE_URL +:+ "/" +:+ "alice/tool") "install.sh".
Proof. intros [body Hb]. by vm_compute in Hb. Qed.

Lemma script_runs_only_if_downloaded_witness :
  fs stale_world !! os_path_join TMP_DIR "install.sh" = Some (File "old script") /\
  forall e,
    e ∈ events (V2.get_repo (RefEnv.env 0 server_app_go) "alice/tool" [] stale_world) ->
    is_exec e = false.
Proof.
  split; [by vm_compute|].
  exact (proj1 (script_runs_only_if_downloaded (RefEnv.env 0 server_app_go)
                  "alice/tool" [] stale_world ref_install_sh_not_served)).
Defined.

Lemma handed_app f l1 l2 l3 :
  handed_to_extraction f l2 -> handed_to_extraction f (l1 ++ l2 ++ l3).
Proof.
  intros [H|H]; [left; by apply unpacked_app|right; ev_in].
Qed.

Lemma extract_loop_unpacks E pre f post w :
  (forall g, g ∈ pre -> in_workspace w g = false) ->
  (exists c, fs w !! os_path_join TMP_DIR f = Some (File c)) ->
  handed_to_extraction f (events (extract_loop E (pre ++ f :: post) w)).
Proof.
  intros Hpre Hf. induction pre as [|g pre IH].
  - cbn [app extract_loop]. cbv zeta. py_next (probe_ws f w).
    assert (in_workspace w f = true) as ->.
    { apply fs_has_Some. destruct Hf as [c ->]. eauto. }
    assert (is_Some (fs w !! os_path_join TMP_DIR f)) as Hs
      by (destruct Hf as [c ->]; eauto).
    destruct (extract_zip_spec E f w Hs) as [_ Hu].
    assert (handed_to_extraction f
              (events (extract_zip E (os_path_join TMP_DIR f) w))) as Hun.
    { destruct (Hu Hf) as [[_ Hun]|(e & _ & _ & Hev)]; [by left|right].
      rewrite Hev. by left. }
    cbv iota. rewrite events_prepend.
    match goal with
    | |- context [events (bind ?m ?k ?w0)] =>
        destruct (bind_events_prefix m k w0) as [rest ->]
    end.
    by apply handed_app.
  - cbn [app]. rewrite extract_loop_skip; [|apply Hpre; by left].
    rewrite events_prepend.
    rewrite <- (app_nil_r (events _)). apply handed_app.
    apply IH. intros g' Hg'. apply Hpre. by right.
Qed.

Lemma zips_candidates g : g ∈ zips -> g ∈ files_to_try.
Proof.
  unfold zips, files_to_try. rewrite !elem_of_cons, !elem_of_nil. tauto.
Qed.

Lemma leftover_unpacked_by_loop E repo_path w d w1 evs f c :
  fetched E repo_path w d w1 evs ->
  f ∈ zips ->
  fs w !! os_path_join TMP_DIR f = Some (File c) ->
  (forall g, g ∈ zips -> g <> f ->
     fs w !! os_path_join TMP_DIR g = None /\
     ~ served E (BASE_URL +:+ "/" +:+ repo_path) g) ->
  handed_to_extraction f (events (extract_loop E zips w1)).
Proof.
  intros (_ & _ & _ & _ & _ & _ & Hw & Hfr & Hs) Hin Hc Hothers.
  assert (exists c', fs w1 !! os_path_join TMP_DIR f = Some (File c')) as Hf1.
  { destruct (decide (EvWrite (os_path_join TMP_DIR f) ∈ evs)) as [He|He].
    - by destruct (Hw _ He) as [_ ?].
    - exists c. rewrite Hfr; [done|done|apply os_path_join_ne]. }
  assert (forall g, g ∈ zips -> g <> f -> in_workspace w1 g = false) as Hg1.
  { intros g Hg Hne. destruct (Hothers g Hg Hne) as [Hnone Hns].
    unfold in_workspace. apply fs_has_None.
    rewrite Hfr; [done| |apply os_path_join_ne].
    intros He. apply (Hs g (zips_candidates g Hg)) in He as [Hsv _]. done. }
  unfold zips in Hin. repeat (apply elem_of_cons in Hin as [->|Hin]).
  - apply (extract_loop_unpacks E [] "main.zip" ["app.zip"; "root.zip"]); [|done].
    by intros g Hg%elem_of_nil.
  - apply (extract_loop_unpacks E ["main.zip"] "app.zip" ["root.zip"]); [|done].
    intros g Hg. rewrite !elem_of_cons, elem_of_nil in Hg.
    destruct Hg as [->|[]]. apply Hg1; [by apply list_in_true|done].
  - apply (extract_loop_unpacks E ["main.zip"; "app.zip"] "root.zip" []); [|done].
    intros g Hg. rewrite !elem_of_cons, elem_of_nil in Hg.
    destruct Hg as [->|[->|[]]]; (apply Hg1; [by apply list_in_true|done]).
  - by apply elem_of_nil in Hin.
Qed.

Lemma fetched_something E repo_path w d w1 evs :
  fetched E repo_path w d w1 evs ->
  (exists g, g ∈ files_to_try /\ served E (BASE_URL +:+ "/" +:+ repo_path) g /\
             fs w !! os_path_join TMP_DIR g <> Some Dir) ->
  d <> [].
Proof.
  intros (_ & _ & _ & _ & _ & Hmem & _ & _ & Hs) (g & Hg & Hsv & Hd) ->.
  assert (g ∈ @nil string) as Hin by (apply Hmem; split; [done|by apply Hs]).
  by apply elem_of_nil in Hin.
Qed.

(** X11. The archives are handed to the extraction by presence in the
    Workspace, not by what this fetch downloaded. If a regular file
    main.zip, app.zip or root.zip is in /tmp/fsdl before the run (left by
    an earlier fetch, of any repository), no other archive is there or on
    the server, and the fetch retrieves at least one candidate, then
    [get_repo] without --no-unzip runs the extraction on that archive, in
    both variants, whether or not the server has it: the archive is
    unpacked, or reported as a bad ZIP file, or its extraction breaks
    off. *)
Theorem leftover_archive_unpacked (E : Env) (repo_path : string)
    (flags : list string) (w : World) (f c : string) :
  list_in "--no-unzip" flags = false ->
  (forall c', fs w !! TMP_DIR <> Some (File c')) ->
  f ∈ zips ->
  fs w !! os_path_join TMP_DIR f = Some (File c) ->
  (forall g, g ∈ zips -> g <> f ->
     fs w !! os_path_join TMP_DIR g = None /\
     ~ served E (BASE_URL +:+ "/" +:+ repo_path) g) ->
  (exists g, g ∈ files_to_try /\ served E (BASE_URL +:+ "/" +:+ repo_path) g /\
             fs w !! os_path_join TMP_DIR g <> Some Dir) ->
  handed_to_extraction f (events (V2.get_repo E repo_path flags w)) /\
  handed_to_extraction f (events (V1.get_repo E repo_path flags w)).
Proof.
  intros Hnu Hnf Hin Hc Hothers Hsome. split.
  - rewrite v2_get_repo_stages.
    destruct (fetch_stage_cases E repo_path (v2_after_fetch E repo_path flags) w)
      as [(c' & Hfile & _)|(d & w1 & evs & Hf & ->)]; [by destruct (Hnf c')|].
    pose proof (fetched_something E repo_path w d w1 evs Hf Hsome) as Hd.
    pose proof (leftover_unpacked_by_loop E repo_path w d w1 evs f c Hf Hin Hc Hothers)
      as Hun.
    rewrite events_prepend. unfold v2_after_fetch. rewrite Hnu.
    destruct d as [|f0 d0]; [done|]. unfold v2_install_phase.
    destruct (bind_events_prefix (extract_loop E ["main.zip"; "app.zip"; "root.zip"])
                (fun _ => (os_chdir TMP_DIR ;;
                           p <- unpack2 (py_split "/" repo_path) ;;
                           if list_in "install.sh" (f0 :: d0) then v2_script E
                           else v2_auto E (snd p))%py) w1) as [rest ->].
    by apply handed_app.
  - rewrite v1_get_repo_stages.
    destruct (fetch_stage_cases E repo_path (v1_after_fetch E repo_path flags) w)
      as [(c' & Hfile & _)|(d & w1 & evs & Hf & ->)]; [by destruct (Hnf c')|].
    pose proof (fetched_something E repo_path w d w1 evs Hf Hsome) as Hd.
    pose proof (leftover_unpacked_by_loop E repo_path w d w1 evs f c Hf Hin Hc Hothers)
      as Hun.
    rewrite events_prepend. unfold v1_after_fetch.
    destruct d as [|f0 d0]; [done|]. unfold v1_install_phase. rewrite Hnu.
    cbn [negb].
    destruct (bind_events_prefix (extract_loop E ["main.zip"; "app.zip"; "root.zip"])
                (fun _ => (p <- unpack2 (py_split "/" repo_path) ;;
                           (if list_in "--ignore-default" flags
                               && list_in "install.sh" (f0 :: d0)
                            then v1_script E else v1_auto E (snd p)) ;;
                           print "Done.")%py) w1) as [rest ->].
    by apply handed_app.
Qed.

Lemma leftover_archive_unpacked_witness :
  ~ served (RefEnv.env 0 server_failing_script) (BASE_URL +:+ "/" +:+ "alice/tool")
      "app.zip" /\
  handed_to_extraction "app.zip"
    (events (V2.get_repo (RefEnv.env 0 server_failing_script) "alice/tool" []
               stale_world)).
Proof.
  split; [intros [body Hb]; by vm_compute in Hb|].
  refine (proj1 (leftover_archive_unpacked (RefEnv.env 0 server_failing_script)
                   "alice/tool" [] stale_world "app.zip" "old archive" _ _ _ _ _ _)).
  - by vm_compute.
  - intros c'. by vm_compute.
  - apply list_elem_of_In. vm_compute. tauto.
  - by vm_compute.
  - intros g Hg Hne. unfold zips in Hg.
    repeat (apply elem_of_cons in Hg as [->|Hg]); try done.
    + split; [by vm_compute|]. intros [body Hb]. by vm_compute in Hb.
    + split; [by vm_compute|]. intros [body Hb]. by vm_compute in Hb.
    + by apply elem_of_nil in Hg.
  - exists "install.sh". split; [apply list_elem_of_In; vm_compute; tauto|].
    split; [exists (RefEnv.script "exit 3"); by vm_compute|by vm_compute].
Defined.


(* ===================================================================== *)
(** ** Archives that cannot be unpacked *)
(* ===================================================================== *)

Lemma extract_zip_bad E f w c :
  fs w !! os_path_join TMP_DIR f = Some (File c) -> unzip E c = None ->
  extract_zip E (os_path_join TMP_DIR f) w =
    mkRun (Normal tt) w
      [EvPrint ("Bad ZIP file: " +:+ os_path_basename (os_path_join TMP_DIR f))].
Proof.
  intros Hl Hu. pose proof (zip_extractall_cases E f w) as Hz. cbv zeta in Hz.
  rewrite Hl, Hu in Hz. unfold extract_zip.
  erewrite try_run_handled; [|py_fail Hz; reflexivity|reflexivity].
  reflexivity.
Qed.

Lemma extract_zip_dir E f w :
  fs w !! os_path_join TMP_DIR f = Some Dir ->
  extract_zip E (os_path_join TMP_DIR f) w =
    mkRun (Raised (Exn IsADirectoryError (os_path_join TMP_DIR f))) w [].
Proof.
  intros Hl. pose proof (zip_extractall_cases E f w) as Hz. cbv zeta in Hz.
  rewrite Hl in Hz. unfold extract_zip.
  erewrite try_run_unhandled; [|py_fail Hz; reflexivity|reflexivity].
  reflexivity.
Qed.

Lemma extract_loop_corrupt E fnames w :
  (forall f, f ∈ fnames -> corrupt_or_absent E w f) ->
  outcome (extract_loop E fnames w) = Normal tt /\
  world (extract_loop E fnames w) = w /\
  (forall e, e ∈ events (extract_loop E fnames w) -> is_extract e = false) /\
  (forall f, f ∈ fnames -> in_workspace w f = true ->
     EvPrint ("Bad ZIP file: " +:+ os_path_basename (os_path_join TMP_DIR f))
       ∈ events (extract_loop E fnames w)).
Proof.
  induction fnames as [|f0 rest IH]; intros Hall.
  { split; [done|]. split; [done|]. split.
    - by intros e He%elem_of_nil.
    - by intros f Hf%elem_of_nil. }
  destruct IH as (Ho & Hw & He & Hb); [intros f Hf; apply Hall; by right|].
  cbn [extract_loop]. cbv zeta. py_next (probe_ws f0 w).
  destruct (Hall f0) as [Hnone|(c & Hl & Hu)]; [by left| |].
  - assert (in_workspace w f0 = false) as Hin by (by apply fs_has_None).
    rewrite Hin, bind_ret_l, outcome_prepend, world_prepend, events_prepend.
    split; [done|]. split; [done|]. split.
    + intros e. rewrite elem_of_app, elem_of_cons, elem_of_nil.
      intros [[->|[]]|Hin']; [done|by apply He].
    + intros f [->|Hf]%elem_of_cons Hf'; [congruence|].
      apply elem_of_app. right. by apply Hb.
  - assert (in_workspace w f0 = true) as Hin.
    { apply fs_has_Some. rewrite Hl. eauto. }
    rewrite Hin. py_next (extract_zip_bad E f0 w c Hl Hu).
    rewrite !outcome_prepend, !world_prepend, !events_prepend.
    split; [done|]. split; [done|]. split.
    + intros e. rewrite !elem_of_app, !elem_of_cons, !elem_of_nil.
      intros [[->|[]]|[[->|[]]|Hin']]; [done|done|by apply He].
    + intros f [->|Hf]%elem_of_cons Hf'.
      * apply elem_of_app. right. apply elem_of_app. left. by left.
      * apply elem_of_app. right. apply elem_of_app. right. by apply Hb.
Qed.

(** X12. Which archives stop the extraction. A corrupt archive does not:
    when every archive of the list that is in the Workspace is a regular
    file whose content is not a zip archive, the extraction loop returns
    normally, leaves the world exactly as it was, unpacks nothing, and
    reports each archive present as a bad ZIP file, so that [get_repo]
    goes on to the installation. A directory at the path of an archive
    does: [extract_zip] catches [BadZipFile] only, so the loop raises
    [IsADirectoryError] at the first such archive and the later ones are
    not looked at. *)
Theorem corrupt_archives_reported (E : Env) (fnames : list string) (w : World) :
  ((forall f, f ∈ fnames -> corrupt_or_absent E w f) ->
   let r := extract_loop E fnames w in
   outcome r = Normal tt /\ world r = w /\
   (forall e, e ∈ events r -> is_extract e = false) /\
   (forall f, f ∈ fnames -> in_workspace w f = true ->
      EvPrint ("Bad ZIP file: " +:+ os_path_basename (os_path_join TMP_DIR f))
        ∈ events r)) /\
  (forall f rest,
     fnames = f :: rest ->
     fs w !! os_path_join TMP_DIR f = Some Dir ->
     extract_loop E fnames w =
       mkRun (Raised (Exn IsADirectoryError (os_path_join TMP_DIR f))) w
         [EvProbe (os_path_join TMP_DIR f) true]).
Proof.
  split; [apply extract_loop_corrupt|].
  intros f rest -> Hd. cbn [extract_loop]. cbv zeta. py_next (probe_ws f w).
  assert (in_workspace w f = true) as ->.
  { apply fs_has_Some. rewrite Hd. eauto. }
  cbv iota. py_fail (extract_zip_dir E f w Hd).
  reflexivity.
Qed.

Lemma corrupt_archives_reported_witness :
  world (extract_loop (RefEnv.env 0 []) zips stale_world) = stale_world /\
  extract_loop (RefEnv.env 0 []) zips dir_archive_world =
    mkRun (Raised (Exn IsADirectoryError (os_path_join TMP_DIR "main.zip")))
      dir_archive_world [EvProbe (os_path_join TMP_DIR "main.zip") true].
Proof.
  split.
  - refine (proj1 (proj2 (proj1 (corrupt_archives_reported (RefEnv.env 0 []) zips
                                   stale_world) _))).
    intros f Hf. unfold zips in Hf.
    repeat (apply elem_of_cons in Hf as [->|Hf]).
    + left. by vm_compute.
    + right. exists "old archive". split; by vm_compute.
    + left. by vm_compute.
    + by apply elem_of_nil in Hf.
  - refine (proj2 (corrupt_archives_reported (RefEnv.env 0 []) zips dir_archive_world)
              "main.zip" ["app.zip"; "root.zip"] eq_refl _).
    by vm_compute.
Defined.
